(** * yw-table installer (setup.pyw): a model of [install] and its properties

    The installer is a straight-line script over the file system.  It is
    embedded here as a program in a small state-and-exception monad whose
    state holds the directory tree below the user's home directory, the
    module-level [message] list (the progress trace) and a ghost log of the
    calls made to mutating file-system primitives.

    Modelling conventions.
    - A directory is an association list from entry names to nodes, in the
      order [os.scandir] yields them.
    - File-system primitives fail only for structural reasons (a missing
      entry, an entry of the wrong kind, an entry that already exists);
      there are no symbolic links and no permission faults.
    - The source bundle (the installer's working directory) lies outside the
      installation root; [install] only reads from it.
    - A file's content is the text written to it; its mode is the
      [st_mode] that [os.stat] reports.  On Windows [os.chmod] changes the
      read-only flag and nothing else.
    - Exceptions are the [OSError] subclasses a Linux host raises. *)

From Stdlib Require Import String Ascii List ZArith Bool.
Import ListNotations.
Local Open Scope string_scope.
Local Open Scope list_scope.

(** ** Directory trees *)

Module FS.

#[warnings="-register-all"]
Inductive node : Type :=
| File (data : string) (mode : Z)
| Dir (entries : list (string * node)).

Definition path := list string.

(** First entry called [x]. *)
Fixpoint assoc {A : Type} (x : string) (es : list (string * A)) : option A :=
  match es with
  | [] => None
  | (y, v) :: es' => if String.eqb x y then Some v else assoc x es'
  end.

(** Drop every entry called [x]. *)
Fixpoint drop {A : Type} (x : string) (es : list (string * A)) : list (string * A) :=
  match es with
  | [] => []
  | (y, v) :: es' => if String.eqb x y then drop x es' else (y, v) :: drop x es'
  end.

(** Replace the entry called [x] in place; a new name goes to the end. *)
Fixpoint put {A : Type} (x : string) (v : A) (es : list (string * A)) : list (string * A) :=
  match es with
  | [] => [(x, v)]
  | (y, w) :: es' => if String.eqb x y then (x, v) :: es' else (y, w) :: put x v es'
  end.

Definition set_entry {A : Type} (x : string) (o : option A) (es : list (string * A))
  : list (string * A) :=
  match o with
  | Some v => put x v es
  | None => drop x es
  end.

(** The node a path leads to. *)
Fixpoint lookup (p : path) (n : node) : option node :=
  match p with
  | [] => Some n
  | x :: p' =>
      match n with
      | Dir es =>
          match assoc x es with
          | Some c => lookup p' c
          | None => None
          end
      | File _ _ => None
      end
  end.

(** Rewrite the entry a path names inside its (existing) parent directory.
    Nothing changes when the parent is missing or is not a directory. *)
Fixpoint update (p : path) (f : option node -> option node) (n : node) : node :=
  match p with
  | [] => n
  | x :: p' =>
      match n with
      | Dir es =>
          match p' with
          | [] => Dir (set_entry x (f (assoc x es)) es)
          | _ :: _ =>
              match assoc x es with
              | Some c => Dir (put x (update p' f c) es)
              | None => n
              end
          end
      | File _ _ => n
      end
  end.

(** [os.makedirs(p, exist_ok=True)]: every missing directory on the way is
    created; [None] when a component exists and is not a directory. *)
Fixpoint mkdirs (p : path) (n : node) : option node :=
  match n with
  | File _ _ => None
  | Dir es =>
      match p with
      | [] => Some n
      | x :: p' =>
          let c := match assoc x es with Some c => c | None => Dir [] end in
          match mkdirs p' c with
          | Some c' => Some (Dir (put x c' es))
          | None => None
          end
      end
  end.

Definition is_file (p : path) (n : node) : bool :=
  match lookup p n with
  | Some (File _ _) => true
  | _ => false
  end.

Definition is_dir (p : path) (n : node) : bool :=
  match lookup p n with
  | Some (Dir _) => true
  | _ => false
  end.

Definition exists_at (p : path) (n : node) : bool :=
  match lookup p n with
  | Some _ => true
  | None => false
  end.

(** [p] is an initial segment of [q]. *)
Fixpoint prefix (p q : path) : bool :=
  match p, q with
  | [], _ => true
  | x :: p', y :: q' => String.eqb x y && prefix p' q'
  | _ :: _, [] => false
  end.

(** [p] and [q] part ways: at some position both have a component and the
    first such components that differ come before either path ends. *)
Fixpoint diverge (p q : path) : bool :=
  match p, q with
  | x :: p', y :: q' => if String.eqb x y then diverge p' q' else true
  | _, _ => false
  end.

Definition parent (p : path) : path := removelast p.

End FS.

(** ** Exceptions, state and the installer monad *)

(** The [OSError] subclasses the file-system calls of [install] raise, with
    the kinds a Linux host reports (other hosts raise another subclass in
    some of these places, e.g. [PermissionError] for a directory handed to
    [os.remove]; nothing below depends on the kind). *)
Inductive exn : Type :=
| FileNotFoundError (filename : string)
| FileExistsError (filename : string)
| IsADirectoryError (filename : string)
| NotADirectoryError (filename : string).

(** [c in s], for a character. *)
Fixpoint has_char (c : ascii) (s : string) : bool :=
  match s with
  | EmptyString => false
  | String d s' => Ascii.eqb c d || has_char c s'
  end.

Definition hex_digit (n : N) : ascii :=
  ascii_of_N (if N.ltb n 10 then 48 + n else 87 + n).

(** One character of [repr(s)] inside the quotes [q]: the quote in use and
    the backslash are escaped, tab, newline and carriage return have their
    letters, other control characters are written in hexadecimal, and
    everything else stands for itself (bytes above 127 are taken to be
    parts of printable characters). *)
Definition repr_char (q c : ascii) : string :=
  let n := N_of_ascii c in
  if Ascii.eqb c q || Ascii.eqb c "092"
  then String "092" (String c EmptyString)
  else if N.eqb n 9 then String "092" "t"
  else if N.eqb n 10 then String "092" "n"
  else if N.eqb n 13 then String "092" "r"
  else if N.ltb n 32 || N.eqb n 127
  then String "092" (String "x" (String (hex_digit (N.div n 16))
                                   (String (hex_digit (N.modulo n 16)) EmptyString)))
  else String c EmptyString.

Fixpoint repr_body (q : ascii) (s : string) : string :=
  match s with
  | EmptyString => EmptyString
  | String c s' => repr_char q c ++ repr_body q s'
  end.

(** [repr(s)] of a [str]: apostrophes around the text, or double quotes
    when the text holds an apostrophe and no double quote. *)
Definition repr (s : string) : string :=
  let q := if has_char "039" s && negb (has_char "034" s)
           then "034"%char else "039"%char in
  String q (repr_body q s ++ String q EmptyString).

(** [str(ex)], as CPython renders an [OSError] on a Linux host. *)
Definition str (e : exn) : string :=
  match e with
  | FileNotFoundError f => "[Errno 2] No such file or directory: " ++ repr f
  | FileExistsError f => "[Errno 17] File exists: " ++ repr f
  | IsADirectoryError f => "[Errno 21] Is a directory: " ++ repr f
  | NotADirectoryError f => "[Errno 20] Not a directory: " ++ repr f
  end.

(** A path as the script builds it: the string handed to the library call
    and the components it resolves to (relative to the home directory, or to
    the working directory for the bundle). *)
Record loc : Type := mkloc { text : string; comps : FS.path }.

(** [f'{d}{name}'], for a [d] that ends in a separator. *)
Definition child (d : loc) (name : string) : loc :=
  mkloc (text d ++ name) (comps d ++ [name]).

(** [f'{d}/{name}']. *)
Definition child_sep (d : loc) (name : string) : loc :=
  mkloc (text d ++ "/" ++ name) (comps d ++ [name]).

(** Ghost log: the calls to mutating file-system primitives, in order. *)
Inductive fsop : Type :=
| OpMakedirs (p : FS.path)
| OpRmtree (p : FS.path)
| OpRemove (p : FS.path)
| OpCopyfile (src dst : FS.path)
| OpCopytree (src dst : FS.path)
| OpChmod (p : FS.path) (mode : Z)
| OpWrite (p : FS.path) (data : string).

Record state : Type := mkstate {
  fs : FS.node;            (* the tree below the home directory *)
  message : list string;   (* the module-level [message] list *)
  calls : list fsop        (* ghost *)
}.

Inductive result (A : Type) : Type :=
| Ok (a : A)
| Raise (e : exn).
Arguments Ok {A} a.
Arguments Raise {A} e.

Definition M (A : Type) : Type := state -> result A * state.

Definition ret {A : Type} (a : A) : M A := fun s => (Ok a, s).

Definition bind {A B : Type} (m : M A) (k : A -> M B) : M B :=
  fun s =>
    match m s with
    | (Ok a, s') => k a s'
    | (Raise e, s') => (Raise e, s')
    end.

Definition raise {A : Type} (e : exn) : M A := fun s => (Raise e, s).

(** [try: m  except ... as ex: h ex]. *)
Definition try_except {A : Type} (m : M A) (h : exn -> M A) : M A :=
  fun s =>
    match m s with
    | (Ok a, s') => (Ok a, s')
    | (Raise e, s') => h e s'
    end.

Notation "x <- c1 ;; c2" := (bind c1 (fun x => c2))
  (at level 61, c1 at next level, right associativity).
Notation "c1 ;; c2" := (bind c1 (fun _ => c2))
  (at level 61, right associativity).

Definition pass : M unit := ret tt.

(** [for x in xs: body x]. *)
Fixpoint for_each {A : Type} (xs : list A) (body : A -> M unit) : M unit :=
  match xs with
  | [] => ret tt
  | x :: xs' => body x ;; for_each xs' body
  end.

Definition set_fs (n : FS.node) (s : state) : state :=
  mkstate n (message s) (calls s).

Definition log (o : fsop) (s : state) : state :=
  mkstate (fs s) (message s) (calls s ++ [o]).

(** [output(text)]: [message.append(text)]; the label refresh is outside
    the model. *)
Definition output (t : string) : M unit :=
  fun s => (Ok tt, mkstate (fs s) (message s ++ [t]) (calls s)).

(** ** The host: what [install] reads from its surroundings *)

Record env : Type := mkenv {
  homePath : string;          (* [str(Path.home()).replace('\\', '/')] *)
  platform_system : string;   (* [platform.system()] *)
  new_file_mode : Z;          (* [st_mode] of a newly created file *)
  cwd : FS.node               (* the bundle: the installer's directory *)
}.

(** ** Strings: substring test and [string.Template] *)

(** [sub in s]. *)
Fixpoint contains (sub s : string) : bool :=
  String.prefix sub s ||
  match s with
  | EmptyString => false
  | String _ s' => contains sub s'
  end.

Definition nl : string := String "010"%char EmptyString.
Definition quote : string := String "034"%char EmptyString.

Definition is_letter (c : ascii) : bool :=
  let n := N_of_ascii c in
  (N.leb 65 n && N.leb n 90) || (N.leb 97 n && N.leb n 122).

Definition is_idstart (c : ascii) : bool :=
  Ascii.eqb c "_" || is_letter c.

Definition is_idchar (c : ascii) : bool :=
  let n := N_of_ascii c in
  is_idstart c || (N.leb 48 n && N.leb n 57).

(** What a placeholder [$id] becomes: its value, or itself when the mapping
    has no such key. *)
Definition placeholder (mapping : list (string * string)) (id : string) : string :=
  match FS.assoc id mapping with
  | Some v => v
  | None => String "$" id
  end.

(** [Template(tmpl).safe_substitute(mapping)] for templates written with
    [$identifier] placeholders and the [$$] escape (the braced form does not
    occur in this script).  [pending] is the identifier being read after a
    dollar sign. *)
Fixpoint scan (mapping : list (string * string)) (pending : option string)
  (tmpl : string) : string :=
  match tmpl with
  | EmptyString =>
      match pending with
      | Some id => placeholder mapping id
      | None => EmptyString
      end
  | String c rest =>
      match pending with
      | None =>
          if Ascii.eqb c "$" then scan mapping (Some EmptyString) rest
          else String c (scan mapping None rest)
      | Some EmptyString =>
          if is_idstart c then scan mapping (Some (String c EmptyString)) rest
          else if Ascii.eqb c "$" then String "$" (scan mapping None rest)
          else String "$" (String c (scan mapping None rest))
      | Some id =>
          if is_idchar c then scan mapping (Some (id ++ String c EmptyString)%string) rest
          else if Ascii.eqb c "$"
               then (placeholder mapping id ++ scan mapping (Some EmptyString) rest)%string
               else (placeholder mapping id ++ String c (scan mapping None rest))%string
      end
  end.

Definition safe_substitute (tmpl : string) (mapping : list (string * string)) : string :=
  scan mapping None tmpl.

(** ** Module-level constants of setup.pyw *)

Definition APPNAME : string := "yw_table".
Definition APP : string := APPNAME ++ ".py".
Definition INI_FILE : string := APPNAME ++ ".ini".
Definition INI_PATH : string := "/config/".
Definition SAMPLE_PATH : string := "sample/".

Definition SUCCESS_MESSAGE : string :=
  nl ++ "$Appname is installed here:" ++ nl ++ "$Apppath" ++ nl.

Definition SHORTCUT_MESSAGE : string :=
  nl ++ "Now you might want to create a shortcut on your desktop.  " ++ nl
  ++ nl
  ++ "On Windows, open the installation folder, hold down the Alt key on your keyboard, " ++ nl
  ++ "and then drag and drop " ++ quote ++ "run.pyw" ++ quote ++ " to your desktop." ++ nl
  ++ nl
  ++ "On Linux, create a launcher on your desktop. With xfce for instance, the launcher's command may look like this:" ++ nl
  ++ "python3 '$Apppath' %f" ++ nl.

Definition START_UP_SCRIPT : string := "run.pyw".
Definition START_UP_CODE : string :=
  "import " ++ APPNAME ++ nl ++ APPNAME ++ ".main()" ++ nl.

(** [stat.S_IEXEC], 0o100. *)
Definition S_IEXEC : Z := 64.
(** [stat.S_IWRITE], 0o200. *)
Definition S_IWRITE : Z := 128.
(** The write bits of a mode, 0o222. *)
Definition WRITE_BITS : Z := 146.
(** [stat.S_IFDIR], 0o040000. *)
Definition S_IFDIR : Z := 16384.

(** ** File-system primitives *)

Section Installer.

Variable E : env.

(** What [os.makedirs(d, exist_ok=True)] raises in the tree [n] when a
    regular file is in the way.  A file at [d] itself makes the last
    [mkdir] raise [FileExistsError]; a file above [d] makes the [mkdir]
    below it raise [NotADirectoryError].  The exception carries the path of
    the [mkdir] that failed, which is [d] when the file is at [d] or right
    above it, as in the two calls of [install] from [__main__]; for a file
    higher up the model reports [d] all the same. *)
Definition makedirs_error (d : loc) (n : FS.node) : exn :=
  if FS.is_file (comps d) n
  then FileExistsError (text d)
  else NotADirectoryError (text d).

(** [os.makedirs(d, exist_ok=True)]. *)
Definition makedirs (d : loc) : M unit :=
  fun s =>
    let s' := log (OpMakedirs (comps d)) s in
    match FS.mkdirs (comps d) (fs s) with
    | Some n => (Ok tt, set_fs n s')
    | None => (Raise (makedirs_error d (fs s)), s')
    end.

(** [os.path.isfile(d)]. *)
Definition isfile (d : loc) : M bool :=
  fun s => (Ok (FS.is_file (comps d) (fs s)), s).

(** [rmtree(d, ignore_errors=True)]: a directory goes with everything below
    it; anything else (a missing entry, a regular file) is an ignored error. *)
Definition rmtree_ignore_errors (d : loc) : M unit :=
  fun s =>
    let s' := log (OpRmtree (comps d)) s in
    if FS.is_dir (comps d) (fs s)
    then (Ok tt, set_fs (FS.update (comps d) (fun _ => None) (fs s)) s')
    else (Ok tt, s').

(** The names [os.scandir] yields for a directory of the node [n]. *)
Definition listing (d : loc) (n : FS.node) : result (list string) :=
  match FS.lookup (comps d) n with
  | Some (FS.Dir es) => Ok (map fst es)
  | Some (FS.File _ _) => Raise (NotADirectoryError (text d))
  | None => Raise (FileNotFoundError (text d))
  end.

(** [os.scandir(d)] below the home directory, read in full. *)
Definition scandir (d : loc) : M (list string) :=
  fun s => (listing d (fs s), s).

(** [os.scandir(d)] in the installer's working directory. *)
Definition scandir_cwd (d : loc) : M (list string) :=
  fun s => (listing d (cwd E), s).

(** [os.remove(d)]: removes a regular file only. *)
Definition remove (d : loc) : M unit :=
  fun s =>
    let s' := log (OpRemove (comps d)) s in
    match FS.lookup (comps d) (fs s) with
    | Some (FS.File _ _) =>
        (Ok tt, set_fs (FS.update (comps d) (fun _ => None) (fs s)) s')
    | Some (FS.Dir _) => (Raise (IsADirectoryError (text d)), s')
    | None => (Raise (FileNotFoundError (text d)), s')
    end.

(** Opening [d] for writing and storing [data]: an existing file keeps its
    mode and loses its content, a missing one is created in its directory. *)
Definition store (d : loc) (data : string) (s : state) : result unit * state :=
  match FS.lookup (comps d) (fs s) with
  | Some (FS.Dir _) => (Raise (IsADirectoryError (text d)), s)
  | Some (FS.File _ m) =>
      (Ok tt, set_fs (FS.update (comps d) (fun _ => Some (FS.File data m)) (fs s)) s)
  | None =>
      if FS.is_dir (FS.parent (comps d)) (fs s)
      then (Ok tt, set_fs (FS.update (comps d)
                             (fun _ => Some (FS.File data (new_file_mode E))) (fs s)) s)
      else (Raise (FileNotFoundError (text d)), s)
  end.

(** [copyfile(src, dst)], [src] in the working directory: the content of a
    regular file is copied, the source being opened first. *)
Definition copyfile (src dst : loc) : M unit :=
  fun s =>
    let s' := log (OpCopyfile (comps src) (comps dst)) s in
    match FS.lookup (comps src) (cwd E) with
    | Some (FS.File data _) => store dst data s'
    | Some (FS.Dir _) => (Raise (IsADirectoryError (text src)), s')
    | None => (Raise (FileNotFoundError (text src)), s')
    end.

(** [copytree(src, dst)], [src] in the working directory: the source is
    listed first, then [dst] is created (it must not exist) and receives a
    copy of the whole subtree, modes included. *)
Definition copytree (src dst : loc) : M unit :=
  fun s =>
    let s' := log (OpCopytree (comps src) (comps dst)) s in
    match FS.lookup (comps src) (cwd E) with
    | Some (FS.Dir es) =>
        if FS.exists_at (comps dst) (fs s)
        then (Raise (FileExistsError (text dst)), s')
        else
          match FS.mkdirs (FS.parent (comps dst)) (fs s) with
          | Some n =>
              (Ok tt, set_fs (FS.update (comps dst) (fun _ => Some (FS.Dir es)) n) s')
          | None => (Raise (NotADirectoryError (text dst)), s')
          end
    | Some (FS.File _ _) => (Raise (NotADirectoryError (text src)), s')
    | None => (Raise (FileNotFoundError (text src)), s')
    end.

(** [os.stat(d).st_mode]; directories carry no permission bits in the
    model. *)
Definition stat_mode (d : loc) : M Z :=
  fun s =>
    match FS.lookup (comps d) (fs s) with
    | Some (FS.File _ m) => (Ok m, s)
    | Some (FS.Dir _) => (Ok S_IFDIR, s)
    | None => (Raise (FileNotFoundError (text d)), s)
    end.

(** The mode [os.stat] reports for a file of mode [old] once
    [os.chmod] has been called on it with [mode].  On Windows [os.chmod]
    can only set or clear the read-only flag, which it takes from
    [stat.S_IWRITE]: the write bits follow that bit of [mode] and every
    other bit of [old] stays.  Elsewhere the file gets the bits asked
    for. *)
Definition chmod_mode (old mode : Z) : Z :=
  if String.eqb (platform_system E) "Windows"
  then if Z.eqb (Z.land mode S_IWRITE) 0
       then Z.ldiff old WRITE_BITS
       else Z.lor old WRITE_BITS
  else mode.

(** [os.chmod(d, mode)]. *)
Definition chmod (d : loc) (mode : Z) : M unit :=
  fun s =>
    let s' := log (OpChmod (comps d) mode) s in
    match FS.lookup (comps d) (fs s) with
    | Some (FS.File data old) =>
        (Ok tt, set_fs (FS.update (comps d)
                          (fun _ => Some (FS.File data (chmod_mode old mode))) (fs s)) s')
    | Some (FS.Dir _) => (Ok tt, s')
    | None => (Raise (FileNotFoundError (text d)), s')
    end.

(** [with open(d, 'w', encoding='utf-8') as f: f.write(data)]. *)
Definition write_text (d : loc) (data : string) : M unit :=
  fun s => store d data (log (OpWrite (comps d) data) s).

(** ** [install], block by block *)

(** The trace lines of lines 112, 118, 122, 137 and 139. *)
Definition Removing (name : string) : string := "Removing " ++ quote ++ name ++ quote.
Definition Copying (name : string) : string := "Copying " ++ quote ++ name ++ quote.
Definition Keeping (name : string) : string := "Keeping " ++ quote ++ name ++ quote.

(** [SAMPLE_PATH], in the working directory. *)
Definition sample_dir : loc := mkloc SAMPLE_PATH ["sample"].

Section Install.

Variable pywriterPath : loc.

Definition installDir : loc := child pywriterPath APPNAME.
Definition cnfDir : loc :=
  mkloc (text installDir ++ INI_PATH) (comps installDir ++ ["config"]).

(** Lines 108-114: the body of the purge loop. *)
Definition purge_entry (name : string) : M unit :=
  if negb (contains "config" name)
  then try_except
         (remove (child_sep installDir name) ;;
          output (Removing name))
         (fun _ => pass)
  else pass.

(** Lines 105-114: delete the old version, but retain configuration. *)
Definition delete_old_version : M unit :=
  rmtree_ignore_errors (child_sep installDir "locale") ;;
  files <- scandir installDir ;;
  for_each files purge_entry.

(** Lines 116-118: install the new version. *)
Definition install_new_version : M unit :=
  copyfile (mkloc APP [APP]) (child_sep installDir APP) ;;
  output (Copying APP).

(** Lines 120-122: install the localization files. *)
Definition install_localization : M unit :=
  copytree (mkloc "locale" ["locale"]) (child_sep installDir "locale") ;;
  output (Copying "locale").

(** Lines 124-129: make the script executable. *)
Definition make_executable : M unit :=
  try_except
    (st_mode <- stat_mode (child_sep installDir APP) ;;
     chmod (child_sep installDir APP) (Z.lor st_mode S_IEXEC))
    (fun _ => pass).

(** Lines 135-139: the body of the seeding loop. *)
Definition seed_entry (name : string) : M unit :=
  present <- isfile (child cnfDir name) ;;
  if negb present
  then copyfile (child sample_dir name) (child cnfDir name) ;;
       output (Copying name)
  else output (Keeping name).

(** Lines 131-141: install configuration files, if needed. *)
Definition install_configuration : M unit :=
  try_except
    (files <- scandir_cwd sample_dir ;;
     for_each files seed_entry)
    (fun _ => pass).

Definition mapping : list (string * string) :=
  [("Appname", APPNAME); ("Apppath", text (child_sep installDir APP))].

(** Lines 143-145: display a success message. *)
Definition display_success : M unit :=
  output (safe_substitute SUCCESS_MESSAGE mapping).

(** Lines 147-149: ask for shortcut creation. *)
Definition ask_shortcut (simpleUpdate : bool) : M unit :=
  if negb simpleUpdate
  then output (safe_substitute SHORTCUT_MESSAGE mapping)
  else pass.

Definition shebang : string :=
  if String.eqb (platform_system E) "Windows"
  then EmptyString
  else "#!/usr/bin/python3" ++ nl.

(** Lines 151-157: create a start-up script. *)
Definition create_startup_script : M unit :=
  write_text (child_sep installDir START_UP_SCRIPT) (shebang ++ START_UP_CODE).

(** Lines 105-157, for a given value of [simpleUpdate]. *)
Definition install_steps (simpleUpdate : bool) : M unit :=
  delete_old_version ;;
  install_new_version ;;
  install_localization ;;
  make_executable ;;
  install_configuration ;;
  display_success ;;
  ask_shortcut simpleUpdate ;;
  create_startup_script.

(** [install(pywriterPath)]. *)
Definition install : M unit :=
  makedirs pywriterPath ;;
  simpleUpdate <- isfile (child_sep installDir APP) ;;
  makedirs cnfDir ;;
  install_steps simpleUpdate.

End Install.

(** The installation part of [__main__] (lines 175-180). *)
Definition main_pywriterPath : loc :=
  mkloc (homePath E ++ "/.pywriter/") [".pywriter"].

(** Lines 177-180: the call site of [install] and its handler. *)
Definition run (pywriterPath : loc) : M unit :=
  try_except (install pywriterPath) (fun ex => output (str ex)).

Definition main : M unit := run main_pywriterPath.

(** The state [__main__] starts from: an empty [message] list. *)
Definition initial (home : FS.node) : state := mkstate home [] [].

End Installer.

(** ** Notions used in the statements *)

(** Every final state of [m] is related to the state it started from. *)
Definition preserves {A : Type} (R : state -> state -> Prop) (m : M A) : Prop :=
  forall s, R s (snd (m s)).

(** The regular files at or below [d] are all still there, unchanged. *)
Definition files_kept (d : FS.path) (s s' : state) : Prop :=
  forall q data m,
    FS.prefix d q = true ->
    FS.lookup q (fs s) = Some (FS.File data m) ->
    FS.lookup q (fs s') = Some (FS.File data m).

(** No path at or below [d] is reached by an update at [p]. *)
Definition apart (d p : FS.path) : Prop :=
  forall q, FS.prefix d q = true -> FS.diverge p q = true.

(** The entry a path leads to is the same before and after. *)
Definition same_at (q : FS.path) (s s' : state) : Prop :=
  FS.lookup q (fs s') = FS.lookup q (fs s).

(** A path that leads to [o] beforehand still leads to [o] afterwards. *)
Definition entry_kept (q : FS.path) (o : option FS.node) (s s' : state) : Prop :=
  FS.lookup q (fs s) = o -> FS.lookup q (fs s') = o.

(** The names the purge loop tries to remove. *)
Definition not_config (name : string) : bool := negb (contains "config" name).

(** The state with one more line on the trace. *)
Definition add_message (t : string) (s : state) : state :=
  mkstate (fs s) (message s ++ [t]) (calls s).

(** The call that copies the sample file [name] into the configuration
    directory. *)
Definition copy_op (P : loc) (name : string) : fsop :=
  OpCopyfile ["sample"; name] (comps (cnfDir P) ++ [name]).

(** The trace line the seeding loop writes for [name] when the copy, if
    there is one, succeeds in the tree [n]. *)
Definition seed_line (P : loc) (n : FS.node) (name : string) : string :=
  if FS.is_file (comps (cnfDir P) ++ [name]) n then Keeping name else Copying name.

(** The sample files the seeding loop copies in the tree [n]. *)
Definition to_copy (P : loc) (n : FS.node) (name : string) : bool :=
  negb (FS.is_file (comps (cnfDir P) ++ [name]) n).

(** The turn of the seeding loop for [name] raises in the tree [n]: no
    regular file of that name is in the configuration directory, so
    [copyfile] is called, and the sample is not a regular file or the
    name is taken there by a directory. *)
Definition copy_raises (E : env) (P : loc) (n : FS.node) (name : string) : bool :=
  negb (FS.is_file (comps (cnfDir P) ++ [name]) n) &&
  (negb (FS.is_file ["sample"; name] (cwd E)) ||
   FS.exists_at (comps (cnfDir P) ++ [name]) n).

(** The names whose turn returns: those listed before the first one whose
    turn raises. *)
Fixpoint seeded (E : env) (P : loc) (n : FS.node) (names : list string)
  : list string :=
  match names with
  | [] => []
  | x :: rest => if copy_raises E P n x then [] else x :: seeded E P n rest
  end.

(** The names the loop gets to: the seeded ones and the one whose turn
    raises, if there is one. *)
Fixpoint reached (E : env) (P : loc) (n : FS.node) (names : list string)
  : list string :=
  match names with
  | [] => []
  | x :: rest => if copy_raises E P n x then [x] else x :: reached E P n rest
  end.

Section Phases.

Variable E : env.
Variable pywriterPath : loc.

(** Lines 96-114: what [install] does before the first copy, handing on
    the value of [simpleUpdate]. *)
Definition prepare : M bool :=
  makedirs pywriterPath ;;
  simpleUpdate <- isfile (child_sep (installDir pywriterPath) APP) ;;
  makedirs (cnfDir pywriterPath) ;;
  delete_old_version pywriterPath ;;
  ret simpleUpdate.

(** Lines 124-157: what follows the two copies. *)
Definition finish (simpleUpdate : bool) : M unit :=
  make_executable E pywriterPath ;;
  install_configuration E pywriterPath ;;
  display_success pywriterPath ;;
  ask_shortcut pywriterPath simpleUpdate ;;
  create_startup_script E pywriterPath.

(** Lines 96-149: [install] up to its last statement, the write of the
    start-up script. *)
Definition before_startup_script : M unit :=
  makedirs pywriterPath ;;
  simpleUpdate <- isfile (child_sep (installDir pywriterPath) APP) ;;
  makedirs (cnfDir pywriterPath) ;;
  delete_old_version pywriterPath ;;
  install_new_version E pywriterPath ;;
  install_localization E pywriterPath ;;
  make_executable E pywriterPath ;;
  install_configuration E pywriterPath ;;
  display_success pywriterPath ;;
  ask_shortcut pywriterPath simpleUpdate.

(** The run of [install] under a classification fixed from outside. *)
Definition install_classified (simpleUpdate : bool) : M unit :=
  makedirs pywriterPath ;;
  makedirs (cnfDir pywriterPath) ;;
  install_steps E pywriterPath simpleUpdate.

End Phases.

(** ** Scenarios *)

Definition regular : Z := 33188.   (* 0o100644 *)

Definition bundle_full : FS.node :=
  FS.Dir [ (APP, FS.File "import tkinter" regular);
           ("locale", FS.Dir [("de.mo", FS.File "msgid" regular)]);
           ("sample", FS.Dir [(INI_FILE, FS.File "[SETTINGS]" regular)]);
           ("setup.pyw", FS.File "install" regular) ].

Definition host_linux : env := mkenv "/home/u" "Linux" regular bundle_full.
Definition host_windows : env := mkenv "C:/Users/u" "Windows" regular bundle_full.

(** A bundle whose program file is missing. *)
Definition host_no_program : env :=
  mkenv "/home/u" "Linux" regular
    (FS.Dir [ ("locale", FS.Dir [("de.mo", FS.File "msgid" regular)]);
              ("sample", FS.Dir [(INI_FILE, FS.File "[SETTINGS]" regular)]) ]).

(** A bundle whose locale directory is missing. *)
Definition host_no_locale : env :=
  mkenv "/home/u" "Linux" regular
    (FS.Dir [ (APP, FS.File "import tkinter" regular);
              ("sample", FS.Dir [(INI_FILE, FS.File "[SETTINGS]" regular)]) ]).

(** A bundle whose sample directory lists a subdirectory between two
    files. *)
Definition host_sample_subdir : env :=
  mkenv "/home/u" "Linux" regular
    (FS.Dir [ (APP, FS.File "import tkinter" regular);
              ("locale", FS.Dir [("de.mo", FS.File "msgid" regular)]);
              ("sample", FS.Dir [ (INI_FILE, FS.File "[SETTINGS]" regular);
                                  ("themes", FS.Dir []);
                                  ("extra.ini", FS.File "[EXTRA]" regular) ]) ]).

(** The installation directory as [install] has prepared it on an empty
    home directory: only the empty configuration directory is there. *)
Definition home_prepared : FS.node :=
  FS.Dir [ (".pywriter", FS.Dir [ (APPNAME, FS.Dir [("config", FS.Dir [])]) ]) ].

Definition home_empty : FS.node := FS.Dir [].

(** Any host whose bundle holds the program file, a locale directory with
    one file and a sample directory with one file. *)
Definition fresh_host (home platform : string) (mode : Z)
    (program : string) (pmode : Z) (lname ldata : string) (lmode : Z)
    (sname sdata : string) (smode : Z) : env :=
  mkenv home platform mode
    (FS.Dir [ (APP, FS.File program pmode);
              ("locale", FS.Dir [(lname, FS.File ldata lmode)]);
              ("sample", FS.Dir [(sname, FS.File sdata smode)]) ]).

(** An earlier installation: a stale module, a stale package directory,
    an old locale tree and a configuration file the user has edited. *)
Definition home_installed : FS.node :=
  FS.Dir [ (".pywriter", FS.Dir [ (APPNAME, FS.Dir
    [ ("oldpkg", FS.Dir [("oldmodule.py", FS.File "stale" regular)]);
      ("oldmodule.py", FS.File "stale" regular);
      ("config", FS.Dir [(INI_FILE, FS.File "[MINE]" regular)]);
      (APP, FS.File "old program" regular);
      ("locale", FS.Dir [("fr.mo", FS.File "old" regular)]);
      (START_UP_SCRIPT, FS.File "old launcher" regular) ]) ]) ].

(** An installation directory in which [run.pyw] is a directory. *)
Definition home_script_dir : FS.node :=
  FS.Dir [ (".pywriter", FS.Dir [ (APPNAME, FS.Dir
    [ ("config", FS.Dir []);
      (START_UP_SCRIPT, FS.Dir [("notes.txt", FS.File "keep" regular)]) ]) ]) ].

(** The installation directory of [__main__], by its components. *)
Definition main_installDir : FS.path := [".pywriter"; APPNAME].

(** ** Notions used in the further properties *)

Definition is_regular (n : FS.node) : bool :=
  match n with
  | FS.File _ _ => true
  | FS.Dir _ => false
  end.

(** The entries the purge loop removes: regular files whose name does not
    contain "config". *)
Definition removed_by_loop (e : string * FS.node) : bool :=
  not_config (fst e) && is_regular (snd e).

(** The entries the purge leaves: regular files whose name contains
    "config", and directories other than [locale]. *)
Definition survives_purge (e : string * FS.node) : bool :=
  if is_regular (snd e)
  then contains "config" (fst e)
  else negb (String.eqb (fst e) "locale").

(** The lines [install] can put on the trace. *)
Definition install_line (P : loc) (shortcut : bool) (l : string) : Prop :=
  (exists n, l = Removing n) \/ (exists n, l = Copying n) \/
  (exists n, l = Keeping n) \/
  l = safe_substitute SUCCESS_MESSAGE (mapping P) \/
  (shortcut = true /\ l = safe_substitute SHORTCUT_MESSAGE (mapping P)).

(** The trace has grown by lines that all satisfy [ok]. *)
Definition grows_by (ok : string -> Prop) (s s' : state) : Prop :=
  exists lines, message s' = message s ++ lines /\ Forall ok lines.

(** A home directory in which a regular file sits where the installation
    directory should be. *)
Definition home_blocked : FS.node :=
  FS.Dir [ (".pywriter", FS.Dir [ (APPNAME, FS.File "not a directory" regular);
                                  ("other_tool", FS.Dir [("a.py", FS.File "a" regular)]) ]) ].

(** An installation next to another tool, with stale entries whose names
    contain "config". *)
Definition home_shared : FS.node :=
  FS.Dir [ (".pywriter", FS.Dir
    [ ("other_tool", FS.Dir [("a.py", FS.File "a" regular)]);
      (APPNAME, FS.Dir
        [ (APP, FS.File "old program" regular);
          ("old_config.bak", FS.File "[OLD]" regular);
          ("configurator.py", FS.File "stale" regular);
          ("config", FS.Dir [(INI_FILE, FS.File "[MINE]" regular)]);
          ("locale", FS.File "not a directory" regular);
          ("helpers", FS.Dir []) ]) ]) ].

(** * Properties *)

(** ** The string functions on the script's own texts *)

Example contains_config :
  contains "config" "config" = true /\
  contains "config" "old_config.bak" = true /\
  contains "config" "Config" = false /\
  contains "config" "locale" = false /\
  contains "config" APP = false /\
  contains "config" START_UP_SCRIPT = false.
Proof. repeat split. Qed.

Example success_message_text :
  safe_substitute SUCCESS_MESSAGE (mapping (main_pywriterPath host_linux))
  = (nl ++ "yw_table is installed here:" ++ nl
     ++ "/home/u/.pywriter/yw_table/yw_table.py" ++ nl)%string.
Proof. reflexivity. Qed.

Example shortcut_message_text :
  safe_substitute SHORTCUT_MESSAGE (mapping (main_pywriterPath host_linux))
  = (nl ++ "Now you might want to create a shortcut on your desktop.  " ++ nl
     ++ nl
     ++ "On Windows, open the installation folder, hold down the Alt key on your keyboard, " ++ nl
     ++ "and then drag and drop " ++ quote ++ "run.pyw" ++ quote ++ " to your desktop." ++ nl
     ++ nl
     ++ "On Linux, create a launcher on your desktop. With xfce for instance, the launcher's command may look like this:" ++ nl
     ++ "python3 '/home/u/.pywriter/yw_table/yw_table.py' %f" ++ nl)%string.
Proof. reflexivity. Qed.

Example safe_substitute_forms :
  safe_substitute "$$5 for $who, $Appname." [("Appname", "yw_table")]
  = "$5 for $who, yw_table.".
Proof. reflexivity. Qed.

Example start_up_code_text :
  START_UP_CODE = ("import yw_table" ++ nl ++ "yw_table.main()" ++ nl)%string.
Proof. reflexivity. Qed.

(** ** Directory trees *)

Module FSFacts.
Import FS.

Lemma assoc_put {A : Type} (x y : string) (v : A) es :
  assoc y (put x v es) = if String.eqb y x then Some v else assoc y es.
Proof.
  induction es as [|[z w] es IH]; simpl.
  - reflexivity.
  - destruct (String.eqb x z) eqn:Exz; simpl.
    + apply String.eqb_eq in Exz; subst z.
      destruct (String.eqb y x); reflexivity.
    + destruct (String.eqb y z) eqn:Eyz.
      * apply String.eqb_eq in Eyz; subst z.
        rewrite String.eqb_sym in Exz. now rewrite Exz.
      * exact IH.
Qed.

Lemma assoc_drop {A : Type} (x y : string) (es : list (string * A)) :
  assoc y (drop x es) = if String.eqb y x then None else assoc y es.
Proof.
  induction es as [|[z w] es IH]; simpl.
  - now destruct (String.eqb y x).
  - destruct (String.eqb x z) eqn:Exz.
    + apply String.eqb_eq in Exz; subst z.
      rewrite IH. now destruct (String.eqb y x).
    + simpl. destruct (String.eqb y z) eqn:Eyz.
      * apply String.eqb_eq in Eyz; subst z.
        rewrite String.eqb_sym in Exz. now rewrite Exz.
      * exact IH.
Qed.

Lemma assoc_set_entry {A : Type} (x y : string) (o : option A) es :
  assoc y (set_entry x o es) = if String.eqb y x then o else assoc y es.
Proof.
  destruct o; simpl; [apply assoc_put | apply assoc_drop].
Qed.

Lemma put_same {A : Type} (x : string) (v : A) es :
  assoc x es = Some v -> put x v es = es.
Proof.
  induction es as [|[z w] es IH]; simpl; [discriminate|].
  destruct (String.eqb x z) eqn:Exz.
  - apply String.eqb_eq in Exz; subst z. now intros [= ->].
  - intros H. now rewrite IH.
Qed.

Lemma assoc_In {A : Type} (x : string) (v : A) es :
  assoc x es = Some v -> In x (map fst es).
Proof.
  induction es as [|[z w] es IH]; simpl; [discriminate|].
  destruct (String.eqb x z) eqn:Exz.
  - apply String.eqb_eq in Exz. now left.
  - intros H. right. now apply IH.
Qed.

Lemma lookup_app (p r : path) (n : node) :
  lookup (p ++ r) n =
  match lookup p n with
  | Some c => lookup r c
  | None => None
  end.
Proof.
  revert n. induction p as [|x p IH]; intros n; simpl; [reflexivity|].
  destruct n as [|es]; [reflexivity|].
  destruct (assoc x es); [apply IH | reflexivity].
Qed.

Lemma lookup_snoc (d : path) (x : string) (n : node) :
  lookup (d ++ [x]) n =
  match lookup d n with
  | Some (Dir es) => assoc x es
  | _ => None
  end.
Proof.
  rewrite lookup_app. destruct (lookup d n) as [[|es]|]; simpl; try reflexivity.
  now destruct (assoc x es).
Qed.

Lemma prefix_app (p q : path) :
  prefix p q = true -> exists r, q = p ++ r.
Proof.
  revert q. induction p as [|x p IH]; intros q; simpl.
  - now exists q.
  - destruct q as [|y q]; [discriminate|].
    intros H. apply andb_prop in H as [Hxy Hp].
    apply String.eqb_eq in Hxy; subst y.
    destruct (IH _ Hp) as [r ->]. now exists r.
Qed.

Lemma prefix_app_true (p r : path) : prefix p (p ++ r) = true.
Proof.
  induction p as [|x p IH]; simpl; [reflexivity|].
  now rewrite String.eqb_refl.
Qed.

(** A path that leaves [p] sideways is not touched by an update at [p]. *)
Lemma lookup_update_diverge (p q : path) f (n : node) :
  diverge p q = true -> lookup q (update p f n) = lookup q n.
Proof.
  revert q n. induction p as [|x p IH]; intros q n; simpl; [discriminate|].
  destruct q as [|y q]; [discriminate|].
  destruct n as [|es]; [reflexivity|].
  destruct p as [|z p].
  - destruct (String.eqb x y) eqn:Exy; [discriminate|]. intros _.
    simpl. rewrite assoc_set_entry, String.eqb_sym, Exy. reflexivity.
  - destruct (assoc x es) as [c|] eqn:Hc; [|reflexivity].
    intros H. cbn [lookup]. rewrite assoc_put, String.eqb_sym.
    destruct (String.eqb x y) eqn:Exy.
    + apply String.eqb_eq in Exy; subst y. rewrite Hc. now apply IH.
    + reflexivity.
Qed.

(** A file that does not lie at or below [p] survives an update at [p]. *)
Lemma lookup_update_file (p q : path) f (n : node) data m :
  prefix p q = false ->
  lookup q n = Some (File data m) ->
  lookup q (update p f n) = Some (File data m).
Proof.
  revert q n. induction p as [|x p IH]; intros q n; simpl; [discriminate|].
  destruct n as [|es]; [trivial|].
  destruct q as [|y q]; [discriminate|].
  destruct p as [|z p].
  - rewrite andb_true_r. intros Exy. cbn [lookup].
    rewrite assoc_set_entry, String.eqb_sym, Exy. trivial.
  - destruct (assoc x es) as [c|] eqn:Hc; [|trivial].
    intros Hp. cbn [lookup]. rewrite assoc_put, String.eqb_sym.
    destruct (String.eqb x y) eqn:Exy.
    + apply String.eqb_eq in Exy; subst y. rewrite Hc.
      simpl in Hp. now apply IH.
    + trivial.
Qed.

(** The directory holding the last component sees exactly one entry change. *)
Lemma update_snoc (d : path) (x : string) f (n : node) es :
  lookup d n = Some (Dir es) ->
  lookup d (update (d ++ [x]) f n) = Some (Dir (set_entry x (f (assoc x es)) es)).
Proof.
  revert n. induction d as [|a d IH]; intros n; simpl.
  - now intros [= ->].
  - destruct n as [|es0]; [discriminate|].
    destruct (assoc a es0) as [c|] eqn:Hc; [|discriminate].
    intros Hd.
    assert (Hne : exists z r, d ++ [x] = z :: r) by (destruct d; simpl; eauto).
    destruct Hne as (z & r & Hzr). rewrite Hzr, <- Hzr.
    cbn [lookup]. rewrite assoc_put, String.eqb_refl. now apply IH.
Qed.

Lemma lookup_update_snoc (d : path) (x : string) f (n : node) es :
  lookup d n = Some (Dir es) ->
  lookup (d ++ [x]) (update (d ++ [x]) f n) = f (assoc x es).
Proof.
  intros H. rewrite lookup_snoc, (update_snoc d x f n es H).
  now rewrite assoc_set_entry, String.eqb_refl.
Qed.

Lemma lookup_update_sibling (d : path) (x y : string) f (n : node) :
  String.eqb y x = false ->
  lookup (d ++ [y]) (update (d ++ [x]) f n) = lookup (d ++ [y]) n.
Proof.
  intros Hyx. apply lookup_update_diverge.
  induction d as [|a d IH]; simpl.
  - rewrite String.eqb_sym, Hyx. reflexivity.
  - now rewrite String.eqb_refl.
Qed.

Lemma diverge_sibling (d : path) (a b : string) (q : path) :
  String.eqb b a = false ->
  prefix (d ++ [a]) q = true ->
  diverge (d ++ [b]) q = true.
Proof.
  intros Hba. revert q. induction d as [|x d IH]; intros q; simpl.
  - destruct q as [|y q]; [discriminate|].
    rewrite andb_true_r. intros Hay. apply String.eqb_eq in Hay; subst y.
    now rewrite Hba.
  - destruct q as [|y q]; [discriminate|].
    intros H. apply andb_prop in H as [Hxy Hp]. rewrite Hxy. now apply IH.
Qed.

Lemma diverge_below_sibling (d : path) (a b : string) (r q : path) :
  String.eqb b a = false ->
  prefix (d ++ [a]) q = true ->
  diverge (d ++ b :: r) q = true.
Proof.
  intros Hba. revert q. induction d as [|x d IH]; intros q; simpl.
  - destruct q as [|y q]; [discriminate|].
    rewrite andb_true_r. intros Hay. apply String.eqb_eq in Hay; subst y.
    now rewrite Hba.
  - destruct q as [|y q]; [discriminate|].
    intros H. apply andb_prop in H as [Hxy Hp]. rewrite Hxy. now apply IH.
Qed.

(** [mkdirs] neither creates, removes nor changes any regular file. *)
Lemma mkdirs_file (p q : path) (n n' : node) data m :
  mkdirs p n = Some n' ->
  (lookup q n' = Some (File data m) <-> lookup q n = Some (File data m)).
Proof.
  revert q n n'. induction p as [|x p IH]; intros q n n'.
  - destruct n; simpl; [discriminate|]. now intros [= <-].
  - destruct n as [|es]; simpl; [discriminate|].
    destruct (mkdirs p _) as [c'|] eqn:Hm; [|discriminate].
    intros [= <-].
    destruct q as [|y q]; simpl; [split; discriminate|].
    rewrite assoc_put.
    destruct (String.eqb y x) eqn:Eyx; [|reflexivity].
    apply String.eqb_eq in Eyx; subst y.
    rewrite (IH q _ _ Hm).
    destruct (assoc x es) as [c|]; [reflexivity|].
    destruct q as [|z q]; simpl; split; discriminate.
Qed.

Lemma mkdirs_is_file (p q : path) (n n' : node) :
  mkdirs p n = Some n' -> is_file q n' = is_file q n.
Proof.
  intros H. unfold is_file.
  destruct (lookup q n') as [[data m|es]|] eqn:H1.
  - apply (mkdirs_file p q n n' data m H) in H1. now rewrite H1.
  - destruct (lookup q n) as [[data m|es0]|] eqn:H2; try reflexivity.
    apply (mkdirs_file p q n n' data m H) in H2. congruence.
  - destruct (lookup q n) as [[data m|es0]|] eqn:H2; try reflexivity.
    apply (mkdirs_file p q n n' data m H) in H2. congruence.
Qed.

(** After [mkdirs], every initial segment of the path is a directory. *)
Lemma mkdirs_dir (d r : path) (n n' : node) :
  mkdirs (d ++ r) n = Some n' -> exists es, lookup d n' = Some (Dir es).
Proof.
  revert n n'. induction d as [|x d IH]; intros n n'.
  - destruct r as [|y r]; destruct n as [|es]; simpl; try discriminate.
    + intros [= <-]. eauto.
    + destruct (mkdirs r _); [|discriminate]. intros [= <-]. eauto.
  - destruct n as [|es]; simpl; [discriminate|].
    destruct (mkdirs (d ++ r) _) as [c'|] eqn:Hm; [|discriminate].
    intros [= <-]. rewrite assoc_put, String.eqb_refl. now apply (IH _ _ Hm).
Qed.

(** [mkdirs] on an existing directory changes nothing. *)
Lemma mkdirs_existing (p : path) (n : node) es :
  lookup p n = Some (Dir es) -> mkdirs p n = Some n.
Proof.
  revert n. induction p as [|x p IH]; intros n; simpl.
  - intros [= ->]. reflexivity.
  - destruct n as [|es0]; [discriminate|].
    destruct (assoc x es0) as [c|] eqn:Hc; [|discriminate].
    intros H. rewrite (IH _ H). now rewrite (put_same _ _ _ Hc).
Qed.

End FSFacts.

(** ** The monad *)

Lemma bind_ok {A B : Type} (m : M A) (k : A -> M B) s a s' :
  m s = (Ok a, s') -> bind m k s = k a s'.
Proof. unfold bind. now intros ->. Qed.

Lemma bind_raise {A B : Type} (m : M A) (k : A -> M B) s e s' :
  m s = (Raise e, s') -> bind m k s = (Raise e, s').
Proof. unfold bind. now intros ->. Qed.

Lemma try_ok {A : Type} (m : M A) h s a s' :
  m s = (Ok a, s') -> try_except m h s = (Ok a, s').
Proof. unfold try_except. now intros ->. Qed.

Lemma try_raise {A : Type} (m : M A) h s e s' :
  m s = (Raise e, s') -> try_except m h s = h e s'.
Proof. unfold try_except. now intros ->. Qed.

Section Preservation.

Variable R : state -> state -> Prop.
Hypothesis R_refl : forall s, R s s.
Hypothesis R_trans : forall s1 s2 s3, R s1 s2 -> R s2 s3 -> R s1 s3.

Lemma preserves_ret {A : Type} (a : A) : preserves R (ret a).
Proof. intros s. apply R_refl. Qed.

Lemma preserves_bind {A B : Type} (m : M A) (k : A -> M B) :
  preserves R m -> (forall a, preserves R (k a)) -> preserves R (bind m k).
Proof.
  intros Hm Hk s. unfold bind. specialize (Hm s).
  destruct (m s) as [[a|e] s1]; simpl in *; [|exact Hm].
  eapply R_trans; [exact Hm | apply Hk].
Qed.

Lemma preserves_try {A : Type} (m : M A) h :
  preserves R m -> (forall e, preserves R (h e)) -> preserves R (try_except m h).
Proof.
  intros Hm Hh s. unfold try_except. specialize (Hm s).
  destruct (m s) as [[a|e] s1]; simpl in *; [exact Hm|].
  eapply R_trans; [exact Hm | apply Hh].
Qed.

Lemma preserves_for_each {A : Type} (xs : list A) body :
  (forall x, preserves R (body x)) -> preserves R (for_each xs body).
Proof.
  intros Hb. induction xs as [|x xs IH]; simpl.
  - apply preserves_ret.
  - apply preserves_bind; [apply Hb | intros _; exact IH].
Qed.

End Preservation.

(** ** Regular files that the primitives leave alone *)

Section Kept.

Variable E : env.
Variable d : FS.path.

Lemma files_kept_refl s : files_kept d s s.
Proof. intros q data m _ H. exact H. Qed.

Lemma files_kept_trans s1 s2 s3 :
  files_kept d s1 s2 -> files_kept d s2 s3 -> files_kept d s1 s3.
Proof. intros H12 H23 q data m Hq H. apply H23, H12; assumption. Qed.

Lemma files_kept_same_fs s s' : fs s' = fs s -> files_kept d s s'.
Proof. intros Hfs q data m _ H. now rewrite Hfs. Qed.

Lemma files_kept_update p f s s' :
  apart d p -> fs s' = FS.update p f (fs s) -> files_kept d s s'.
Proof.
  intros Hp Hfs q data m Hq H. rewrite Hfs.
  rewrite FSFacts.lookup_update_diverge; [exact H | now apply Hp].
Qed.

Lemma kept_output t : preserves (files_kept d) (output t).
Proof. intros s. now apply files_kept_same_fs. Qed.

Lemma kept_isfile l : preserves (files_kept d) (isfile l).
Proof. intros s. now apply files_kept_same_fs. Qed.

Lemma kept_makedirs l : preserves (files_kept d) (makedirs l).
Proof.
  intros s. unfold makedirs.
  destruct (FS.mkdirs (comps l) (fs s)) as [n|] eqn:Hm; simpl.
  - intros q data m _ H. simpl. now apply (FSFacts.mkdirs_file _ _ _ _ _ _ Hm).
  - now apply files_kept_same_fs.
Qed.

Lemma kept_rmtree l :
  apart d (comps l) -> preserves (files_kept d) (rmtree_ignore_errors l).
Proof.
  intros Hp s. unfold rmtree_ignore_errors.
  destruct (FS.is_dir (comps l) (fs s)); simpl.
  - eapply files_kept_update; [exact Hp | reflexivity].
  - now apply files_kept_same_fs.
Qed.

Lemma kept_scandir l : preserves (files_kept d) (scandir l).
Proof. intros s. now apply files_kept_same_fs. Qed.

Lemma kept_scandir_cwd l : preserves (files_kept d) (scandir_cwd E l).
Proof. intros s. now apply files_kept_same_fs. Qed.

Lemma kept_remove l :
  apart d (comps l) -> preserves (files_kept d) (remove l).
Proof.
  intros Hp s. unfold remove.
  destruct (FS.lookup (comps l) (fs s)) as [[data m|es]|]; simpl.
  - eapply files_kept_update; [exact Hp | reflexivity].
  - now apply files_kept_same_fs.
  - now apply files_kept_same_fs.
Qed.

Lemma kept_stat_mode l : preserves (files_kept d) (stat_mode l).
Proof.
  intros s. unfold stat_mode.
  destruct (FS.lookup (comps l) (fs s)) as [[data m|es]|]; simpl;
    now apply files_kept_same_fs.
Qed.

Lemma kept_chmod l mode :
  apart d (comps l) -> preserves (files_kept d) (chmod E l mode).
Proof.
  intros Hp s. unfold chmod.
  destruct (FS.lookup (comps l) (fs s)) as [[data m|es]|]; simpl.
  - eapply files_kept_update; [exact Hp | reflexivity].
  - now apply files_kept_same_fs.
  - now apply files_kept_same_fs.
Qed.

Lemma kept_store_apart l data s :
  apart d (comps l) -> files_kept d s (snd (store E l data s)).
Proof.
  intros Hp. unfold store.
  destruct (FS.lookup (comps l) (fs s)) as [[data0 m|es]|]; simpl.
  - eapply files_kept_update; [exact Hp | reflexivity].
  - now apply files_kept_same_fs.
  - destruct (FS.is_dir _ _); simpl.
    + eapply files_kept_update; [exact Hp | reflexivity].
    + now apply files_kept_same_fs.
Qed.

(** Storing into a path that holds no regular file keeps every regular
    file, wherever it lies. *)
Lemma store_keeps_files l data s q data0 m :
  FS.is_file (comps l) (fs s) = false ->
  FS.lookup q (fs s) = Some (FS.File data0 m) ->
  FS.lookup q (fs (snd (store E l data s))) = Some (FS.File data0 m).
Proof.
  unfold FS.is_file, store. intros Hnf Hq.
  destruct (FS.lookup (comps l) (fs s)) as [[data1 m1|es]|] eqn:Hl;
    simpl; try discriminate; [exact Hq|].
  destruct (FS.is_dir _ _); simpl; [|exact Hq].
  destruct (FS.prefix (comps l) q) eqn:Hp.
  - apply FSFacts.prefix_app in Hp as [r ->].
    rewrite FSFacts.lookup_app, Hl in Hq. discriminate.
  - now apply FSFacts.lookup_update_file.
Qed.

Lemma kept_copyfile src dst :
  apart d (comps dst) -> preserves (files_kept d) (copyfile E src dst).
Proof.
  intros Hp s. unfold copyfile.
  destruct (FS.lookup (comps src) (cwd E)) as [[data m|es]|]; simpl.
  - eapply files_kept_trans; [|now apply kept_store_apart].
    now apply files_kept_same_fs.
  - now apply files_kept_same_fs.
  - now apply files_kept_same_fs.
Qed.

Lemma kept_write_text l data :
  apart d (comps l) -> preserves (files_kept d) (write_text E l data).
Proof.
  intros Hp s. unfold write_text.
  eapply files_kept_trans; [|now apply kept_store_apart].
  now apply files_kept_same_fs.
Qed.

Lemma kept_copytree src dst :
  apart d (comps dst) -> preserves (files_kept d) (copytree E src dst).
Proof.
  intros Hp s. unfold copytree.
  destruct (FS.lookup (comps src) (cwd E)) as [[data m|es]|]; simpl;
    try now apply files_kept_same_fs.
  destruct (FS.exists_at _ _); simpl; [now apply files_kept_same_fs|].
  destruct (FS.mkdirs _ _) as [n|] eqn:Hm; simpl; [|now apply files_kept_same_fs].
  intros q data m Hq H. simpl.
  rewrite FSFacts.lookup_update_diverge; [|now apply Hp].
  now apply (FSFacts.mkdirs_file _ _ _ _ _ _ Hm).
Qed.

End Kept.

(** ** The configuration directory is never written over *)

Lemma contains_config_name name :
  contains "config" name = false -> String.eqb name "config" = false.
Proof.
  intros H. destruct (String.eqb name "config") eqn:Hn; [|reflexivity].
  apply String.eqb_eq in Hn; subst name. discriminate H.
Qed.

Section ConfigKept.

Variable E : env.
Variable P : loc.

Let cnf : FS.path := comps (cnfDir P).

Lemma apart_installDir_entry name :
  String.eqb name "config" = false ->
  apart cnf (comps (child_sep (installDir P) name)).
Proof.
  intros Hn q Hq. unfold cnf in Hq. simpl in *.
  now apply (FSFacts.diverge_sibling _ "config" name).
Qed.

Lemma kept_purge_entry name : preserves (files_kept cnf) (purge_entry P name).
Proof.
  unfold purge_entry.
  destruct (contains "config" name) eqn:Hc; simpl.
  - apply preserves_ret. apply files_kept_refl.
  - apply preserves_try; [apply files_kept_trans| |].
    + apply preserves_bind; [apply files_kept_trans| |].
      * apply kept_remove, apart_installDir_entry. now apply contains_config_name.
      * intros _. apply kept_output.
    + intros _. apply preserves_ret, files_kept_refl.
Qed.

Lemma kept_delete_old_version :
  preserves (files_kept cnf) (delete_old_version P).
Proof.
  unfold delete_old_version.
  apply preserves_bind; [apply files_kept_trans| |].
  - apply kept_rmtree. now apply apart_installDir_entry.
  - intros _. apply preserves_bind; [apply files_kept_trans| |].
    + apply kept_scandir.
    + intros files. apply preserves_for_each;
        [apply files_kept_refl | apply files_kept_trans | apply kept_purge_entry].
Qed.

Lemma kept_install_new_version :
  preserves (files_kept cnf) (install_new_version E P).
Proof.
  unfold install_new_version.
  apply preserves_bind; [apply files_kept_trans| |].
  - apply kept_copyfile. now apply apart_installDir_entry.
  - intros _. apply kept_output.
Qed.

Lemma kept_install_localization :
  preserves (files_kept cnf) (install_localization E P).
Proof.
  unfold install_localization.
  apply preserves_bind; [apply files_kept_trans| |].
  - apply kept_copytree. now apply apart_installDir_entry.
  - intros _. apply kept_output.
Qed.

Lemma kept_make_executable :
  preserves (files_kept cnf) (make_executable E P).
Proof.
  unfold make_executable.
  apply preserves_try; [apply files_kept_trans| |].
  - apply preserves_bind; [apply files_kept_trans| |].
    + apply kept_stat_mode.
    + intros st. apply kept_chmod. now apply apart_installDir_entry.
  - intros _. apply preserves_ret, files_kept_refl.
Qed.

(** The only write below the configuration directory: guarded by the
    [isfile] test, it never lands on a regular file. *)
Lemma kept_seed_entry name : preserves (files_kept cnf) (seed_entry E P name).
Proof.
  intros s. unfold seed_entry, bind, isfile.
  destruct (FS.is_file (comps (child (cnfDir P) name)) (fs s)) eqn:Hf; simpl.
  - now apply files_kept_same_fs.
  - unfold copyfile.
    destruct (FS.lookup _ (cwd E)) as [[data m|es]|]; simpl;
      try now apply files_kept_same_fs.
    intros q data0 m0 _ Hq.
    match goal with
    | |- context [store E ?l ?dt ?st] =>
        pose proof (store_keeps_files E l dt st q data0 m0 Hf Hq) as Hk;
        destruct (store E l dt st) as [[[]|e] s1]
    end; exact Hk.
Qed.

Lemma kept_install_configuration :
  preserves (files_kept cnf) (install_configuration E P).
Proof.
  unfold install_configuration.
  apply preserves_try; [apply files_kept_trans| |].
  - apply preserves_bind; [apply files_kept_trans| |].
    + apply kept_scandir_cwd.
    + intros files. apply preserves_for_each;
        [apply files_kept_refl | apply files_kept_trans | apply kept_seed_entry].
  - intros _. apply preserves_ret, files_kept_refl.
Qed.

Lemma kept_create_startup_script :
  preserves (files_kept cnf) (create_startup_script E P).
Proof.
  unfold create_startup_script.
  apply kept_write_text. now apply apart_installDir_entry.
Qed.

Lemma kept_install_steps b : preserves (files_kept cnf) (install_steps E P b).
Proof.
  unfold install_steps.
  apply preserves_bind;
    [apply files_kept_trans | apply kept_delete_old_version | intros _].
  apply preserves_bind;
    [apply files_kept_trans | apply kept_install_new_version | intros _].
  apply preserves_bind;
    [apply files_kept_trans | apply kept_install_localization | intros _].
  apply preserves_bind;
    [apply files_kept_trans | apply kept_make_executable | intros _].
  apply preserves_bind;
    [apply files_kept_trans | apply kept_install_configuration | intros _].
  apply preserves_bind;
    [apply files_kept_trans | apply kept_output | intros _].
  apply preserves_bind;
    [apply files_kept_trans | | intros _; apply kept_create_startup_script].
  unfold ask_shortcut. destruct (negb b);
    [apply kept_output | apply preserves_ret, files_kept_refl].
Qed.

Lemma kept_install : preserves (files_kept cnf) (install E P).
Proof.
  unfold install.
  apply preserves_bind; [apply files_kept_trans|apply kept_makedirs|intros _].
  apply preserves_bind; [apply files_kept_trans|apply kept_isfile|intros b].
  apply preserves_bind; [apply files_kept_trans|apply kept_makedirs|intros _].
  apply kept_install_steps.
Qed.

Lemma kept_run : preserves (files_kept cnf) (run E P).
Proof.
  unfold run.
  apply preserves_try; [apply files_kept_trans|apply kept_install|].
  intros e. apply kept_output.
Qed.

End ConfigKept.

(** C1 (config preservation).  Every regular file at or below the
    configuration directory before a run is still there afterwards with the
    same content and mode, whether [install] returns or its exception ends
    in the handler of the call site. *)
Theorem config_preservation (E : env) (P : loc) (s : state)
    (q : FS.path) (data : string) (m : Z) :
  FS.prefix (comps (cnfDir P)) q = true ->
  FS.lookup q (fs s) = Some (FS.File data m) ->
  FS.lookup q (fs (snd (run E P s))) = Some (FS.File data m).
Proof.
  intros Hq H. exact (kept_run E P s q data m Hq H).
Qed.

Lemma config_preservation_witness :
  FS.lookup (main_installDir ++ ["config"; INI_FILE])
    (fs (snd (main host_linux (initial home_installed))))
  = Some (FS.File "[MINE]" regular).
Proof.
  apply (config_preservation host_linux (main_pywriterPath host_linux)
           (initial home_installed) (main_installDir ++ ["config"; INI_FILE])
           "[MINE]" regular); reflexivity.
Defined.

(** ** Entries off the path of a primitive *)

Module Frame.
Import FS.

Lemma diverge_not_prefix (d r q : path) :
  diverge (d ++ r) q = true -> prefix q d = false.
Proof.
  revert q. induction d as [|x d IH]; intros q; simpl.
  - destruct q; [|reflexivity]. destruct r; discriminate.
  - destruct q as [|y q]; [discriminate|]. simpl.
    rewrite (String.eqb_sym y x).
    destruct (String.eqb x y); [apply IH | reflexivity].
Qed.

Lemma lookup_below_empty (q : path) : q <> [] -> lookup q (Dir []) = None.
Proof. destruct q; [congruence | reflexivity]. Qed.

(** [mkdirs p] changes no entry off the way to [p]. *)
Lemma mkdirs_frame (p q : path) (n n' : node) :
  mkdirs p n = Some n' -> prefix q p = false -> lookup q n' = lookup q n.
Proof.
  revert q n n'. induction p as [|x p IH]; intros q n n'.
  - destruct n; simpl; [discriminate|]. now intros [= <-].
  - destruct n as [|es]; simpl; [discriminate|].
    destruct (mkdirs p _) as [c'|] eqn:Hm; [|discriminate].
    intros [= <-]. destruct q as [|y q]; [discriminate|]. simpl.
    rewrite FSFacts.assoc_put.
    destruct (String.eqb y x) eqn:Eyx; simpl; [|reflexivity].
    apply String.eqb_eq in Eyx; subst y. intros Hq.
    rewrite (IH q _ _ Hm Hq).
    destruct (assoc x es) as [c|]; [reflexivity|].
    apply lookup_below_empty. intros ->. destruct p; discriminate.
Qed.

End Frame.

Section SameAt.

Variable E : env.
Variable q : FS.path.

Lemma same_at_refl s : same_at q s s.
Proof. reflexivity. Qed.

Lemma same_at_trans s1 s2 s3 :
  same_at q s1 s2 -> same_at q s2 s3 -> same_at q s1 s3.
Proof. unfold same_at. congruence. Qed.

Lemma same_at_fs s s' : fs s' = fs s -> same_at q s s'.
Proof. unfold same_at. now intros ->. Qed.

Lemma same_at_update p f s s' :
  FS.diverge p q = true -> fs s' = FS.update p f (fs s) -> same_at q s s'.
Proof.
  unfold same_at. intros Hp ->. now apply FSFacts.lookup_update_diverge.
Qed.

Lemma same_output t : preserves (same_at q) (output t).
Proof. intros s. now apply same_at_fs. Qed.

Lemma same_isfile l : preserves (same_at q) (isfile l).
Proof. intros s. now apply same_at_fs. Qed.

Lemma same_scandir l : preserves (same_at q) (scandir l).
Proof. intros s. now apply same_at_fs. Qed.

Lemma same_scandir_cwd l : preserves (same_at q) (scandir_cwd E l).
Proof. intros s. now apply same_at_fs. Qed.

Lemma same_stat_mode l : preserves (same_at q) (stat_mode l).
Proof.
  intros s. unfold stat_mode.
  destruct (FS.lookup (comps l) (fs s)) as [[data m|es]|]; simpl;
    now apply same_at_fs.
Qed.

Lemma same_makedirs l :
  FS.prefix q (comps l) = false -> preserves (same_at q) (makedirs l).
Proof.
  intros Hq s. unfold makedirs.
  destruct (FS.mkdirs (comps l) (fs s)) as [n|] eqn:Hm; simpl.
  - unfold same_at; simpl. now apply (Frame.mkdirs_frame _ _ _ _ Hm).
  - now apply same_at_fs.
Qed.

Lemma same_rmtree l :
  FS.diverge (comps l) q = true -> preserves (same_at q) (rmtree_ignore_errors l).
Proof.
  intros Hp s. unfold rmtree_ignore_errors.
  destruct (FS.is_dir (comps l) (fs s)); simpl.
  - eapply same_at_update; [exact Hp | reflexivity].
  - now apply same_at_fs.
Qed.

Lemma same_remove l :
  FS.diverge (comps l) q = true -> preserves (same_at q) (remove l).
Proof.
  intros Hp s. unfold remove.
  destruct (FS.lookup (comps l) (fs s)) as [[data m|es]|]; simpl.
  - eapply same_at_update; [exact Hp | reflexivity].
  - now apply same_at_fs.
  - now apply same_at_fs.
Qed.

Lemma same_chmod l mode :
  FS.diverge (comps l) q = true -> preserves (same_at q) (chmod E l mode).
Proof.
  intros Hp s. unfold chmod.
  destruct (FS.lookup (comps l) (fs s)) as [[data m|es]|]; simpl.
  - eapply same_at_update; [exact Hp | reflexivity].
  - now apply same_at_fs.
  - now apply same_at_fs.
Qed.

Lemma same_store l data s :
  FS.diverge (comps l) q = true -> same_at q s (snd (store E l data s)).
Proof.
  intros Hp. unfold store.
  destruct (FS.lookup (comps l) (fs s)) as [[data0 m|es]|]; simpl.
  - eapply same_at_update; [exact Hp | reflexivity].
  - now apply same_at_fs.
  - destruct (FS.is_dir _ _); simpl.
    + eapply same_at_update; [exact Hp | reflexivity].
    + now apply same_at_fs.
Qed.

Lemma same_copyfile src dst :
  FS.diverge (comps dst) q = true -> preserves (same_at q) (copyfile E src dst).
Proof.
  intros Hp s. unfold copyfile.
  destruct (FS.lookup (comps src) (cwd E)) as [[data m|es]|]; simpl.
  - eapply same_at_trans; [|now apply same_store]. now apply same_at_fs.
  - now apply same_at_fs.
  - now apply same_at_fs.
Qed.

Lemma same_write_text l data :
  FS.diverge (comps l) q = true -> preserves (same_at q) (write_text E l data).
Proof.
  intros Hp s. unfold write_text.
  eapply same_at_trans; [|now apply same_store]. now apply same_at_fs.
Qed.

Lemma same_copytree src (d : loc) x :
  FS.diverge (comps (child_sep d x)) q = true ->
  preserves (same_at q) (copytree E src (child_sep d x)).
Proof.
  intros Hp s. unfold copytree.
  destruct (FS.lookup (comps src) (cwd E)) as [[data m|es]|]; simpl;
    try now apply same_at_fs.
  destruct (FS.exists_at _ _); simpl; [now apply same_at_fs|].
  unfold FS.parent. rewrite removelast_last.
  destruct (FS.mkdirs _ _) as [n|] eqn:Hm; simpl; [|now apply same_at_fs].
  unfold same_at; simpl.
  rewrite FSFacts.lookup_update_diverge; [|exact Hp].
  apply (Frame.mkdirs_frame _ _ _ _ Hm).
  now apply (Frame.diverge_not_prefix _ [x]).
Qed.

End SameAt.

(** ** The purge (lines 105-114) *)

Lemma bind_ok_inv {A B : Type} (m : M A) (k : A -> M B) s b s' :
  bind m k s = (Ok b, s') ->
  exists a s1, m s = (Ok a, s1) /\ k a s1 = (Ok b, s').
Proof.
  unfold bind. destruct (m s) as [[a|e] s1]; [eauto | discriminate].
Qed.

Lemma prefix_refl (p : FS.path) : FS.prefix p p = true.
Proof. induction p; simpl; [reflexivity | now rewrite String.eqb_refl]. Qed.

Lemma diverge_siblings (d : FS.path) (a b : string) :
  String.eqb b a = false -> FS.diverge (d ++ [b]) (d ++ [a]) = true.
Proof.
  intros H. apply (FSFacts.diverge_sibling d a b); [exact H | apply prefix_refl].
Qed.

Lemma entry_kept_refl q o s : entry_kept q o s s.
Proof. intros H. exact H. Qed.

Lemma entry_kept_trans q o s1 s2 s3 :
  entry_kept q o s1 s2 -> entry_kept q o s2 s3 -> entry_kept q o s1 s3.
Proof. unfold entry_kept. auto. Qed.

Lemma entry_kept_same q o s s' : same_at q s s' -> entry_kept q o s s'.
Proof. unfold same_at, entry_kept. congruence. Qed.

Section Purge.

Variable P : loc.

Let I : FS.path := comps (installDir P).

(** One turn of the loop never raises, and calls [os.remove] exactly when
    the name does not contain "config". *)
Lemma purge_entry_result name s :
  exists s',
    purge_entry P name s = (Ok tt, s') /\
    calls s' = calls s ++
               (if not_config name then [OpRemove (I ++ [name])] else []).
Proof.
  unfold purge_entry, not_config.
  destruct (contains "config" name); simpl.
  - exists s. now rewrite app_nil_r.
  - unfold try_except, bind, remove. simpl.
    destruct (FS.lookup _ (fs s)) as [[data m|es]|]; simpl; eauto.
Qed.

Lemma purge_loop_result names s :
  exists s',
    for_each names (purge_entry P) s = (Ok tt, s') /\
    calls s' = calls s ++ map (fun n => OpRemove (I ++ [n])) (filter not_config names).
Proof.
  revert s. induction names as [|n ns IH]; intros s; simpl.
  - exists s. now rewrite app_nil_r.
  - destruct (purge_entry_result n s) as (s1 & H1 & C1).
    destruct (IH s1) as (s2 & H2 & C2).
    exists s2. split.
    + rewrite (bind_ok _ _ _ _ _ H1). exact H2.
    + rewrite C2, C1.
      destruct (not_config n); simpl; now rewrite <- app_assoc.
Qed.

(** Removing another entry does not touch [x]. *)
Lemma purge_entry_same x name :
  String.eqb name x = false ->
  preserves (same_at (I ++ [x])) (purge_entry P name).
Proof.
  intros Hn. unfold purge_entry.
  destruct (contains "config" name).
  - apply preserves_ret, same_at_refl.
  - apply preserves_try; [apply same_at_trans| |].
    + apply preserves_bind; [apply same_at_trans| |].
      * apply same_remove. now apply diverge_siblings.
      * intros _. apply same_output.
    + intros _. apply preserves_ret, same_at_refl.
Qed.

(** An entry that is not a regular file stays as it is, whatever name the
    loop is looking at: [os.remove] raises on it and the error is dropped. *)
Lemma purge_entry_keeps x o name :
  (forall data m, o <> Some (FS.File data m)) ->
  preserves (entry_kept (I ++ [x]) o) (purge_entry P name).
Proof.
  intros Ho. destruct (String.eqb name x) eqn:Hn.
  - apply String.eqb_eq in Hn; subst name. intros s H.
    unfold purge_entry. destruct (contains "config" x); [exact H|].
    unfold try_except, bind, remove. unfold I in *. simpl in *. rewrite H.
    destruct o as [[data m|es]|]; simpl; [|exact H|exact H].
    now destruct (Ho data m).
  - intros s. apply entry_kept_same. now apply purge_entry_same.
Qed.

Lemma purge_loop_keeps x o names :
  (forall data m, o <> Some (FS.File data m)) ->
  preserves (entry_kept (I ++ [x]) o) (for_each names (purge_entry P)).
Proof.
  intros Ho. apply preserves_for_each;
    [apply entry_kept_refl | apply entry_kept_trans |].
  intros name. now apply purge_entry_keeps.
Qed.

(** A regular file whose name does not contain "config" is gone once the
    loop has met its name. *)
Lemma purge_loop_removes x names :
  contains "config" x = false ->
  forall s,
    FS.lookup (I ++ [x]) (fs s) = None \/
    ((exists data m, FS.lookup (I ++ [x]) (fs s) = Some (FS.File data m)) /\
     In x names) ->
    FS.lookup (I ++ [x]) (fs (snd (for_each names (purge_entry P) s))) = None.
Proof.
  intros Hx. induction names as [|n ns IH]; intros s Hs; simpl.
  - destruct Hs as [H|[_ []]]. exact H.
  - destruct (purge_entry_result n s) as (s1 & H1 & _).
    rewrite (bind_ok _ _ _ _ _ H1). apply IH.
    assert (Hs1 : s1 = snd (purge_entry P n s)) by now rewrite H1.
    destruct Hs as [H|[(data & m & H) Hin]].
    + left. rewrite Hs1.
      apply (purge_entry_keeps x None n); [discriminate | exact H].
    + destruct (String.eqb n x) eqn:Hn.
      * left. apply String.eqb_eq in Hn; subst n.
        rewrite Hs1. unfold purge_entry. rewrite Hx. simpl.
        unfold try_except, bind, remove. unfold I in *. simpl in *.
        rewrite H. simpl.
        rewrite FSFacts.lookup_snoc in H.
        destruct (FS.lookup _ (fs s)) as [[|es]|] eqn:HI; try discriminate.
        now rewrite (FSFacts.lookup_update_snoc _ x _ _ es HI).
      * right. split.
        -- exists data, m. rewrite Hs1.
           rewrite (purge_entry_same x n Hn s). exact H.
        -- destruct Hin as [->|Hin]; [|exact Hin].
           now rewrite String.eqb_refl in Hn.
Qed.

End Purge.

Lemma rmtree_ok (l : loc) (s : state) :
  rmtree_ignore_errors l s = (Ok tt, snd (rmtree_ignore_errors l s)).
Proof.
  unfold rmtree_ignore_errors. now destruct (FS.is_dir _ _).
Qed.

Lemma rmtree_calls (l : loc) (s : state) :
  calls (snd (rmtree_ignore_errors l s)) = calls s ++ [OpRmtree (comps l)].
Proof.
  unfold rmtree_ignore_errors. now destruct (FS.is_dir _ _).
Qed.

(** With the installation directory listed after [rmtree], the purge is the
    loop over that listing. *)
Lemma delete_old_version_loop (P : loc) (s : state) es1 :
  FS.lookup (comps (installDir P))
    (fs (snd (rmtree_ignore_errors (child_sep (installDir P) "locale") s)))
  = Some (FS.Dir es1) ->
  delete_old_version P s =
  for_each (map fst es1) (purge_entry P)
    (snd (rmtree_ignore_errors (child_sep (installDir P) "locale") s)).
Proof.
  intros H. unfold delete_old_version.
  rewrite (bind_ok _ _ _ _ _ (rmtree_ok _ s)).
  unfold bind at 1. unfold scandir, listing. now rewrite H.
Qed.

Lemma lookup_snoc_dir (d : FS.path) (x : string) (n : FS.node) v :
  FS.lookup (d ++ [x]) n = Some v ->
  exists es, FS.lookup d n = Some (FS.Dir es) /\ FS.assoc x es = Some v.
Proof.
  rewrite FSFacts.lookup_snoc.
  destruct (FS.lookup d n) as [[|es]|]; try discriminate. eauto.
Qed.

(** C9 (directories survive the purge).  A direct entry of the installation
    directory that is a directory, other than [locale], is handed to
    [os.remove], which raises on it; the error is dropped, the purge runs
    to its end, and the entry is still there with its whole subtree. *)
Theorem purge_keeps_directories (P : loc) (s : state) (name : string)
    (es : list (string * FS.node)) :
  name <> "locale" ->
  FS.lookup (comps (installDir P) ++ [name]) (fs s) = Some (FS.Dir es) ->
  (exists e, fst (remove (child_sep (installDir P) name) s) = Raise e) /\
  fst (delete_old_version P s) = Ok tt /\
  FS.lookup (comps (installDir P) ++ [name]) (fs (snd (delete_old_version P s)))
    = Some (FS.Dir es).
Proof.
  intros Hname H. split.
  { unfold remove. simpl in *. rewrite H. simpl. eauto. }
  assert (Hl : String.eqb "locale" name = false).
  { apply String.eqb_neq. congruence. }
  pose proof (same_rmtree (comps (installDir P) ++ [name])
                (child_sep (installDir P) "locale")
                (diverge_siblings _ name "locale" Hl) s) as H1.
  unfold same_at in H1. rewrite H in H1.
  destruct (lookup_snoc_dir _ _ _ _ H1) as (es1 & HI & _).
  rewrite (delete_old_version_loop P s es1 HI).
  destruct (purge_loop_result P (map fst es1)
              (snd (rmtree_ignore_errors (child_sep (installDir P) "locale") s)))
    as (s2 & H2 & _).
  split; [now rewrite H2|].
  apply (purge_loop_keeps P name (Some (FS.Dir es)) (map fst es1));
    [discriminate | exact H1].
Qed.

Lemma purge_keeps_directories_witness :
  FS.lookup (main_installDir ++ ["oldpkg"])
    (fs (snd (delete_old_version (main_pywriterPath host_linux)
                (initial home_installed))))
  = Some (FS.Dir [("oldmodule.py", FS.File "stale" regular)]).
Proof.
  apply (purge_keeps_directories (main_pywriterPath host_linux)
           (initial home_installed) "oldpkg"
           [("oldmodule.py", FS.File "stale" regular)]);
    [discriminate | reflexivity].
Defined.

(** The purge, run on an existing installation directory. *)
Lemma purge_in_directory (P : loc) (s : state) :
  FS.is_dir (comps (installDir P)) (fs s) = true ->
  exists s1 es1 s2,
    rmtree_ignore_errors (child_sep (installDir P) "locale") s = (Ok tt, s1) /\
    (FS.lookup (comps (installDir P) ++ ["locale"]) (fs s) = None ->
     fs s1 = fs s) /\
    (FS.is_dir (comps (installDir P) ++ ["locale"]) (fs s) = true ->
     FS.lookup (comps (installDir P) ++ ["locale"]) (fs s1) = None /\
     FS.lookup (comps (installDir P) ++ ["locale"]) (fs s2) = None) /\
    FS.lookup (comps (installDir P)) (fs s1) = Some (FS.Dir es1) /\
    delete_old_version P s = (Ok tt, s2) /\
    calls s2 = calls s ++
               OpRmtree (comps (installDir P) ++ ["locale"]) ::
               map (fun n => OpRemove (comps (installDir P) ++ [n]))
                   (filter not_config (map fst es1)) /\
    (forall name s', fst (purge_entry P name s') = Ok tt).
Proof.
  intros HI.
  set (locale := child_sep (installDir P) "locale").
  set (s1 := snd (rmtree_ignore_errors locale s)).
  assert (Hd : exists es, FS.lookup (comps (installDir P)) (fs s) = Some (FS.Dir es)).
  { unfold FS.is_dir in HI.
    destruct (FS.lookup _ (fs s)) as [[|es]|]; try discriminate. eauto. }
  destruct Hd as (es & Hes).
  assert (Hgone : FS.is_dir (comps locale) (fs s) = true ->
                  FS.lookup (comps locale) (fs s1) = None).
  { intros Hl. unfold s1, rmtree_ignore_errors. rewrite Hl. simpl.
    now rewrite (FSFacts.lookup_update_snoc _ "locale" _ _ es Hes). }
  assert (Hd1 : exists es1, FS.lookup (comps (installDir P)) (fs s1) = Some (FS.Dir es1)).
  { unfold s1, rmtree_ignore_errors.
    destruct (FS.is_dir (comps locale) (fs s)); simpl; [|eauto].
    rewrite (FSFacts.update_snoc _ "locale" _ _ es Hes). eauto. }
  destruct Hd1 as (es1 & Hes1).
  destruct (purge_loop_result P (map fst es1) s1) as (s2 & H2 & C2).
  exists s1, es1, s2. repeat split.
  - apply rmtree_ok.
  - intros Hn. unfold s1, rmtree_ignore_errors, FS.is_dir, locale.
    simpl in *. now rewrite Hn.
  - now apply Hgone.
  - assert (Hs2 : s2 = snd (for_each (map fst es1) (purge_entry P) s1))
      by now rewrite H2.
    rewrite Hs2.
    apply (purge_loop_keeps P "locale" None (map fst es1));
      [discriminate | now apply Hgone].
  - exact Hes1.
  - rewrite (delete_old_version_loop P s es1 Hes1). exact H2.
  - rewrite C2. unfold s1. rewrite rmtree_calls. simpl.
    now rewrite <- app_assoc.
  - intros name s'. destruct (purge_entry_result P name s') as (s'' & H & _).
    now rewrite H.
Qed.


(** C7 (stale-file purge).  Once [install] has made sure of the
    configuration directory, the purge first removes the [locale] subtree
    for good (doing nothing when there is none), then lists the installation
    directory and calls [os.remove] on exactly the entries whose name does
    not contain "config", in listing order; no turn of the loop raises and
    the purge always returns normally. *)
Theorem stale_file_purge (P : loc) (s0 s : state) :
  makedirs (cnfDir P) s0 = (Ok tt, s) ->
  exists s1 es1 s2,
    rmtree_ignore_errors (child_sep (installDir P) "locale") s = (Ok tt, s1) /\
    (FS.lookup (comps (installDir P) ++ ["locale"]) (fs s) = None ->
     fs s1 = fs s) /\
    (FS.is_dir (comps (installDir P) ++ ["locale"]) (fs s) = true ->
     FS.lookup (comps (installDir P) ++ ["locale"]) (fs s1) = None /\
     FS.lookup (comps (installDir P) ++ ["locale"]) (fs s2) = None) /\
    FS.lookup (comps (installDir P)) (fs s1) = Some (FS.Dir es1) /\
    delete_old_version P s = (Ok tt, s2) /\
    calls s2 = calls s ++
               OpRmtree (comps (installDir P) ++ ["locale"]) ::
               map (fun n => OpRemove (comps (installDir P) ++ [n]))
                   (filter not_config (map fst es1)) /\
    (forall name s', fst (purge_entry P name s') = Ok tt).
Proof.
  intros Hm. apply purge_in_directory.
  unfold makedirs in Hm.
  destruct (FS.mkdirs (comps (cnfDir P)) (fs s0)) as [n|] eqn:Hn; [|discriminate].
  injection Hm as <-. cbn [fs set_fs].
  destruct (FSFacts.mkdirs_dir (comps (installDir P)) ["config"] _ _ Hn) as (es & Hes).
  unfold FS.is_dir. now rewrite Hes.
Qed.

Lemma stale_file_purge_witness :
  exists s1 es1 s2,
    FS.lookup main_installDir (fs s1) = Some (FS.Dir es1) /\
    delete_old_version (main_pywriterPath host_linux)
      (snd (makedirs (cnfDir (main_pywriterPath host_linux))
              (initial home_installed)))
    = (Ok tt, s2) /\
    calls s2 = [OpMakedirs (main_installDir ++ ["config"])] ++
               OpRmtree (main_installDir ++ ["locale"]) ::
               map (fun n => OpRemove (main_installDir ++ [n]))
                   (filter not_config (map fst es1)).
Proof.
  destruct (stale_file_purge (main_pywriterPath host_linux)
              (initial home_installed)
              (snd (makedirs (cnfDir (main_pywriterPath host_linux))
                      (initial home_installed))))
    as (s1 & es1 & s2 & _ & _ & _ & H2 & H3 & H4 & _).
  - vm_compute. reflexivity.
  - exists s1, es1, s2. auto.
Defined.

(** ** What the copies and the final write leave behind *)

Lemma store_ok (E : env) (l : loc) (data : string) (s s' : state) d x :
  comps l = d ++ [x] ->
  store E l data s = (Ok tt, s') ->
  message s' = message s /\ calls s' = calls s /\
  exists m, FS.lookup (d ++ [x]) (fs s') = Some (FS.File data m).
Proof.
  intros Hl. unfold store. rewrite Hl.
  destruct (FS.lookup (d ++ [x]) (fs s)) as [[data0 m|es]|] eqn:H.
  - intros [= <-]. simpl. repeat split. exists m.
    destruct (lookup_snoc_dir _ _ _ _ H) as (es & Hd & _).
    now rewrite (FSFacts.lookup_update_snoc d x _ _ es Hd).
  - discriminate.
  - unfold FS.parent, FS.is_dir. rewrite removelast_last.
    destruct (FS.lookup d (fs s)) as [[|es]|] eqn:Hd; try discriminate.
    intros [= <-]. simpl. repeat split. exists (new_file_mode E).
    now rewrite (FSFacts.lookup_update_snoc d x _ _ es Hd).
Qed.

Section Blocks.

Variable E : env.
Variable P : loc.

Let I : FS.path := comps (installDir P).

(** A successful program copy leaves the bundle's content at the target. *)
Lemma install_new_version_ok s s' :
  install_new_version E P s = (Ok tt, s') ->
  exists data m0 m,
    FS.lookup [APP] (cwd E) = Some (FS.File data m0) /\
    FS.lookup (I ++ [APP]) (fs s') = Some (FS.File data m).
Proof.
  unfold install_new_version. intros H.
  apply bind_ok_inv in H as ([] & s1 & Hc & Ho).
  unfold output in Ho. injection Ho as <-.
  unfold copyfile in Hc. cbn [comps] in Hc.
  destruct (FS.lookup [APP] (cwd E)) as [[data m0|es]|]; try discriminate.
  apply (store_ok E (child_sep (installDir P) APP) data _ _
           (comps (installDir P)) APP eq_refl) in Hc
    as (_ & _ & m & Hm).
  exists data, m0, m. split; [reflexivity | exact Hm].
Qed.

(** A successful locale copy leaves the bundle's subtree at the target. *)
Lemma install_localization_ok s s' :
  install_localization E P s = (Ok tt, s') ->
  exists es,
    FS.lookup ["locale"] (cwd E) = Some (FS.Dir es) /\
    FS.lookup (I ++ ["locale"]) (fs s') = Some (FS.Dir es).
Proof.
  unfold install_localization. intros H.
  apply bind_ok_inv in H as ([] & s1 & Hc & Ho).
  unfold output in Ho. injection Ho as <-.
  unfold copytree in Hc. cbn [comps child_sep] in Hc.
  destruct (FS.lookup ["locale"] (cwd E)) as [[data m0|es]|]; try discriminate.
  destruct (FS.exists_at _ _); [discriminate|].
  unfold FS.parent in Hc. rewrite removelast_last in Hc.
  destruct (FS.mkdirs _ (fs s)) as [n|] eqn:Hm; [|discriminate].
  injection Hc as <-. cbn [fs set_fs]. exists es. split; [reflexivity|].
  rewrite <- (app_nil_r (comps (installDir P))) in Hm.
  apply FSFacts.mkdirs_dir in Hm as (es0 & Hd).
  now rewrite (FSFacts.lookup_update_snoc _ "locale" _ _ es0 Hd).
Qed.

(** [chmod] changes the mode of the program file, not its content. *)
Lemma make_executable_content s data m :
  FS.lookup (I ++ [APP]) (fs s) = Some (FS.File data m) ->
  FS.lookup (I ++ [APP]) (fs (snd (make_executable E P s)))
  = Some (FS.File data (chmod_mode E m (Z.lor m S_IEXEC))).
Proof.
  intros H. unfold make_executable, try_except, bind, stat_mode, chmod.
  unfold I in *. cbn [comps child_sep fs log set_fs fst snd] in *.
  rewrite H. cbn [comps child_sep fs log set_fs fst snd]. rewrite H.
  cbn [comps child_sep fs log set_fs fst snd].
  destruct (lookup_snoc_dir _ _ _ _ H) as (es & Hd & _).
  now rewrite (FSFacts.lookup_update_snoc _ APP _ _ es Hd).
Qed.

Lemma make_executable_ok s :
  make_executable E P s = (Ok tt, snd (make_executable E P s)).
Proof.
  unfold make_executable, try_except, bind, stat_mode, chmod, pass, ret.
  destruct (FS.lookup _ (fs s)) as [[data m|es]|] eqn:H; simpl in *;
    try rewrite H; reflexivity.
Qed.

(** The final write, when it succeeds, leaves exactly the launcher text. *)
Lemma create_startup_script_ok s s' :
  create_startup_script E P s = (Ok tt, s') ->
  message s' = message s /\
  exists m, FS.lookup (I ++ [START_UP_SCRIPT]) (fs s')
            = Some (FS.File (shebang E ++ START_UP_CODE) m).
Proof.
  unfold create_startup_script, write_text. intros H.
  apply (store_ok E (child_sep (installDir P) START_UP_SCRIPT) _ _ _
           (comps (installDir P)) START_UP_SCRIPT eq_refl) in H
    as (Hm & _ & H).
  split; [exact Hm | exact H].
Qed.

End Blocks.

Lemma preserves_run {A : Type} (R : state -> state -> Prop) (m : M A) s r s' :
  preserves R m -> m s = (r, s') -> R s s'.
Proof. intros Hm H. specialize (Hm s). now rewrite H in Hm. Qed.

(** ** Entries of the installation directory that a block does not write *)

Section BlockFrames.

Variable E : env.
Variable P : loc.
Variable x : string.
Variable q : FS.path.

Let I : FS.path := comps (installDir P).

Hypothesis Hq : FS.prefix (I ++ [x]) q = true.

Lemma same_install_new_version :
  String.eqb APP x = false -> preserves (same_at q) (install_new_version E P).
Proof.
  intros Hx. unfold install_new_version.
  apply preserves_bind; [apply same_at_trans| |intros _; apply same_output].
  apply same_copyfile. now apply (FSFacts.diverge_sibling _ x APP).
Qed.

Lemma same_install_localization :
  String.eqb "locale" x = false -> preserves (same_at q) (install_localization E P).
Proof.
  intros Hx. unfold install_localization.
  apply preserves_bind; [apply same_at_trans| |intros _; apply same_output].
  apply same_copytree. now apply (FSFacts.diverge_sibling _ x "locale").
Qed.

Lemma same_make_executable :
  String.eqb APP x = false -> preserves (same_at q) (make_executable E P).
Proof.
  intros Hx. unfold make_executable.
  apply preserves_try; [apply same_at_trans| |].
  - apply preserves_bind; [apply same_at_trans|apply same_stat_mode|].
    intros st. apply same_chmod. now apply (FSFacts.diverge_sibling _ x APP).
  - intros _. apply preserves_ret, same_at_refl.
Qed.

Lemma same_seed_entry name :
  String.eqb "config" x = false -> preserves (same_at q) (seed_entry E P name).
Proof.
  intros Hx. unfold seed_entry.
  apply preserves_bind; [apply same_at_trans|apply same_isfile|].
  intros present. destruct (negb present); [|apply same_output].
  apply preserves_bind; [apply same_at_trans| |intros _; apply same_output].
  apply same_copyfile. cbn [comps child cnfDir]. rewrite <- app_assoc.
  now apply (FSFacts.diverge_below_sibling _ x "config").
Qed.

Lemma same_install_configuration :
  String.eqb "config" x = false ->
  preserves (same_at q) (install_configuration E P).
Proof.
  intros Hx. unfold install_configuration.
  apply preserves_try; [apply same_at_trans| |].
  - apply preserves_bind; [apply same_at_trans|apply same_scandir_cwd|].
    intros files. apply preserves_for_each;
      [apply same_at_refl | apply same_at_trans |].
    intros name. now apply same_seed_entry.
  - intros _. apply preserves_ret, same_at_refl.
Qed.

Lemma same_ask_shortcut b : preserves (same_at q) (ask_shortcut P b).
Proof.
  unfold ask_shortcut. destruct (negb b);
    [apply same_output | apply preserves_ret, same_at_refl].
Qed.

Lemma same_create_startup_script :
  String.eqb START_UP_SCRIPT x = false ->
  preserves (same_at q) (create_startup_script E P).
Proof.
  intros Hx. unfold create_startup_script.
  apply same_write_text. now apply (FSFacts.diverge_sibling _ x START_UP_SCRIPT).
Qed.

End BlockFrames.

(** ** A run of [install] that returns, step by step *)

Lemma install_steps_ok_inv (E : env) (P : loc) b s s' :
  install_steps E P b s = (Ok tt, s') ->
  exists s1 s2 s3 s4 s5 s6 s7,
    delete_old_version P s = (Ok tt, s1) /\
    install_new_version E P s1 = (Ok tt, s2) /\
    install_localization E P s2 = (Ok tt, s3) /\
    make_executable E P s3 = (Ok tt, s4) /\
    install_configuration E P s4 = (Ok tt, s5) /\
    display_success P s5 = (Ok tt, s6) /\
    ask_shortcut P b s6 = (Ok tt, s7) /\
    create_startup_script E P s7 = (Ok tt, s').
Proof.
  unfold install_steps. intros H.
  apply bind_ok_inv in H as ([] & s1 & H1 & H).
  apply bind_ok_inv in H as ([] & s2 & H2 & H).
  apply bind_ok_inv in H as ([] & s3 & H3 & H).
  apply bind_ok_inv in H as ([] & s4 & H4 & H).
  apply bind_ok_inv in H as ([] & s5 & H5 & H).
  apply bind_ok_inv in H as ([] & s6 & H6 & H).
  apply bind_ok_inv in H as ([] & s7 & H7 & H).
  exists s1, s2, s3, s4, s5, s6, s7. auto 10.
Qed.

Lemma install_ok_inv (E : env) (P : loc) s s' :
  install E P s = (Ok tt, s') ->
  exists sa sb,
    makedirs P s = (Ok tt, sa) /\
    makedirs (cnfDir P) sa = (Ok tt, sb) /\
    install_steps E P (FS.is_file (comps (installDir P) ++ [APP]) (fs sa)) sb
    = (Ok tt, s').
Proof.
  unfold install. intros H.
  apply bind_ok_inv in H as ([] & sa & Ha & H).
  apply bind_ok_inv in H as (b & sa' & Hb & H).
  unfold isfile in Hb. injection Hb as <- <-.
  apply bind_ok_inv in H as ([] & sb & Hc & H).
  exists sa, sb. auto.
Qed.

(** When [install] returns, [run.pyw] holds exactly the launcher text. *)
Lemma startup_script_written (E : env) (P : loc) (s s' : state) :
  install E P s = (Ok tt, s') ->
  exists m,
    FS.lookup (comps (installDir P) ++ [START_UP_SCRIPT]) (fs s')
    = Some (FS.File (shebang E ++ START_UP_CODE) m).
Proof.
  intros H.
  apply install_ok_inv in H as (sa & sb & _ & _ & H).
  apply install_steps_ok_inv in H
    as (s1 & s2 & s3 & s4 & s5 & s6 & s7 & _ & _ & _ & _ & _ & _ & _ & H).
  apply create_startup_script_ok in H as (_ & m & H). now exists m.
Qed.

(** ** Full replace *)

(** The purge removes every regular file of the installation directory
    whose name does not contain "config". *)
Lemma delete_removes_file (P : loc) (s : state) x data m :
  FS.lookup (comps (installDir P) ++ [x]) (fs s) = Some (FS.File data m) ->
  contains "config" x = false ->
  FS.lookup (comps (installDir P) ++ [x]) (fs (snd (delete_old_version P s)))
  = None.
Proof.
  intros H Hx.
  set (s1 := snd (rmtree_ignore_errors (child_sep (installDir P) "locale") s)).
  assert (H1 : FS.lookup (comps (installDir P) ++ [x]) (fs s1)
               = Some (FS.File data m)).
  { unfold s1. destruct (String.eqb "locale" x) eqn:Hl.
    - apply String.eqb_eq in Hl; subst x.
      unfold rmtree_ignore_errors, FS.is_dir. simpl in *. now rewrite H.
    - rewrite (same_rmtree _ (child_sep (installDir P) "locale")
                 (diverge_siblings _ x "locale" Hl) s). exact H. }
  destruct (lookup_snoc_dir _ _ _ _ H1) as (es1 & HI & Hin).
  rewrite (delete_old_version_loop P s es1 HI).
  apply purge_loop_removes; [exact Hx|].
  right. split; [eauto | exact (FSFacts.assoc_In x _ es1 Hin)].
Qed.

Lemma makedirs_keeps_file (l : loc) (s : state) r s' q data m :
  makedirs l s = (r, s') ->
  FS.lookup q (fs s) = Some (FS.File data m) ->
  FS.lookup q (fs s') = Some (FS.File data m).
Proof.
  intros Hm H.
  exact (preserves_run _ _ _ _ _ (kept_makedirs [] l) Hm q data m eq_refl H).
Qed.

Lemma output_fs (t : string) (s s' : state) :
  output t s = (Ok tt, s') -> fs s' = fs s.
Proof. unfold output. now intros [= <-]. Qed.

Lemma ask_shortcut_fs (P : loc) b (s s' : state) :
  ask_shortcut P b s = (Ok tt, s') -> fs s' = fs s.
Proof.
  unfold ask_shortcut. destruct (negb b); [apply output_fs|].
  unfold pass, ret. now intros [= <-].
Qed.

(** C2, as the code has it (full replace).  After a run of [install] that
    returns: the program file holds the bundle's content; the [locale] entry
    is the bundle's subtree; every regular file that was a direct entry of
    the installation directory under a name without "config" has been
    removed before the first copy; and of these names only the three the
    run writes itself are present at the end.  Directories among the direct
    entries are not part of the statement. *)
Theorem full_replace (E : env) (P : loc) (s s' : state) :
  install E P s = (Ok tt, s') ->
  (exists data m0 m,
     FS.lookup [APP] (cwd E) = Some (FS.File data m0) /\
     FS.lookup (comps (installDir P) ++ [APP]) (fs s') = Some (FS.File data m)) /\
  (exists es,
     FS.lookup ["locale"] (cwd E) = Some (FS.Dir es) /\
     FS.lookup (comps (installDir P) ++ ["locale"]) (fs s') = Some (FS.Dir es)) /\
  (exists su s1,
     prepare P s = (Ok su, s1) /\
     forall name data m,
       FS.lookup (comps (installDir P) ++ [name]) (fs s) = Some (FS.File data m) ->
       contains "config" name = false ->
       FS.lookup (comps (installDir P) ++ [name]) (fs s1) = None) /\
  (forall name data m,
     FS.lookup (comps (installDir P) ++ [name]) (fs s) = Some (FS.File data m) ->
     contains "config" name = false ->
     name <> APP -> name <> "locale" -> name <> START_UP_SCRIPT ->
     FS.lookup (comps (installDir P) ++ [name]) (fs s') = None).
Proof.
  intros H.
  apply install_ok_inv in H as (sa & sb & Ha & Hb & H).
  apply install_steps_ok_inv in H
    as (s1 & s2 & s3 & s4 & s5 & s6 & s7 & H1 & H2 & H3 & H4 & H5 & H6 & H7 & H8).
  assert (Hgone : forall name data m,
    FS.lookup (comps (installDir P) ++ [name]) (fs s) = Some (FS.File data m) ->
    contains "config" name = false ->
    FS.lookup (comps (installDir P) ++ [name]) (fs s1) = None).
  { intros name data m Hf Hc.
    apply (makedirs_keeps_file _ _ _ _ _ _ _ Ha) in Hf.
    apply (makedirs_keeps_file _ _ _ _ _ _ _ Hb) in Hf.
    pose proof (delete_removes_file P sb name data m Hf Hc) as Hd.
    now rewrite H1 in Hd. }
  split; [|split; [|split]].
  - destruct (install_new_version_ok E P s1 s2 H2) as (data & m0 & m & Hsrc & Hdst).
    exists data, m0, (chmod_mode E m (Z.lor m S_IEXEC)). split; [exact Hsrc|].
    pose proof (prefix_refl (comps (installDir P) ++ [APP])) as Hq.
    rewrite <- (preserves_run _ _ _ _ _
                  (same_install_localization E P APP _ Hq eq_refl) H3) in Hdst.
    apply (make_executable_content E) in Hdst. rewrite H4 in Hdst. cbn [snd] in Hdst.
    rewrite <- (preserves_run _ _ _ _ _
                  (same_install_configuration E P APP _ Hq eq_refl) H5) in Hdst.
    rewrite <- (output_fs _ _ _ H6) in Hdst.
    rewrite <- (ask_shortcut_fs _ _ _ _ H7) in Hdst.
    rewrite <- (preserves_run _ _ _ _ _
                  (same_create_startup_script E P APP _ Hq eq_refl) H8) in Hdst.
    exact Hdst.
  - destruct (install_localization_ok E P s2 s3 H3) as (es & Hsrc & Hdst).
    exists es. split; [exact Hsrc|].
    pose proof (prefix_refl (comps (installDir P) ++ ["locale"])) as Hq.
    rewrite <- (preserves_run _ _ _ _ _
                  (same_make_executable E P "locale" _ Hq eq_refl) H4) in Hdst.
    rewrite <- (preserves_run _ _ _ _ _
                  (same_install_configuration E P "locale" _ Hq eq_refl) H5) in Hdst.
    rewrite <- (output_fs _ _ _ H6) in Hdst.
    rewrite <- (ask_shortcut_fs _ _ _ _ H7) in Hdst.
    rewrite <- (preserves_run _ _ _ _ _
                  (same_create_startup_script E P "locale" _ Hq eq_refl) H8) in Hdst.
    exact Hdst.
  - exists (FS.is_file (comps (installDir P) ++ [APP]) (fs sa)), s1.
    split; [|exact Hgone].
    unfold prepare.
    rewrite (bind_ok _ _ _ _ _ Ha). unfold bind at 1. unfold isfile.
    rewrite (bind_ok _ _ _ _ _ Hb).
    now rewrite (bind_ok _ _ _ _ _ H1).
  - intros name data m Hf Hc Happ Hloc Hrun.
    pose proof (Hgone name data m Hf Hc) as Hn.
    pose proof (prefix_refl (comps (installDir P) ++ [name])) as Hq.
    assert (Ea : String.eqb APP name = false) by (apply String.eqb_neq; congruence).
    assert (El : String.eqb "locale" name = false) by (apply String.eqb_neq; congruence).
    assert (Er : String.eqb START_UP_SCRIPT name = false)
      by (apply String.eqb_neq; congruence).
    assert (Ec : String.eqb "config" name = false).
    { rewrite String.eqb_sym. now apply contains_config_name. }
    rewrite <- (preserves_run _ _ _ _ _
                  (same_install_new_version E P name _ Hq Ea) H2) in Hn.
    rewrite <- (preserves_run _ _ _ _ _
                  (same_install_localization E P name _ Hq El) H3) in Hn.
    rewrite <- (preserves_run _ _ _ _ _
                  (same_make_executable E P name _ Hq Ea) H4) in Hn.
    rewrite <- (preserves_run _ _ _ _ _
                  (same_install_configuration E P name _ Hq Ec) H5) in Hn.
    rewrite <- (output_fs _ _ _ H6) in Hn.
    rewrite <- (ask_shortcut_fs _ _ _ _ H7) in Hn.
    rewrite <- (preserves_run _ _ _ _ _
                  (same_create_startup_script E P name _ Hq Er) H8) in Hn.
    exact Hn.
Qed.

Lemma full_replace_witness :
  FS.lookup (main_installDir ++ ["oldmodule.py"])
    (fs (snd (install host_linux (main_pywriterPath host_linux)
                (initial home_installed))))
  = None.
Proof.
  destruct (full_replace host_linux (main_pywriterPath host_linux)
              (initial home_installed)
              (snd (install host_linux (main_pywriterPath host_linux)
                      (initial home_installed))))
    as (_ & _ & _ & H).
  - vm_compute. reflexivity.
  - apply (H "oldmodule.py" "stale" regular);
      [reflexivity | reflexivity | discriminate | discriminate | discriminate].
Defined.

(** C2 as the specification words it does not hold: a run that returns
    leaves a stale package directory, whose name does not contain "config",
    in place before the copies and at the end, with the file inside it. *)
Lemma full_replace_leftover :
  fst (install host_linux (main_pywriterPath host_linux) (initial home_installed))
    = Ok tt /\
  contains "config" "oldpkg" = false /\
  FS.lookup (main_installDir ++ ["oldpkg"])
    (fs (snd (prepare (main_pywriterPath host_linux) (initial home_installed))))
    = Some (FS.Dir [("oldmodule.py", FS.File "stale" regular)]) /\
  FS.lookup (main_installDir ++ ["oldpkg"; "oldmodule.py"])
    (fs (snd (install host_linux (main_pywriterPath host_linux)
                (initial home_installed))))
    = Some (FS.File "stale" regular).
Proof. vm_compute. repeat split; reflexivity. Qed.

(** ** Fatal copy failures *)

Lemma install_phases (E : env) (P : loc) (s : state) :
  install E P s =
  (su <- prepare P ;;
   install_new_version E P ;;
   install_localization E P ;;
   finish E P su) s.
Proof.
  unfold install, prepare, install_steps, finish, bind, isfile, ret.
  destruct (makedirs P s) as [[[]|e] sa]; [|reflexivity].
  destruct (makedirs (cnfDir P) sa) as [[[]|e] sb]; [|reflexivity].
  destruct (delete_old_version P sb) as [[[]|e] s1]; reflexivity.
Qed.

(** C3 (fatal copy).  When the copy of the program file raises, or the copy
    of the locale tree after it, [install] ends there: it hands the
    exception and the state of that moment to its caller; the handler at
    the call site appends the message as the last line of the trace and
    the run is over, with every regular file of the configuration
    directory as it was before the run. *)
Theorem fatal_copy (E : env) (P : loc) (s0 : state) (su : bool)
    (s1 : state) (e : exn) (s2 : state) :
  prepare P s0 = (Ok su, s1) ->
  (copyfile E (mkloc APP [APP]) (child_sep (installDir P) APP) s1 = (Raise e, s2)
   \/ exists s1',
        install_new_version E P s1 = (Ok tt, s1') /\
        copytree E (mkloc "locale" ["locale"]) (child_sep (installDir P) "locale") s1'
        = (Raise e, s2)) ->
  install E P s0 = (Raise e, s2) /\
  run E P s0 = (Ok tt, add_message (str e) s2) /\
  last (message (snd (run E P s0))) EmptyString = str e /\
  fs (snd (run E P s0)) = fs s2 /\
  calls (snd (run E P s0)) = calls s2 /\
  (forall q data m,
     FS.prefix (comps (cnfDir P)) q = true ->
     FS.lookup q (fs s0) = Some (FS.File data m) ->
     FS.lookup q (fs (snd (run E P s0))) = Some (FS.File data m)).
Proof.
  intros Hp Hc.
  assert (Hi : install E P s0 = (Raise e, s2)).
  { rewrite install_phases, (bind_ok _ _ _ _ _ Hp).
    destruct Hc as [Hc|(s1' & Hn & Hc)].
    - unfold install_new_version.
      now rewrite (bind_raise _ _ _ _ _ (bind_raise _ _ _ _ _ Hc)).
    - rewrite (bind_ok _ _ _ _ _ Hn). unfold install_localization.
      now rewrite (bind_raise _ _ _ _ _ (bind_raise _ _ _ _ _ Hc)). }
  assert (Hr : run E P s0 = (Ok tt, add_message (str e) s2)).
  { unfold run. now rewrite (try_raise _ _ _ _ _ Hi). }
  split; [exact Hi|]. split; [exact Hr|].
  split; [|split; [|split]].
  - rewrite Hr. simpl. apply last_last.
  - now rewrite Hr.
  - now rewrite Hr.
  - intros q data m Hq H. exact (kept_run E P s0 q data m Hq H).
Qed.

Lemma fatal_copy_witness :
  last (message (snd (main host_no_program (initial home_installed)))) EmptyString
  = str (FileNotFoundError APP) /\
  last (message (snd (main host_no_locale (initial home_installed)))) EmptyString
  = str (FileNotFoundError "locale").
Proof.
  split.
  - destruct (fatal_copy host_no_program (main_pywriterPath host_no_program)
                (initial home_installed) true
                (snd (prepare (main_pywriterPath host_no_program)
                        (initial home_installed)))
                (FileNotFoundError APP)
                (log (OpCopyfile [APP] (main_installDir ++ [APP]))
                   (snd (prepare (main_pywriterPath host_no_program)
                           (initial home_installed)))))
      as (_ & _ & H & _).
    + vm_compute. reflexivity.
    + left. vm_compute. reflexivity.
    + exact H.
  - destruct (fatal_copy host_no_locale (main_pywriterPath host_no_locale)
                (initial home_installed) true
                (snd (prepare (main_pywriterPath host_no_locale)
                        (initial home_installed)))
                (FileNotFoundError "locale")
                (log (OpCopytree ["locale"] (main_installDir ++ ["locale"]))
                   (snd (install_new_version host_no_locale
                           (main_pywriterPath host_no_locale)
                           (snd (prepare (main_pywriterPath host_no_locale)
                                   (initial home_installed)))))))
      as (_ & _ & H & _).
    + vm_compute. reflexivity.
    + right.
      exists (snd (install_new_version host_no_locale
                     (main_pywriterPath host_no_locale)
                     (snd (prepare (main_pywriterPath host_no_locale)
                             (initial home_installed))))).
      split; vm_compute; reflexivity.
    + exact H.
Defined.

(** ** Fresh install or update *)

Lemma makedirs_is_file (l : loc) (s : state) r s' q :
  makedirs l s = (r, s') -> FS.is_file q (fs s') = FS.is_file q (fs s).
Proof.
  unfold makedirs.
  destruct (FS.mkdirs (comps l) (fs s)) as [n|] eqn:Hm; intros [= <- <-]; simpl.
  - now apply (FSFacts.mkdirs_is_file (comps l)).
  - reflexivity.
Qed.

(** The trace plays no part in the final write. *)
Lemma store_add_message (E : env) (l : loc) data t s :
  store E l data (add_message t s)
  = (fst (store E l data s), add_message t (snd (store E l data s))).
Proof.
  unfold store, add_message. simpl.
  destruct (FS.lookup (comps l) (fs s)) as [[data0 m|es]|]; try reflexivity.
  destruct (FS.is_dir _ _); reflexivity.
Qed.

Lemma create_startup_script_add_message (E : env) (P : loc) t s :
  create_startup_script E P (add_message t s)
  = (fst (create_startup_script E P s),
     add_message t (snd (create_startup_script E P s))).
Proof.
  unfold create_startup_script, write_text.
  exact (store_add_message E _ _ t (log _ s)).
Qed.

(** The two values of [simpleUpdate] give the same run, up to the shortcut
    message: either both raise at the same point before the message is due,
    or the run classified as a fresh install is the other one with the
    message added to the trace. *)
Lemma install_steps_flag (E : env) (P : loc) (s : state) :
  (exists e s', install_steps E P true s = (Raise e, s') /\
                install_steps E P false s = (Raise e, s')) \/
  install_steps E P false s
  = (fst (install_steps E P true s),
     add_message (safe_substitute SHORTCUT_MESSAGE (mapping P))
       (snd (install_steps E P true s))).
Proof.
  unfold install_steps, bind.
  destruct (delete_old_version P s) as [[[]|e] s1]; [|left; eauto].
  destruct (install_new_version E P s1) as [[[]|e] s2]; [|left; eauto].
  destruct (install_localization E P s2) as [[[]|e] s3]; [|left; eauto].
  destruct (make_executable E P s3) as [[[]|e] s4]; [|left; eauto].
  destruct (install_configuration E P s4) as [[[]|e] s5]; [|left; eauto].
  destruct (display_success P s5) as [[[]|e] s6]; [|left; eauto].
  right. unfold ask_shortcut, pass, ret, output. cbn [negb].
  exact (create_startup_script_add_message E P _ s6).
Qed.

Lemma install_classified_flag (E : env) (P : loc) (s : state) :
  (exists e s', install_classified E P true s = (Raise e, s') /\
                install_classified E P false s = (Raise e, s')) \/
  install_classified E P false s
  = (fst (install_classified E P true s),
     add_message (safe_substitute SHORTCUT_MESSAGE (mapping P))
       (snd (install_classified E P true s))).
Proof.
  unfold install_classified, bind.
  destruct (makedirs P s) as [[[]|e] sa]; [|left; eauto].
  destruct (makedirs (cnfDir P) sa) as [[[]|e] sb]; [|left; eauto].
  apply install_steps_flag.
Qed.

(** C4 (mode detection).  The run is the one classified by whether the
    program file is a regular file in the tree the run starts from; and
    the classification changes neither the outcome, nor the resulting tree,
    nor the calls made to the file system: the trace of a fresh install is
    the trace of an update, with the shortcut message appended whenever the
    run gets that far, and always when it returns. *)
Theorem mode_detection (E : env) (P : loc) (s : state) :
  install E P s
  = install_classified E P
      (FS.is_file (comps (installDir P) ++ [APP]) (fs s)) s /\
  fst (install_classified E P false s) = fst (install_classified E P true s) /\
  fs (snd (install_classified E P false s))
  = fs (snd (install_classified E P true s)) /\
  calls (snd (install_classified E P false s))
  = calls (snd (install_classified E P true s)) /\
  (message (snd (install_classified E P false s))
   = message (snd (install_classified E P true s)) \/
   message (snd (install_classified E P false s))
   = message (snd (install_classified E P true s))
     ++ [safe_substitute SHORTCUT_MESSAGE (mapping P)]) /\
  (fst (install_classified E P true s) = Ok tt ->
   message (snd (install_classified E P false s))
   = message (snd (install_classified E P true s))
     ++ [safe_substitute SHORTCUT_MESSAGE (mapping P)]).
Proof.
  split.
  - unfold install, install_classified, bind, isfile.
    destruct (makedirs P s) as [[[]|e] sa] eqn:Ha; [|reflexivity].
    now rewrite (makedirs_is_file _ _ _ _ _ Ha).
  - destruct (install_classified_flag E P s) as [(e & s' & Ht & Hf)|H].
    + rewrite Ht, Hf. cbn [fst snd]. repeat split; auto. discriminate.
    + rewrite H. cbn [fst snd]. repeat split; auto.
Qed.

Lemma mode_detection_witness :
  message (snd (install_classified host_linux (main_pywriterPath host_linux)
                  false (initial home_installed)))
  = message (snd (install_classified host_linux (main_pywriterPath host_linux)
                    true (initial home_installed)))
    ++ [safe_substitute SHORTCUT_MESSAGE (mapping (main_pywriterPath host_linux))].
Proof.
  apply (mode_detection host_linux (main_pywriterPath host_linux)
           (initial home_installed)).
  vm_compute. reflexivity.
Defined.

(** ** Seeding the configuration directory (lines 131-141) *)

Lemma for_each_app {A : Type} (xs ys : list A) body s :
  for_each (xs ++ ys) body s = (for_each xs body ;; for_each ys body) s.
Proof.
  revert s. induction xs as [|x xs IH]; intros s; simpl.
  - reflexivity.
  - unfold bind in *. destruct (body x s) as [[[]|e] s1]; [apply IH | reflexivity].
Qed.

Section Seeding.

Variable E : env.
Variable P : loc.

Let cnf : FS.path := comps (cnfDir P).

Lemma seed_entry_keep name s :
  FS.is_file (cnf ++ [name]) (fs s) = true ->
  seed_entry E P name s = (Ok tt, add_message (Keeping name) s).
Proof.
  intros H. unfold seed_entry, bind, isfile. cbn [comps child].
  fold cnf. now rewrite H.
Qed.

Lemma seed_entry_copy name s data m0 es :
  FS.lookup (cnf ++ [name]) (fs s) = None ->
  FS.lookup cnf (fs s) = Some (FS.Dir es) ->
  FS.lookup ["sample"; name] (cwd E) = Some (FS.File data m0) ->
  seed_entry E P name s
  = (Ok tt,
     mkstate (FS.update (cnf ++ [name])
                (fun _ => Some (FS.File data (new_file_mode E))) (fs s))
             (message s ++ [Copying name])
             (calls s ++ [copy_op P name])).
Proof.
  intros Hn Hd Hsrc.
  unfold seed_entry, bind, isfile, FS.is_file, copyfile, store, output.
  cbn [comps child sample_dir app fs log]. fold cnf.
  rewrite Hn. cbn [negb]. rewrite Hsrc, Hn.
  unfold FS.parent, FS.is_dir. rewrite removelast_last, Hd. reflexivity.
Qed.

Lemma seed_entry_raise name s e s' :
  seed_entry E P name s = (Raise e, s') ->
  FS.is_file (cnf ++ [name]) (fs s) = false /\
  fs s' = fs s /\ message s' = message s /\
  calls s' = calls s ++ [copy_op P name].
Proof.
  unfold seed_entry, bind, isfile, copyfile, store, output.
  cbn [comps child sample_dir app fs log]. fold cnf.
  destruct (FS.is_file (cnf ++ [name]) (fs s)); cbn [negb]; [discriminate|].
  destruct (FS.lookup ["sample"; name] (cwd E)) as [[data m0|es]|];
    try (intros [= <- <-]; now repeat split).
  destruct (FS.lookup (cnf ++ [name]) (fs s)) as [[data1 m1|es1]|];
    try discriminate; try (intros [= <- <-]; now repeat split).
  destruct (FS.is_dir _ _); [discriminate|].
  intros [= <- <-]; now repeat split.
Qed.

Lemma seed_entry_ok name s s' :
  seed_entry E P name s = (Ok tt, s') ->
  (message s' = message s ++ [Keeping name] /\ calls s' = calls s) \/
  (message s' = message s ++ [Copying name] /\
   calls s' = calls s ++ [copy_op P name]).
Proof.
  unfold seed_entry, bind, isfile, copyfile, store, output.
  cbn [comps child sample_dir app fs log]. fold cnf.
  destruct (FS.is_file (cnf ++ [name]) (fs s)); cbn [negb].
  - intros [= <-]. now left.
  - destruct (FS.lookup ["sample"; name] (cwd E)) as [[data m0|es]|];
      try discriminate.
    destruct (FS.lookup (cnf ++ [name]) (fs s)) as [[data1 m1|es1]|];
      try discriminate.
    + intros [= <-]. now right.
    + destruct (FS.is_dir _ _); [|discriminate].
      intros [= <-]. now right.
Qed.

(** Seeding one name leaves the entries of other names alone. *)
Lemma seed_entry_sibling name y :
  String.eqb name y = false ->
  preserves (same_at (cnf ++ [y])) (seed_entry E P name).
Proof.
  intros Hn. unfold seed_entry.
  apply preserves_bind; [apply same_at_trans|apply same_isfile|].
  intros present. destruct (negb present); [|apply same_output].
  apply preserves_bind; [apply same_at_trans| |intros _; apply same_output].
  apply same_copyfile. now apply diverge_siblings.
Qed.

Lemma seed_loop_sibling names y :
  ~ In y names ->
  preserves (same_at (cnf ++ [y])) (for_each names (seed_entry E P)).
Proof.
  induction names as [|n ns IH]; intros Hy; simpl.
  - apply preserves_ret, same_at_refl.
  - apply preserves_bind; [apply same_at_trans| |].
    + apply seed_entry_sibling. apply String.eqb_neq. intros ->.
      apply Hy. now left.
    + intros _. apply IH. intros Hin. apply Hy. now right.
Qed.

(** A stretch of the loop that returns writes one line per name, and copies
    only names of that stretch. *)
Lemma seed_loop_trace names s s' :
  for_each names (seed_entry E P) s = (Ok tt, s') ->
  exists lines copied,
    message s' = message s ++ lines /\
    Forall2 (fun n l => l = Copying n \/ l = Keeping n) names lines /\
    calls s' = calls s ++ map (copy_op P) copied /\
    incl copied names.
Proof.
  revert s. induction names as [|n ns IH]; intros s; simpl.
  - unfold ret. intros [= <-]. exists [], []. rewrite !app_nil_r.
    repeat split; [constructor | apply incl_nil_l].
  - intros H. apply bind_ok_inv in H as ([] & s1 & H1 & H).
    destruct (IH _ H) as (lines & copied & Hm & Hl & Hc & Hi).
    apply seed_entry_ok in H1 as [[Hm1 Hc1]|[Hm1 Hc1]].
    + exists (Keeping n :: lines), copied.
      rewrite Hm, Hm1, Hc, Hc1, <- app_assoc.
      repeat split; [constructor; auto | now apply incl_tl].
    + exists (Copying n :: lines), (n :: copied).
      rewrite Hm, Hm1, Hc, Hc1, <- !app_assoc.
      repeat split; [constructor; auto|].
      apply incl_cons; [now left | now apply incl_tl].
Qed.

End Seeding.

(** C10 (a failing copy ends the seeding).  When the copy of one sample
    file raises, the seeding step returns normally in the state of that
    moment: the names listed before it have their trace lines and copies,
    the failing name has its call and no line, and the names listed after
    it have neither a call, nor a line, nor a change in the configuration
    directory; what follows in [install] then runs from that state. *)
Theorem seeding_abort (E : env) (P : loc) (s : state)
    (done : list string) (x : string) (rest : list string)
    (s1 : state) (e : exn) (s2 : state) :
  listing sample_dir (cwd E) = Ok (done ++ x :: rest) ->
  for_each done (seed_entry E P) s = (Ok tt, s1) ->
  seed_entry E P x s1 = (Raise e, s2) ->
  install_configuration E P s = (Ok tt, s2) /\
  fs s2 = fs s1 /\
  (exists lines,
     message s2 = message s ++ lines /\
     Forall2 (fun n l => l = Copying n \/ l = Keeping n) done lines) /\
  (exists copied,
     calls s2 = calls s ++ map (copy_op P) copied ++ [copy_op P x] /\
     incl copied done) /\
  (forall y, ~ In y done ->
     FS.lookup (comps (cnfDir P) ++ [y]) (fs s2)
     = FS.lookup (comps (cnfDir P) ++ [y]) (fs s)) /\
  (forall b,
     (install_configuration E P ;;
      display_success P ;; ask_shortcut P b ;; create_startup_script E P) s
     = (display_success P ;; ask_shortcut P b ;; create_startup_script E P) s2).
Proof.
  intros Hl Hd Hx.
  assert (Hi : install_configuration E P s = (Ok tt, s2)).
  { unfold install_configuration.
    assert (Hr : (files <- scandir_cwd E sample_dir ;;
                  for_each files (seed_entry E P)) s = (Raise e, s2)).
    { unfold bind at 1. unfold scandir_cwd. rewrite Hl.
      rewrite for_each_app, (bind_ok _ _ _ _ _ Hd). simpl.
      now rewrite (bind_raise _ _ _ _ _ Hx). }
    now rewrite (try_raise _ _ _ _ _ Hr). }
  destruct (seed_entry_raise E P x s1 e s2 Hx) as (_ & Hfs & Hm & Hc).
  destruct (seed_loop_trace E P done s s1 Hd) as (lines & copied & Hm1 & Hl1 & Hc1 & Hi1).
  split; [exact Hi|]. split; [exact Hfs|].
  split; [|split; [|split]].
  - exists lines. now rewrite Hm, Hm1.
  - exists copied. now rewrite Hc, Hc1, <- app_assoc.
  - intros y Hy. rewrite Hfs.
    exact (preserves_run _ _ _ _ _ (seed_loop_sibling E P done y Hy) Hd).
  - intros b. now rewrite (bind_ok _ _ _ _ _ Hi).
Qed.

Lemma seeding_abort_witness :
  install_configuration host_sample_subdir (main_pywriterPath host_sample_subdir)
    (initial home_prepared)
  = (Ok tt,
     mkstate
       (FS.Dir [ (".pywriter", FS.Dir [ (APPNAME, FS.Dir
          [("config", FS.Dir [(INI_FILE, FS.File "[SETTINGS]" regular)])]) ]) ])
       [Copying INI_FILE]
       [copy_op (main_pywriterPath host_sample_subdir) INI_FILE;
        copy_op (main_pywriterPath host_sample_subdir) "themes"]).
Proof.
  apply (seeding_abort host_sample_subdir (main_pywriterPath host_sample_subdir)
           (initial home_prepared) [INI_FILE] "themes" ["extra.ini"]
           (snd (seed_entry host_sample_subdir
                   (main_pywriterPath host_sample_subdir) INI_FILE
                   (initial home_prepared)))
           (IsADirectoryError "sample/themes")).
  - reflexivity.
  - vm_compute. reflexivity.
  - vm_compute. reflexivity.
Defined.

Section SeedingAll.

Variable E : env.
Variable P : loc.

Let cnf : FS.path := comps (cnfDir P).

(** The loop over a listing in which no copy can raise: every name gets its
    line, the names without a file get their copy, and nothing else. *)
Lemma seed_loop_all names : forall s es,
  FS.lookup cnf (fs s) = Some (FS.Dir es) ->
  NoDup names ->
  (forall n, In n names ->
     FS.is_file (cnf ++ [n]) (fs s) = false ->
     FS.lookup (cnf ++ [n]) (fs s) = None /\
     FS.is_file ["sample"; n] (cwd E) = true) ->
  exists s',
    for_each names (seed_entry E P) s = (Ok tt, s') /\
    message s' = message s ++ map (seed_line P (fs s)) names /\
    calls s' = calls s ++ map (copy_op P) (filter (to_copy P (fs s)) names) /\
    (forall n, In n names ->
       FS.is_file (cnf ++ [n]) (fs s) = true ->
       FS.lookup (cnf ++ [n]) (fs s') = FS.lookup (cnf ++ [n]) (fs s)) /\
    (forall n, In n names ->
       FS.is_file (cnf ++ [n]) (fs s) = false ->
       exists data m0,
         FS.lookup ["sample"; n] (cwd E) = Some (FS.File data m0) /\
         FS.lookup (cnf ++ [n]) (fs s')
         = Some (FS.File data (new_file_mode E))).
Proof.
  induction names as [|n ns IH]; intros s es Hd Hnd Hc.
  - exists s. simpl. rewrite !app_nil_r. repeat split; intros ? [].
  - inversion Hnd as [|? ? Hn Hnd']; subst.
    destruct (FS.is_file (cnf ++ [n]) (fs s)) eqn:Hf.
    + (* the file is there: keep it *)
      pose proof (seed_entry_keep E P n s Hf) as H1.
      destruct (IH (add_message (Keeping n) s) es Hd Hnd') as
        (s' & Hs' & Hm & Hcl & Hk & Hcp).
      { intros n' Hin. apply Hc. now right. }
      exists s'. simpl. rewrite (bind_ok _ _ _ _ _ H1).
      split; [exact Hs'|]. simpl in Hm, Hcl, Hk, Hcp.
      unfold seed_line at 1, to_copy at 1. fold cnf. rewrite Hf. simpl.
      rewrite Hm, Hcl, <- app_assoc. repeat split.
      * intros n' [<-|Hin] Hf'; [|now apply Hk].
        exact (preserves_run _ _ _ _ _ (seed_loop_sibling E P ns n Hn) Hs').
      * intros n' [<-|Hin] Hf'; [congruence | now apply Hcp].
    + (* no file of that name: copy the sample *)
      destruct (Hc n (or_introl eq_refl) Hf) as (Hnone & Hsrc).
      unfold FS.is_file in Hsrc.
      destruct (FS.lookup ["sample"; n] (cwd E)) as [[data m0|?]|] eqn:Hs;
        try discriminate.
      pose proof (seed_entry_copy E P n s data m0 es Hnone Hd Hs) as H1.
      fold cnf in H1.
      set (s1 := mkstate
                   (FS.update (cnf ++ [n])
                      (fun _ => Some (FS.File data (new_file_mode E))) (fs s))
                   (message s ++ [Copying n]) (calls s ++ [copy_op P n])) in *.
      assert (Hsib : forall n', n' <> n ->
                FS.lookup (cnf ++ [n']) (fs s1) = FS.lookup (cnf ++ [n']) (fs s)).
      { intros n' Hne. unfold s1. cbn [fs].
        apply FSFacts.lookup_update_sibling. now apply String.eqb_neq. }
      assert (Hne : forall n', In n' ns -> n' <> n) by (intros n' Hin ->; auto).
      assert (Hisf : forall n', In n' ns ->
                FS.is_file (cnf ++ [n']) (fs s1) = FS.is_file (cnf ++ [n']) (fs s)).
      { intros n' Hin. unfold FS.is_file. now rewrite (Hsib n' (Hne n' Hin)). }
      destruct (IH s1 (FS.set_entry n (Some (FS.File data (new_file_mode E))) es))
        as (s' & Hs' & Hm & Hcl & Hk & Hcp).
      { unfold s1. cbn [fs].
        now rewrite (FSFacts.update_snoc cnf n _ _ es Hd). }
      { exact Hnd'. }
      { intros n' Hin Hf'. rewrite (Hisf n' Hin) in Hf'.
        rewrite (Hsib n' (Hne n' Hin)). apply Hc; [now right | exact Hf']. }
      exists s'. simpl. rewrite (bind_ok _ _ _ _ _ H1).
      split; [exact Hs'|].
      unfold seed_line at 1, to_copy at 1. fold cnf. rewrite Hf. simpl.
      rewrite Hm, Hcl. unfold s1 at 1 3. cbn [message calls].
      rewrite <- !app_assoc. simpl.
      rewrite (map_ext_in (seed_line P (fs s1)) (seed_line P (fs s))).
      2:{ intros n' Hin. unfold seed_line. fold cnf. now rewrite (Hisf n' Hin). }
      rewrite (filter_ext_in (to_copy P (fs s1)) (to_copy P (fs s))).
      2:{ intros n' Hin. unfold to_copy. fold cnf. now rewrite (Hisf n' Hin). }
      repeat split.
      * intros n' [<-|Hin] Hf'; [congruence|].
        rewrite <- (Hsib n' (Hne n' Hin)). apply Hk; [exact Hin|].
        now rewrite (Hisf n' Hin).
      * intros n' [<-|Hin] Hf'.
        -- exists data, m0. split; [exact Hs|].
           pose proof (preserves_run _ _ _ _ _
                         (seed_loop_sibling E P ns n Hn) Hs') as Hq.
           unfold same_at in Hq. fold cnf in Hq. rewrite Hq.
           unfold s1. cbn [fs].
           now rewrite (FSFacts.lookup_update_snoc cnf n _ _ es Hd).
        -- apply Hcp; [exact Hin|]. now rewrite (Hisf n' Hin).
Qed.

End SeedingAll.

Section SeedingReached.

Variable E : env.
Variable P : loc.

Let cnf : FS.path := comps (cnfDir P).

Lemma copy_raises_ext t1 t2 n :
  FS.lookup (cnf ++ [n]) t1 = FS.lookup (cnf ++ [n]) t2 ->
  copy_raises E P t1 n = copy_raises E P t2 n.
Proof.
  intros H. unfold copy_raises, FS.is_file, FS.exists_at. fold cnf.
  now rewrite H.
Qed.

Lemma seeded_ext t1 t2 names :
  (forall n, In n names ->
     FS.lookup (cnf ++ [n]) t1 = FS.lookup (cnf ++ [n]) t2) ->
  seeded E P t1 names = seeded E P t2 names /\
  reached E P t1 names = reached E P t2 names.
Proof.
  induction names as [|n ns IH]; intros H; simpl; [now split|].
  rewrite (copy_raises_ext t1 t2 n (H n (or_introl eq_refl))).
  destruct IH as (IH1 & IH2); [intros n' Hin; apply H; now right|].
  destruct (copy_raises E P t2 n); [now split|]. now rewrite IH1, IH2.
Qed.

Lemma seeded_incl t names n : In n (seeded E P t names) -> In n names.
Proof.
  induction names as [|x ns IH]; simpl; [tauto|].
  destruct (copy_raises E P t x); [intros []|].
  intros [->|H]; [now left | right; now apply IH].
Qed.

(** The names the loop gets to, when a turn raises, are the seeded ones
    followed by the name of that turn; otherwise all of them are seeded. *)
Lemma seeded_reached t names :
  (forall n, In n (seeded E P t names) -> copy_raises E P t n = false) /\
  exists rest,
    names = seeded E P t names ++ rest /\
    match rest with
    | [] => reached E P t names = names
    | x :: _ =>
        copy_raises E P t x = true /\
        reached E P t names = seeded E P t names ++ [x]
    end.
Proof.
  induction names as [|n ns (IH1 & rest & IH2 & IH3)]; simpl.
  - split; [intros n []|]. now exists [].
  - destruct (copy_raises E P t n) eqn:Hr.
    + split; [intros n0 []|]. exists (n :: ns). now repeat split.
    + split.
      * intros n0 [<-|Hin]; [exact Hr | now apply IH1].
      * exists rest. split; [simpl; now rewrite <- IH2|].
        destruct rest as [|x rest']; [now rewrite IH3|].
        destruct IH3 as (Hx & IH3). split; [exact Hx|]. simpl. now rewrite IH3.
Qed.

(** A turn that raises has called [copyfile] and changed nothing else. *)
Lemma seed_entry_raises n s es :
  FS.lookup cnf (fs s) = Some (FS.Dir es) ->
  copy_raises E P (fs s) n = true ->
  exists e, seed_entry E P n s = (Raise e, log (copy_op P n) s).
Proof.
  intros Hd Hr. unfold copy_raises in Hr. fold cnf in Hr.
  apply andb_prop in Hr as (Hf & Hr). apply negb_true_iff in Hf.
  unfold seed_entry, bind, isfile, copyfile, store, output, copy_op.
  cbn [comps child sample_dir app fs log]. fold cnf. rewrite Hf. cbn [negb].
  unfold FS.is_file, FS.exists_at in *.
  destruct (FS.lookup ["sample"; n] (cwd E)) as [[data m0|?]|]; eauto.
  destruct (FS.lookup (cnf ++ [n]) (fs s)) as [[data1 m1|es1]|];
    try discriminate; eauto.
Qed.

(** The seeding loop, whatever its listing holds: it runs until a turn
    raises, and each turn before that is decided by [isfile] alone. *)
Lemma seed_loop_reached names : forall s es,
  FS.lookup cnf (fs s) = Some (FS.Dir es) ->
  NoDup names ->
  exists r s',
    for_each names (seed_entry E P) s = (r, s') /\
    message s' = message s ++ map (seed_line P (fs s)) (seeded E P (fs s) names) /\
    calls s' = calls s ++ map (copy_op P)
                            (filter (to_copy P (fs s)) (reached E P (fs s) names)) /\
    (forall n, FS.is_file (cnf ++ [n]) (fs s) = true ->
       FS.lookup (cnf ++ [n]) (fs s') = FS.lookup (cnf ++ [n]) (fs s)) /\
    (forall n, In n (seeded E P (fs s) names) ->
       FS.is_file (cnf ++ [n]) (fs s) = false ->
       exists data m0,
         FS.lookup ["sample"; n] (cwd E) = Some (FS.File data m0) /\
         FS.lookup (cnf ++ [n]) (fs s')
         = Some (FS.File data (new_file_mode E))) /\
    (forall n, ~ In n (seeded E P (fs s) names) ->
       FS.lookup (cnf ++ [n]) (fs s') = FS.lookup (cnf ++ [n]) (fs s)).
Proof.
  induction names as [|n ns IH]; intros s es Hd Hnd.
  - exists (Ok tt), s. simpl. rewrite !app_nil_r.
    repeat split; try reflexivity. intros ? [].
  - inversion Hnd as [|? ? Hn Hnd']; subst.
    simpl. destruct (copy_raises E P (fs s) n) eqn:Hr.
    + (* the turn raises: the loop ends here *)
      destruct (seed_entry_raises n s es Hd Hr) as (e & H1).
      exists (Raise e), (log (copy_op P n) s).
      rewrite (bind_raise _ _ _ _ _ H1).
      assert (Ht : to_copy P (fs s) n = true).
      { unfold copy_raises in Hr. now apply andb_prop in Hr as (Hf & _). }
      simpl. rewrite Ht. simpl. rewrite app_nil_r.
      repeat split; try reflexivity. intros ? [].
    + destruct (FS.is_file (cnf ++ [n]) (fs s)) eqn:Hf.
      * (* the file is there: keep it *)
        pose proof (seed_entry_keep E P n s Hf) as H1.
        destruct (IH (add_message (Keeping n) s) es Hd Hnd') as
          (r & s' & Hs' & Hm & Hcl & Hk & Hcp & Hu).
        exists r, s'. rewrite (bind_ok _ _ _ _ _ H1).
        split; [exact Hs'|]. cbn [fs message calls add_message] in Hm, Hcl, Hk, Hcp, Hu.
        simpl. unfold seed_line at 1, to_copy at 1. fold cnf. rewrite Hf. simpl.
        rewrite Hm, Hcl, <- app_assoc. repeat split.
        -- exact Hk.
        -- intros n' [<-|Hin] Hf'; [congruence | now apply Hcp].
        -- intros n' Hn'. apply Hu. intros Hin. apply Hn'. now right.
      * (* no file of that name: copy the sample *)
        assert (Hc : FS.lookup (cnf ++ [n]) (fs s) = None /\
                     exists data m0,
                       FS.lookup ["sample"; n] (cwd E) = Some (FS.File data m0)).
        { unfold copy_raises in Hr. fold cnf in Hr. rewrite Hf in Hr.
          cbn [negb andb] in Hr. apply orb_false_elim in Hr as (Hsrc & Hex).
          apply negb_false_iff in Hsrc.
          unfold FS.exists_at, FS.is_file in *. split.
          - destruct (FS.lookup (cnf ++ [n]) (fs s)); [discriminate|reflexivity].
          - destruct (FS.lookup ["sample"; n] (cwd E)) as [[data m0|?]|];
              try discriminate. eauto. }
        destruct Hc as (Hnone & data & m0 & Hs).
        pose proof (seed_entry_copy E P n s data m0 es Hnone Hd Hs) as H1.
        fold cnf in H1.
        set (s1 := mkstate
                     (FS.update (cnf ++ [n])
                        (fun _ => Some (FS.File data (new_file_mode E))) (fs s))
                     (message s ++ [Copying n]) (calls s ++ [copy_op P n])) in *.
        assert (Hsib : forall n', n' <> n ->
                  FS.lookup (cnf ++ [n']) (fs s1) = FS.lookup (cnf ++ [n']) (fs s)).
        { intros n' Hne. unfold s1. cbn [fs].
          apply FSFacts.lookup_update_sibling. now apply String.eqb_neq. }
        assert (Hne : forall n', In n' ns -> n' <> n) by (intros n' Hin ->; auto).
        assert (Hisf : forall n', n' <> n ->
                  FS.is_file (cnf ++ [n']) (fs s1) = FS.is_file (cnf ++ [n']) (fs s)).
        { intros n' Hn'. unfold FS.is_file. now rewrite (Hsib n' Hn'). }
        destruct (seeded_ext (fs s1) (fs s) ns) as (Hse & Hre).
        { intros n' Hin. apply Hsib. now apply Hne. }
        destruct (IH s1 (FS.set_entry n (Some (FS.File data (new_file_mode E))) es))
          as (r & s' & Hs' & Hm & Hcl & Hk & Hcp & Hu).
        { unfold s1. cbn [fs].
          now rewrite (FSFacts.update_snoc cnf n _ _ es Hd). }
        { exact Hnd'. }
        rewrite Hse in Hm, Hcp, Hu. rewrite Hre in Hcl.
        assert (Hnot : ~ In n (seeded E P (fs s) ns)).
        { intros Hin. apply Hn. exact (seeded_incl _ _ _ Hin). }
        assert (Hnew : FS.lookup (cnf ++ [n]) (fs s1)
                       = Some (FS.File data (new_file_mode E))).
        { unfold s1. cbn [fs].
          now rewrite (FSFacts.lookup_update_snoc cnf n _ _ es Hd). }
        exists r, s'. rewrite (bind_ok _ _ _ _ _ H1).
        split; [exact Hs'|].
        simpl. unfold seed_line at 1, to_copy at 1. fold cnf. rewrite Hf. simpl.
        rewrite Hm, Hcl. unfold s1 at 1 3. cbn [message calls].
        rewrite <- !app_assoc. simpl.
        rewrite (map_ext_in (seed_line P (fs s1)) (seed_line P (fs s))).
        2:{ intros n' Hin. unfold seed_line. fold cnf.
            rewrite (Hisf n'); [reflexivity|].
            apply Hne. exact (seeded_incl _ _ _ Hin). }
        rewrite (filter_ext_in (to_copy P (fs s1)) (to_copy P (fs s))).
        2:{ intros n' Hin. unfold to_copy. fold cnf.
            rewrite (Hisf n'); [reflexivity|].
            apply Hne. destruct (seeded_reached (fs s) ns) as (_ & rest & Hns & Hrest).
            destruct rest as [|x rest'].
            - now rewrite Hrest in Hin.
            - destruct Hrest as (_ & Hrest). rewrite Hrest in Hin. rewrite Hns.
              apply in_app_or in Hin as [Hin|[<-|[]]];
                apply in_or_app; [now left | right; now left]. }
        repeat split.
        -- intros n' Hf'.
           assert (Hn' : n' <> n) by (intros ->; congruence).
           rewrite <- (Hsib n' Hn'). apply Hk. now rewrite (Hisf n' Hn').
        -- intros n' [<-|Hin] Hf'.
           ++ exists data, m0. split; [exact Hs|].
              rewrite (Hu n Hnot). exact Hnew.
           ++ apply Hcp; [exact Hin|].
              rewrite (Hisf n'); [exact Hf'|].
              apply Hne. exact (seeded_incl _ _ _ Hin).
        -- intros n' Hn'.
           assert (Hne' : n' <> n) by (intros ->; apply Hn'; now left).
           rewrite <- (Hsib n' Hne'). apply Hu.
           intros Hin. apply Hn'. now right.
Qed.

End SeedingReached.

Lemma install_configuration_ok (E : env) (P : loc) (s : state) :
  fst (install_configuration E P s) = Ok tt.
Proof.
  unfold install_configuration, try_except, pass, ret.
  now destruct ((files <- scandir_cwd E sample_dir ;;
                 for_each files (seed_entry E P)) s) as [[[]|e] s1].
Qed.

(** C6, as the code has it (config seeding).  The seeding step always
    returns normally.  Without a sample directory it changes nothing at
    all.  With one, the loop takes the listed names in order until the
    copy of one raises, and each turn it gets to is decided by [isfile]
    alone, whatever happens later: a name with a regular file in the
    configuration directory gets a "Keeping" line and the file stays as it
    is; a name without one has [copyfile] called for it and, when the copy
    returns, gets a "Copying" line and the configuration directory holds
    the sample's content under that name.  The lines and the calls come in
    listing order; a name the loop does not get to has neither, and its
    entry in the configuration directory is as before.  When no copy can
    raise (each listed name that has no regular file in the configuration
    directory is free there and is a regular file among the samples), this
    covers every listed name. *)
Theorem config_seeding (E : env) (P : loc) (s : state) :
  fst (install_configuration E P s) = Ok tt /\
  (FS.lookup ["sample"] (cwd E) = None ->
   install_configuration E P s = (Ok tt, s)) /\
  (forall names,
     FS.is_dir (comps (cnfDir P)) (fs s) = true ->
     listing sample_dir (cwd E) = Ok names ->
     NoDup names ->
     exists s',
       install_configuration E P s = (Ok tt, s') /\
       message s' = message s
                    ++ map (seed_line P (fs s)) (seeded E P (fs s) names) /\
       calls s' = calls s
                  ++ map (copy_op P)
                       (filter (to_copy P (fs s)) (reached E P (fs s) names)) /\
       (forall n,
          FS.is_file (comps (cnfDir P) ++ [n]) (fs s) = true ->
          FS.lookup (comps (cnfDir P) ++ [n]) (fs s')
          = FS.lookup (comps (cnfDir P) ++ [n]) (fs s)) /\
       (forall n, In n (seeded E P (fs s) names) ->
          FS.is_file (comps (cnfDir P) ++ [n]) (fs s) = false ->
          exists data m0,
            FS.lookup ["sample"; n] (cwd E) = Some (FS.File data m0) /\
            FS.lookup (comps (cnfDir P) ++ [n]) (fs s')
            = Some (FS.File data (new_file_mode E))) /\
       (forall n, ~ In n (seeded E P (fs s) names) ->
          FS.lookup (comps (cnfDir P) ++ [n]) (fs s')
          = FS.lookup (comps (cnfDir P) ++ [n]) (fs s))) /\
  (forall names,
     FS.is_dir (comps (cnfDir P)) (fs s) = true ->
     listing sample_dir (cwd E) = Ok names ->
     NoDup names ->
     (forall n, In n names ->
        FS.is_file (comps (cnfDir P) ++ [n]) (fs s) = false ->
        FS.lookup (comps (cnfDir P) ++ [n]) (fs s) = None /\
        FS.is_file ["sample"; n] (cwd E) = true) ->
     exists s',
       install_configuration E P s = (Ok tt, s') /\
       message s' = message s ++ map (seed_line P (fs s)) names /\
       calls s' = calls s ++ map (copy_op P) (filter (to_copy P (fs s)) names) /\
       (forall n, In n names ->
          FS.is_file (comps (cnfDir P) ++ [n]) (fs s) = true ->
          FS.lookup (comps (cnfDir P) ++ [n]) (fs s')
          = FS.lookup (comps (cnfDir P) ++ [n]) (fs s)) /\
       (forall n, In n names ->
          FS.is_file (comps (cnfDir P) ++ [n]) (fs s) = false ->
          exists data m0,
            FS.lookup ["sample"; n] (cwd E) = Some (FS.File data m0) /\
            FS.lookup (comps (cnfDir P) ++ [n]) (fs s')
            = Some (FS.File data (new_file_mode E)))).
Proof.
  split; [apply install_configuration_ok|]. split; [|split].
  - intros Hn.
    unfold install_configuration, try_except, bind, scandir_cwd, listing.
    cbn [comps sample_dir]. now rewrite Hn.
  - intros names Hd Hl Hnd.
    unfold FS.is_dir in Hd.
    destruct (FS.lookup (comps (cnfDir P)) (fs s)) as [[|es]|] eqn:Hes;
      try discriminate.
    destruct (seed_loop_reached E P names s es Hes Hnd)
      as (r & s' & Hs' & Hrest).
    exists s'. split; [|exact Hrest].
    unfold install_configuration, try_except. unfold bind at 1.
    unfold scandir_cwd. rewrite Hl, Hs'. now destruct r as [[]|e].
  - intros names Hd Hl Hnd Hc.
    unfold FS.is_dir in Hd.
    destruct (FS.lookup (comps (cnfDir P)) (fs s)) as [[|es]|] eqn:Hes;
      try discriminate.
    destruct (seed_loop_all E P names s es Hes Hnd Hc)
      as (s' & Hs' & Hm & Hcl & Hk & Hcp).
    exists s'. split; [|auto].
    unfold install_configuration.
    apply try_ok. unfold bind at 1. unfold scandir_cwd. now rewrite Hl.
Qed.

Lemma config_seeding_witness :
  exists s',
    install_configuration host_sample_subdir
      (main_pywriterPath host_sample_subdir) (initial home_prepared)
    = (Ok tt, s') /\
    message s' = [Copying INI_FILE] /\
    calls s' = [copy_op (main_pywriterPath host_sample_subdir) INI_FILE;
                copy_op (main_pywriterPath host_sample_subdir) "themes"] /\
    FS.lookup (main_installDir ++ ["config"; INI_FILE]) (fs s')
    = Some (FS.File "[SETTINGS]" regular) /\
    FS.lookup (main_installDir ++ ["config"; "extra.ini"]) (fs s') = None.
Proof.
  destruct (config_seeding host_sample_subdir
              (main_pywriterPath host_sample_subdir)
              (initial home_prepared)) as (_ & _ & H & _).
  destruct (H [INI_FILE; "themes"; "extra.ini"] eq_refl eq_refl)
    as (s' & Hs' & Hm & Hcl & _ & Hcp & Hu).
  - repeat constructor; simpl; intros Hin;
      repeat (destruct Hin as [Hin|Hin]; [discriminate Hin|]); exact Hin.
  - exists s'. split; [exact Hs'|]. split; [exact Hm|]. split; [exact Hcl|].
    split.
    + destruct (Hcp INI_FILE (or_introl eq_refl) eq_refl)
        as (data & m0 & Hsrc & Hdst).
      injection Hsrc as <- _. exact Hdst.
    + refine (eq_trans (Hu "extra.ini" _) eq_refl).
      intros Hin. repeat (destruct Hin as [Hin|Hin]; [discriminate Hin|]).
      exact Hin.
Defined.

(** C6 as the specification words it does not hold: a sample file listed
    after an entry whose copy raises is not copied, although no file of its
    name exists in the configuration directory, and [install] returns all
    the same. *)
Lemma seeding_skips_a_sample_file :
  fst (install host_sample_subdir (main_pywriterPath host_sample_subdir)
         (initial home_empty)) = Ok tt /\
  FS.is_file ["sample"; "extra.ini"] (cwd host_sample_subdir) = true /\
  FS.is_file (main_installDir ++ ["config"; "extra.ini"]) home_empty = false /\
  FS.lookup (main_installDir ++ ["config"; "extra.ini"])
    (fs (snd (install host_sample_subdir (main_pywriterPath host_sample_subdir)
                (initial home_empty)))) = None /\
  ~ In (copy_op (main_pywriterPath host_sample_subdir) "extra.ini")
       (calls (snd (install host_sample_subdir
                      (main_pywriterPath host_sample_subdir)
                      (initial home_empty)))).
Proof.
  vm_compute. repeat split.
  intros H. repeat (destruct H as [H|H]; [discriminate H|]). exact H.
Qed.

(** ** The trace of a fresh install *)

Ltac run_step H :=
  unfold bind at 1;
  match goal with
  | |- context [let (_, _) := ?m ?s in _] =>
      destruct (m s) as [? ?] eqn:H;
      cbv -[Z.lor safe_substitute shebang START_UP_CODE Copying String.append] in H;
      injection H as <- <-
  end.

Section FreshInstall.

Variables home platform : string.
Variable mode : Z.
Variables (program : string) (pmode : Z).
Variables (lname ldata : string) (lmode : Z).
Variables (sname sdata : string) (smode : Z).

Let E : env :=
  fresh_host home platform mode program pmode lname ldata lmode sname sdata smode.
Let P : loc := main_pywriterPath E.

Lemma fresh_install_run :
  exists tree,
    install E P (initial home_empty)
    = (Ok tt,
       mkstate tree
         [ Copying APP; Copying "locale"; Copying sname;
           safe_substitute SUCCESS_MESSAGE (mapping P);
           safe_substitute SHORTCUT_MESSAGE (mapping P) ]
         [ OpMakedirs [".pywriter"];
           OpMakedirs (main_installDir ++ ["config"]);
           OpRmtree (main_installDir ++ ["locale"]);
           OpCopyfile [APP] (main_installDir ++ [APP]);
           OpCopytree ["locale"] (main_installDir ++ ["locale"]);
           OpChmod (main_installDir ++ [APP]) (Z.lor mode S_IEXEC);
           OpCopyfile ["sample"; sname] (main_installDir ++ ["config"; sname]);
           OpWrite (main_installDir ++ [START_UP_SCRIPT])
             (shebang E ++ START_UP_CODE) ]).
Proof.
  eexists. rewrite install_phases.
  run_step H1. run_step H2. run_step H3.
  unfold finish. run_step H4.
  unfold bind at 1.
  (* the seeding step: one name, no file of that name yet *)
  match goal with
  | |- context [install_configuration E P ?s] =>
      assert (H5 : install_configuration E P s
                   = (Ok tt,
                      mkstate
                        (FS.update (comps (cnfDir P) ++ [sname])
                           (fun _ => Some (FS.File sdata mode)) (fs s))
                        (message s ++ [Copying sname])
                        (calls s ++ [copy_op P sname])))
  end.
  { unfold install_configuration. apply try_ok. unfold bind at 1.
    change (scandir_cwd E sample_dir) with
      (fun s : state => (listing sample_dir (cwd E), s)).
    cbv beta.
    assert (Hl : listing sample_dir (cwd E) = Ok [sname]) by reflexivity.
    rewrite Hl. cbn [for_each]. unfold bind at 1.
    rewrite (seed_entry_copy E P sname _ sdata smode []);
      [ reflexivity | reflexivity | reflexivity
      | cbn; now rewrite String.eqb_refl ]. }
  rewrite H5. clear H5.
  run_step H6. run_step H7.
  cbv -[Z.lor safe_substitute shebang START_UP_CODE Copying String.append].
  reflexivity.
Qed.

(** C8, as the code has it (trace of a fresh install).  On an empty home
    directory, with a bundle of the program file, a locale directory with
    one file and one sample file, the run returns and its trace is, in this
    order: the copy of the program file, the copy of the locale tree, the
    copy of the sample file, the success message and the shortcut message.
    No line says "Keeping".  The start-up script is written last, and no
    line of the trace reports it. *)
Theorem fresh_install_trace :
  fst (main E (initial home_empty)) = Ok tt /\
  message (snd (main E (initial home_empty)))
  = [ Copying APP; Copying "locale"; Copying sname;
      safe_substitute SUCCESS_MESSAGE (mapping P);
      safe_substitute SHORTCUT_MESSAGE (mapping P) ] /\
  (forall name, ~ In (Keeping name) (message (snd (main E (initial home_empty))))) /\
  calls (snd (main E (initial home_empty)))
  = [ OpMakedirs [".pywriter"];
      OpMakedirs (main_installDir ++ ["config"]);
      OpRmtree (main_installDir ++ ["locale"]);
      OpCopyfile [APP] (main_installDir ++ [APP]);
      OpCopytree ["locale"] (main_installDir ++ ["locale"]);
      OpChmod (main_installDir ++ [APP]) (Z.lor mode S_IEXEC);
      OpCopyfile ["sample"; sname] (main_installDir ++ ["config"; sname]);
      OpWrite (main_installDir ++ [START_UP_SCRIPT])
        (shebang E ++ START_UP_CODE) ].
Proof.
  destruct fresh_install_run as (tree & H).
  unfold main, run. fold P. rewrite (try_ok _ _ _ _ _ H). cbn [fst snd message calls].
  repeat split.
  intros name Hin.
  repeat (destruct Hin as [Hin|Hin]; [discriminate Hin|]).
  exact Hin.
Qed.

End FreshInstall.

(** C8 as the specification words it does not hold: the trace of a fresh
    install has five lines, none of them for the start-up script -- its
    only copy lines are those of the program file, the locale tree and the
    sample file -- although the script has been written. *)
Lemma trace_has_no_startup_line :
  fst (main host_linux (initial home_empty)) = Ok tt /\
  message (snd (main host_linux (initial home_empty)))
  = [ Copying APP; Copying "locale"; Copying INI_FILE;
      safe_substitute SUCCESS_MESSAGE (mapping (main_pywriterPath host_linux));
      safe_substitute SHORTCUT_MESSAGE (mapping (main_pywriterPath host_linux)) ] /\
  filter (String.prefix "Copying")
    (message (snd (main host_linux (initial home_empty))))
  = [Copying APP; Copying "locale"; Copying INI_FILE] /\
  ~ In (Copying START_UP_SCRIPT)
       (message (snd (main host_linux (initial home_empty)))) /\
  FS.is_file (main_installDir ++ [START_UP_SCRIPT])
    (fs (snd (main host_linux (initial home_empty)))) = true.
Proof.
  vm_compute. repeat split.
  intros H. repeat (destruct H as [H|H]; [discriminate H|]). exact H.
Qed.

(** ** The start-up script (lines 151-157) *)

Lemma prefix_longer (p : FS.path) (x : string) (r : FS.path) :
  FS.prefix (p ++ x :: r) p = false.
Proof. induction p as [|y p IH]; simpl; [reflexivity|]. now rewrite String.eqb_refl. Qed.

Lemma sibling_not_prefix (d : FS.path) (a b : string) :
  String.eqb b a = false -> FS.prefix (d ++ [a]) (d ++ [b]) = false.
Proof.
  intros H. apply (Frame.diverge_not_prefix (d ++ [b]) []).
  rewrite app_nil_r. now apply diverge_siblings.
Qed.

Lemma install_last_step (E : env) (P : loc) (s : state) :
  install E P s = (before_startup_script E P ;; create_startup_script E P) s.
Proof.
  unfold install, before_startup_script, install_steps, bind, isfile.
  destruct (makedirs P s) as [[[]|e] sa]; [|reflexivity].
  destruct (makedirs (cnfDir P) sa) as [[[]|e] sb]; [|reflexivity].
  destruct (delete_old_version P sb) as [[[]|e] s1]; [|reflexivity].
  destruct (install_new_version E P s1) as [[[]|e] s2]; [|reflexivity].
  destruct (install_localization E P s2) as [[[]|e] s3]; [|reflexivity].
  destruct (make_executable E P s3) as [[[]|e] s4]; [|reflexivity].
  destruct (install_configuration E P s4) as [[[]|e] s5]; [|reflexivity].
  destruct (display_success P s5) as [[[]|e] s6]; [|reflexivity].
  now destruct (ask_shortcut P _ s6) as [[[]|e] s7].
Qed.

(** The purge leaves alone what is not a regular file, [locale] apart. *)
Lemma delete_old_version_keeps (P : loc) (x : string) (o : option FS.node) :
  (forall data m, o <> Some (FS.File data m)) ->
  x <> "locale" ->
  preserves (entry_kept (comps (installDir P) ++ [x]) o) (delete_old_version P).
Proof.
  intros Ho Hx. unfold delete_old_version.
  apply preserves_bind; [apply entry_kept_trans| |intros _].
  - intros s. apply entry_kept_same.
    apply (same_rmtree _ (child_sep (installDir P) "locale")).
    apply diverge_siblings. apply String.eqb_neq. congruence.
  - apply preserves_bind; [apply entry_kept_trans| |intros files].
    + intros s. apply entry_kept_same. apply same_scandir.
    + now apply purge_loop_keeps.
Qed.

Section StartupScript.

Variable E : env.
Variable P : loc.

Let I : FS.path := comps (installDir P).
Let script : FS.path := comps (installDir P) ++ [START_UP_SCRIPT].

(** Where the run stands when only the last statement is left: the
    installation directory is there, and [run.pyw] is absent unless a
    directory of that name was in the initial tree, which is still there. *)
Lemma before_startup_script_state s s7 :
  before_startup_script E P s = (Ok tt, s7) ->
  (exists es, FS.lookup I (fs s7) = Some (FS.Dir es)) /\
  (FS.is_dir script (fs s) = false -> FS.lookup script (fs s7) = None) /\
  (forall es, FS.lookup script (fs s) = Some (FS.Dir es) ->
              FS.lookup script (fs s7) = Some (FS.Dir es)).
Proof.
  unfold before_startup_script, script, I. intros H.
  apply bind_ok_inv in H as ([] & sa & Ha & H).
  apply bind_ok_inv in H as (su & sa' & Hsu & H).
  unfold isfile in Hsu. injection Hsu as <- <-.
  apply bind_ok_inv in H as ([] & sb & Hb & H).
  apply bind_ok_inv in H as ([] & s1 & H1 & H).
  apply bind_ok_inv in H as ([] & s2 & H2 & H).
  apply bind_ok_inv in H as ([] & s3 & H3 & H).
  apply bind_ok_inv in H as ([] & s4 & H4 & H).
  apply bind_ok_inv in H as ([] & s5 & H5 & H).
  apply bind_ok_inv in H as ([] & s6 & H6 & H7).
  (* what the later blocks leave alone *)
  assert (Hlate : forall x,
            String.eqb APP x = false -> String.eqb "locale" x = false ->
            String.eqb "config" x = false ->
            FS.lookup (comps (installDir P) ++ [x]) (fs s7) = FS.lookup (comps (installDir P) ++ [x]) (fs s1)).
  { intros x Ea El Ec.
    pose proof (prefix_refl (comps (installDir P) ++ [x])) as Hq.
    rewrite (ask_shortcut_fs _ _ _ _ H7), (output_fs _ _ _ H6).
    rewrite (preserves_run _ _ _ _ _
               (same_install_configuration E P x _ Hq Ec) H5).
    rewrite (preserves_run _ _ _ _ _ (same_make_executable E P x _ Hq Ea) H4).
    rewrite (preserves_run _ _ _ _ _
               (same_install_localization E P x _ Hq El) H3).
    now rewrite (preserves_run _ _ _ _ _
                   (same_install_new_version E P x _ Hq Ea) H2). }
  assert (Hlong : FS.prefix (comps (installDir P) ++ [START_UP_SCRIPT]) (comps P) = false).
  { cbn [installDir child comps]. rewrite <- app_assoc.
    apply prefix_longer. }
  assert (Hearly : FS.lookup (comps (installDir P) ++ [START_UP_SCRIPT]) (fs sb) = FS.lookup (comps (installDir P) ++ [START_UP_SCRIPT]) (fs s)).
  { rewrite (preserves_run _ _ _ _ _
               (same_makedirs (comps (installDir P) ++ [START_UP_SCRIPT]) (cnfDir P)
                  (sibling_not_prefix _ START_UP_SCRIPT "config" eq_refl)) Hb).
    apply (preserves_run _ _ _ _ _
             (same_makedirs (comps (installDir P) ++ [START_UP_SCRIPT]) P Hlong) Ha). }
  split; [|split].
  - destruct (install_localization_ok E P s2 s3 H3) as (es & _ & Hloc).
    pose proof (prefix_refl (comps (installDir P) ++ ["locale"])) as Hq.
    rewrite <- (preserves_run _ _ _ _ _
                  (same_make_executable E P "locale" _ Hq eq_refl) H4) in Hloc.
    rewrite <- (preserves_run _ _ _ _ _
                  (same_install_configuration E P "locale" _ Hq eq_refl) H5) in Hloc.
    rewrite <- (output_fs _ _ _ H6) in Hloc.
    rewrite <- (ask_shortcut_fs _ _ _ _ H7) in Hloc.
    destruct (lookup_snoc_dir _ _ _ _ Hloc) as (es0 & Hd & _). eauto.
  - intros Hnd. rewrite (Hlate START_UP_SCRIPT eq_refl eq_refl eq_refl).
    unfold FS.is_dir in Hnd. rewrite <- Hearly in Hnd.
    destruct (FS.lookup (comps (installDir P) ++ [START_UP_SCRIPT]) (fs sb)) as [[data m|es]|] eqn:Hsb;
      try discriminate.
    + pose proof (delete_removes_file P sb START_UP_SCRIPT data m Hsb eq_refl) as Hd.
      now rewrite H1 in Hd.
    + apply (preserves_run _ _ _ _ _
               (delete_old_version_keeps P START_UP_SCRIPT None
                  ltac:(discriminate) ltac:(discriminate)) H1).
      exact Hsb.
  - intros es Hes.
    rewrite (Hlate START_UP_SCRIPT eq_refl eq_refl eq_refl).
    apply (preserves_run _ _ _ _ _
             (delete_old_version_keeps P START_UP_SCRIPT (Some (FS.Dir es))
                ltac:(discriminate) ltac:(discriminate)) H1).
    now rewrite Hearly.
Qed.

End StartupScript.

(** C5, as the code has it (startup script contract).  A run of [install]
    that gets as far as its last statement writes [run.pyw] anew, in both
    modes and whatever regular file of that name was there before: the run
    returns and the file holds exactly the two bootstrap lines on Windows,
    and the interpreter line followed by them on any other platform.  The
    one exception is a directory called [run.pyw] in the installation
    directory: the purge cannot remove it, the last statement raises on it,
    and it stays. *)
Theorem startup_script_contract (E : env) (P : loc) (s s7 : state) :
  before_startup_script E P s = (Ok tt, s7) ->
  START_UP_CODE = ("import yw_table" ++ nl ++ "yw_table.main()" ++ nl)%string /\
  (FS.is_dir (comps (installDir P) ++ [START_UP_SCRIPT]) (fs s) = false ->
   exists s' m,
     install E P s = (Ok tt, s') /\
     message s' = message s7 /\
     FS.lookup (comps (installDir P) ++ [START_UP_SCRIPT]) (fs s')
     = Some (FS.File
               (if String.eqb (platform_system E) "Windows"
                then START_UP_CODE
                else ("#!/usr/bin/python3" ++ nl ++ START_UP_CODE)%string) m)) /\
  (FS.is_dir (comps (installDir P) ++ [START_UP_SCRIPT]) (fs s) = true ->
   exists e s',
     install E P s = (Raise e, s') /\
     FS.lookup (comps (installDir P) ++ [START_UP_SCRIPT]) (fs s')
     = FS.lookup (comps (installDir P) ++ [START_UP_SCRIPT]) (fs s)).
Proof.
  intros H7. split; [reflexivity|].
  destruct (before_startup_script_state E P s s7 H7) as ((es & HI) & Hnone & Hdir).
  split.
  - intros Hnd. specialize (Hnone Hnd).
    destruct (create_startup_script E P s7) as [r s'] eqn:Hw.
    assert (Hr : r = Ok tt).
    { revert Hw. unfold create_startup_script, write_text, store.
      cbn [comps child_sep fs log]. rewrite Hnone.
      unfold FS.parent, FS.is_dir. rewrite removelast_last, HI.
      now intros [= <- _]. }
    subst r.
    destruct (create_startup_script_ok E P s7 s' Hw) as (Hm & m & Hl).
    exists s', m. rewrite install_last_step, (bind_ok _ _ _ _ _ H7).
    split; [exact Hw|]. split; [exact Hm|].
    rewrite Hl. unfold shebang.
    now destruct (String.eqb (platform_system E) "Windows").
  - intros Hd. unfold FS.is_dir in Hd.
    destruct (FS.lookup (comps (installDir P) ++ [START_UP_SCRIPT]) (fs s))
      as [[data m|esd]|] eqn:Hs; try discriminate.
    specialize (Hdir esd eq_refl).
    exists (IsADirectoryError (text (child_sep (installDir P) START_UP_SCRIPT))),
           (log (OpWrite (comps (installDir P) ++ [START_UP_SCRIPT])
                   (shebang E ++ START_UP_CODE)) s7).
    rewrite install_last_step, (bind_ok _ _ _ _ _ H7).
    unfold create_startup_script, write_text, store.
    cbn [comps child_sep fs log]. rewrite Hdir. split; reflexivity.
Qed.

Lemma startup_script_contract_witness :
  (exists s' m,
     install host_linux (main_pywriterPath host_linux) (initial home_installed)
     = (Ok tt, s') /\
     FS.lookup (main_installDir ++ [START_UP_SCRIPT]) (fs s')
     = Some (FS.File ("#!/usr/bin/python3" ++ nl ++ START_UP_CODE)%string m)) /\
  (exists s' m,
     install host_windows (main_pywriterPath host_windows) (initial home_installed)
     = (Ok tt, s') /\
     FS.lookup (main_installDir ++ [START_UP_SCRIPT]) (fs s')
     = Some (FS.File START_UP_CODE m)).
Proof.
  split.
  - destruct (startup_script_contract host_linux (main_pywriterPath host_linux)
                (initial home_installed)
                (snd (before_startup_script host_linux
                        (main_pywriterPath host_linux) (initial home_installed))))
      as (_ & H & _).
    + vm_compute. reflexivity.
    + destruct (H eq_refl) as (s' & m & H1 & _ & H2). exists s', m. auto.
  - destruct (startup_script_contract host_windows (main_pywriterPath host_windows)
                (initial home_installed)
                (snd (before_startup_script host_windows
                        (main_pywriterPath host_windows) (initial home_installed))))
      as (_ & H & _).
    + vm_compute. reflexivity.
    + destruct (H eq_refl) as (s' & m & H1 & _ & H2). exists s', m. auto.
Defined.

(** C5 as the specification words it does not hold: with a directory
    [run.pyw] in the installation directory the run gets as far as its last
    statement, which raises; nothing is written and the directory is as it
    was. *)
Lemma startup_script_not_written :
  fst (before_startup_script host_linux (main_pywriterPath host_linux)
         (initial home_script_dir)) = Ok tt /\
  fst (install host_linux (main_pywriterPath host_linux) (initial home_script_dir))
  = Raise (IsADirectoryError "/home/u/.pywriter/yw_table/run.pyw") /\
  FS.lookup (main_installDir ++ [START_UP_SCRIPT])
    (fs (snd (main host_linux (initial home_script_dir))))
  = Some (FS.Dir [("notes.txt", FS.File "keep" regular)]).
Proof. vm_compute. repeat split; reflexivity. Qed.

(** * Further properties of the installer *)

(** ** Directory preparation (lines 96 and 103) *)

Module MkdirsFacts.
Import FS.

(** [mkdirs] fails exactly when a regular file is on the way. *)
Lemma mkdirs_none (p : path) (n : node) :
  mkdirs p n = None <-> exists d, prefix d p = true /\ is_file d n = true.
Proof.
  revert n. induction p as [|x p IH]; intros n.
  - destruct n as [data m|es]; simpl; split.
    + intros _. now exists [].
    + reflexivity.
    + discriminate.
    + intros ([|y d] & Hp & Hf); discriminate.
  - destruct n as [data m|es]; simpl.
    + split; [intros _; now exists [] | reflexivity].
    + split.
      * destruct (mkdirs p _) as [c'|] eqn:Hm; [discriminate|]. intros _.
        apply IH in Hm as (d & Hp & Hf).
        destruct (assoc x es) as [c|] eqn:Hc.
        -- exists (x :: d). simpl. rewrite String.eqb_refl, Hp. split; [reflexivity|].
           unfold is_file in *. simpl. now rewrite Hc.
        -- unfold is_file in Hf. destruct d; simpl in Hf; discriminate.
      * intros ([|y d] & Hp & Hf); [discriminate|].
        simpl in Hp. apply andb_prop in Hp as [Hyx Hp].
        apply String.eqb_eq in Hyx; subst y.
        unfold is_file in Hf. simpl in Hf.
        destruct (assoc x es) as [c|]; [|discriminate].
        assert (Hm : mkdirs p c = None).
        { apply IH. exists d. split; [exact Hp|]. exact Hf. }
        now rewrite Hm.
Qed.

(** [mkdirs] removes nothing. *)
Lemma mkdirs_exists (p q : path) (n n' : node) v :
  mkdirs p n = Some n' -> lookup q n = Some v -> exists v', lookup q n' = Some v'.
Proof.
  revert q n n' v. induction p as [|x p IH]; intros q n n' v.
  - destruct n; simpl; [discriminate|]. intros [= <-]. eauto.
  - destruct n as [|es]; simpl; [discriminate|].
    destruct (mkdirs p _) as [c'|] eqn:Hm; [|discriminate].
    intros [= <-]. destruct q as [|y q]; simpl; [eauto|].
    rewrite FSFacts.assoc_put.
    destruct (String.eqb y x) eqn:Eyx; [|eauto].
    apply String.eqb_eq in Eyx; subst y.
    destruct (assoc x es) as [c|]; [|discriminate].
    intros H. exact (IH q _ _ _ Hm H).
Qed.

End MkdirsFacts.

Lemma makedirs_ok_inv (l : loc) (s s' : state) :
  makedirs l s = (Ok tt, s') ->
  FS.mkdirs (comps l) (fs s) = Some (fs s') /\
  message s' = message s /\ calls s' = calls s ++ [OpMakedirs (comps l)].
Proof.
  unfold makedirs. destruct (FS.mkdirs _ _) as [n|]; [|discriminate].
  intros [= <-]. now repeat split.
Qed.

Lemma makedirs_raise_inv (l : loc) (s : state) e s' :
  makedirs l s = (Raise e, s') ->
  FS.mkdirs (comps l) (fs s) = None /\ s' = log (OpMakedirs (comps l)) s.
Proof.
  unfold makedirs. destruct (FS.mkdirs _ _) as [n|]; [discriminate|].
  now intros [= _ <-].
Qed.

(** A call of [os.makedirs] that returns keeps every regular file and
    removes nothing. *)
Lemma makedirs_ok_keeps (l : loc) (s s1 : state) :
  makedirs l s = (Ok tt, s1) ->
  (forall q data m,
     FS.lookup q (fs s1) = Some (FS.File data m) <->
     FS.lookup q (fs s) = Some (FS.File data m)) /\
  (forall q v, FS.lookup q (fs s) = Some v -> FS.exists_at q (fs s1) = true).
Proof.
  intros H. apply makedirs_ok_inv in H as (Hm & _ & _). split.
  - intros q data m. exact (FSFacts.mkdirs_file _ _ _ _ _ _ Hm).
  - intros q v Hq. unfold FS.exists_at.
    destruct (MkdirsFacts.mkdirs_exists _ _ _ _ _ Hm Hq) as (v' & Hv').
    now rewrite Hv'.
Qed.

(** X1 (directory preparation is idempotent and harmless).  When
    [os.makedirs(d, exist_ok=True)] returns, [d] is a directory, no regular
    file has been created, removed or changed, nothing that existed has
    gone, and a second call returns too and leaves the tree as it is. *)
Theorem makedirs_idempotent (l : loc) (s s1 : state) :
  makedirs l s = (Ok tt, s1) ->
  FS.is_dir (comps l) (fs s1) = true /\
  (forall q data m,
     FS.lookup q (fs s1) = Some (FS.File data m) <->
     FS.lookup q (fs s) = Some (FS.File data m)) /\
  (forall q v, FS.lookup q (fs s) = Some v -> FS.exists_at q (fs s1) = true) /\
  exists s2, makedirs l s1 = (Ok tt, s2) /\ fs s2 = fs s1.
Proof.
  intros H. destruct (makedirs_ok_keeps l s s1 H) as (Hfiles & Hex).
  apply makedirs_ok_inv in H as (Hm & _ & _).
  assert (Hd : exists es, FS.lookup (comps l) (fs s1) = Some (FS.Dir es)).
  { rewrite <- (app_nil_r (comps l)) in Hm.
    exact (FSFacts.mkdirs_dir _ _ _ _ Hm). }
  destruct Hd as (es & Hes).
  split; [|split; [exact Hfiles|split; [exact Hex|]]].
  - unfold FS.is_dir. now rewrite Hes.
  - exists (log (OpMakedirs (comps l)) s1). unfold makedirs.
    now rewrite (FSFacts.mkdirs_existing _ _ _ Hes).
Qed.

Lemma makedirs_idempotent_witness :
  exists s2,
    makedirs (cnfDir (main_pywriterPath host_linux))
      (snd (makedirs (cnfDir (main_pywriterPath host_linux)) (initial home_empty)))
    = (Ok tt, s2) /\
    fs s2 = home_prepared.
Proof.
  destruct (makedirs_idempotent (cnfDir (main_pywriterPath host_linux))
              (initial home_empty)
              (snd (makedirs (cnfDir (main_pywriterPath host_linux))
                      (initial home_empty))))
    as (_ & _ & _ & s2 & H & Hfs).
  - vm_compute. reflexivity.
  - exists s2. split; [exact H|]. rewrite Hfs. vm_compute. reflexivity.
Defined.

(** X2 (when directory preparation fails).  [os.makedirs(d, exist_ok=True)]
    raises exactly when a regular file sits on the way to [d] (at [d]
    itself or at one of the directories above it), and then the tree is as
    it was. *)
Theorem makedirs_fails_on_file (l : loc) (s : state) :
  ((exists e, fst (makedirs l s) = Raise e) <->
   (exists q, FS.prefix q (comps l) = true /\ FS.is_file q (fs s) = true)) /\
  (forall e s', makedirs l s = (Raise e, s') -> fs s' = fs s).
Proof.
  split.
  - rewrite <- MkdirsFacts.mkdirs_none. unfold makedirs.
    destruct (FS.mkdirs (comps l) (fs s)) as [n|]; simpl; split.
    + intros (e & He). discriminate.
    + discriminate.
    + reflexivity.
    + eauto.
  - intros e s' H. apply makedirs_raise_inv in H as (_ & ->). reflexivity.
Qed.

(** X3 (a file in the way stops [install] before it deletes anything).
    When a regular file sits at the configuration directory's path or at a
    directory above it, [install] raises during directory preparation: the
    only calls it has made are [os.makedirs], the trace is untouched, every
    regular file is as it was and nothing that existed has gone; the call
    site then reports the one error line. *)
Theorem blocked_preparation (E : env) (P : loc) (s : state) (q : FS.path) :
  FS.prefix q (comps (cnfDir P)) = true ->
  FS.is_file q (fs s) = true ->
  exists e s',
    install E P s = (Raise e, s') /\
    run E P s = (Ok tt, add_message (str e) s') /\
    message s' = message s /\
    (calls s' = calls s ++ [OpMakedirs (comps P)] \/
     calls s' = calls s ++ [OpMakedirs (comps P); OpMakedirs (comps (cnfDir P))]) /\
    (forall p data m,
       FS.lookup p (fs s') = Some (FS.File data m) <->
       FS.lookup p (fs s) = Some (FS.File data m)) /\
    (forall p v, FS.lookup p (fs s) = Some v -> FS.exists_at p (fs s') = true).
Proof.
  intros Hq Hf.
  assert (Hrun : forall e s', install E P s = (Raise e, s') ->
                   run E P s = (Ok tt, add_message (str e) s')).
  { intros e s' H. unfold run. now rewrite (try_raise _ _ _ _ _ H). }
  destruct (makedirs P s) as [[[]|e] sa] eqn:Ha.
  - assert (Hfa : FS.is_file q (fs sa) = true)
      by now rewrite (makedirs_is_file _ _ _ _ q Ha).
    destruct (makedirs (cnfDir P) sa) as [[[]|e] sb] eqn:Hb.
    + apply makedirs_ok_inv in Hb as (Hb & _).
      assert (Hn : FS.mkdirs (comps (cnfDir P)) (fs sa) = None)
        by (apply MkdirsFacts.mkdirs_none; eauto).
      congruence.
    + assert (Hi : install E P s = (Raise e, sb)).
      { unfold install. rewrite (bind_ok _ _ _ _ _ Ha).
        unfold bind at 1, isfile. now rewrite (bind_raise _ _ _ _ _ Hb). }
      destruct (makedirs_ok_keeps P s sa Ha) as (Hfiles & Hex).
      apply makedirs_ok_inv in Ha as (_ & Hma & Hca).
      apply makedirs_raise_inv in Hb as (_ & ->).
      exists e, (log (OpMakedirs (comps (cnfDir P))) sa).
      split; [exact Hi|]. split; [now apply Hrun|]. cbn [message calls fs log].
      split; [exact Hma|]. split; [right; now rewrite Hca, <- app_assoc|].
      split; [exact Hfiles | exact Hex].
  - assert (Hi : install E P s = (Raise e, sa)).
    { unfold install. now rewrite (bind_raise _ _ _ _ _ Ha). }
    apply makedirs_raise_inv in Ha as (_ & ->).
    exists e, (log (OpMakedirs (comps P)) s).
    split; [exact Hi|]. split; [now apply Hrun|]. cbn [message calls fs log].
    split; [reflexivity|]. split; [now left|].
    split; [reflexivity|]. intros p v Hp. unfold FS.exists_at. now rewrite Hp.
Qed.

Lemma blocked_preparation_witness :
  exists e s',
    install host_linux (main_pywriterPath host_linux) (initial home_blocked)
    = (Raise e, s') /\
    fs s' = home_blocked /\
    message (snd (main host_linux (initial home_blocked))) = [str e].
Proof.
  destruct (blocked_preparation host_linux (main_pywriterPath host_linux)
              (initial home_blocked) main_installDir eq_refl eq_refl)
    as (e & s' & Hi & Hr & _).
  exists e, s'. split; [exact Hi|]. split.
  - revert Hi. vm_compute. now intros [= _ <-].
  - unfold main. rewrite Hr. revert Hi. vm_compute. now intros [= _ <-].
Defined.

(** ** What [install] leaves alone *)

Lemma diverge_app (p r q : FS.path) :
  FS.diverge p q = true -> FS.diverge (p ++ r) q = true.
Proof.
  revert q. induction p as [|x p IH]; intros q; simpl; [discriminate|].
  destruct q as [|y q]; [discriminate|].
  destruct (String.eqb x y); [apply IH | reflexivity].
Qed.

Lemma diverge_not_prefix_of (p q : FS.path) :
  FS.diverge p q = true -> FS.prefix q p = false.
Proof.
  intros H. apply (Frame.diverge_not_prefix p []). now rewrite app_nil_r.
Qed.

Section Outside.

Variable E : env.
Variable P : loc.
Variable q : FS.path.

Hypothesis Hq : FS.diverge (comps (installDir P)) q = true.

Lemma outside_entry x : FS.diverge (comps (child_sep (installDir P) x)) q = true.
Proof. cbn [comps child_sep]. now apply diverge_app. Qed.

Lemma outside_config_entry x : FS.diverge (comps (child (cnfDir P) x)) q = true.
Proof. cbn [comps child cnfDir]. now apply diverge_app, diverge_app. Qed.

Lemma outside_delete_old_version : preserves (same_at q) (delete_old_version P).
Proof.
  unfold delete_old_version.
  apply preserves_bind; [apply same_at_trans| |intros _].
  { apply same_rmtree, outside_entry. }
  apply preserves_bind; [apply same_at_trans|apply same_scandir|intros files].
  apply preserves_for_each; [apply same_at_refl|apply same_at_trans|].
  intros name. unfold purge_entry.
  destruct (negb (contains "config" name)); [|apply preserves_ret, same_at_refl].
  apply preserves_try; [apply same_at_trans| |intros _; apply preserves_ret, same_at_refl].
  apply preserves_bind; [apply same_at_trans| |intros _; apply same_output].
  apply same_remove, outside_entry.
Qed.

Lemma outside_install_steps b : preserves (same_at q) (install_steps E P b).
Proof.
  unfold install_steps.
  apply preserves_bind;
    [apply same_at_trans | apply outside_delete_old_version | intros _].
  apply preserves_bind; [apply same_at_trans| |intros _].
  { unfold install_new_version.
    apply preserves_bind; [apply same_at_trans| |intros _; apply same_output].
    apply same_copyfile, outside_entry. }
  apply preserves_bind; [apply same_at_trans| |intros _].
  { unfold install_localization.
    apply preserves_bind; [apply same_at_trans| |intros _; apply same_output].
    apply same_copytree, outside_entry. }
  apply preserves_bind; [apply same_at_trans| |intros _].
  { unfold make_executable.
    apply preserves_try; [apply same_at_trans| |intros _; apply preserves_ret, same_at_refl].
    apply preserves_bind; [apply same_at_trans|apply same_stat_mode|intros st].
    apply same_chmod, outside_entry. }
  apply preserves_bind; [apply same_at_trans| |intros _].
  { unfold install_configuration.
    apply preserves_try; [apply same_at_trans| |intros _; apply preserves_ret, same_at_refl].
    apply preserves_bind; [apply same_at_trans|apply same_scandir_cwd|intros files].
    apply preserves_for_each; [apply same_at_refl|apply same_at_trans|].
    intros name. unfold seed_entry.
    apply preserves_bind; [apply same_at_trans|apply same_isfile|intros present].
    destruct (negb present); [|apply same_output].
    apply preserves_bind; [apply same_at_trans| |intros _; apply same_output].
    apply same_copyfile, outside_config_entry. }
  apply preserves_bind; [apply same_at_trans|apply same_output|intros _].
  apply preserves_bind; [apply same_at_trans|apply same_ask_shortcut|intros _].
  unfold create_startup_script. apply same_write_text, outside_entry.
Qed.

Lemma outside_run : preserves (same_at q) (run E P).
Proof.
  unfold run.
  apply preserves_try; [apply same_at_trans| |intros e; apply same_output].
  unfold install.
  apply preserves_bind; [apply same_at_trans| |intros _].
  { apply same_makedirs.
    exact (Frame.diverge_not_prefix (comps P) [APPNAME] q Hq). }
  apply preserves_bind; [apply same_at_trans|apply same_isfile|intros b].
  apply preserves_bind; [apply same_at_trans| |intros _].
  { apply same_makedirs, diverge_not_prefix_of.
    cbn [comps cnfDir]. now apply diverge_app. }
  apply outside_install_steps.
Qed.

End Outside.

(** X4 (the run stays inside the installation directory).  Whatever lies
    beside the installation directory -- another tool next to it in the
    PyWriter directory, anything else in the home directory -- is the same
    after the run as before, whether [install] returns or raises. *)
Theorem install_stays_inside (E : env) (P : loc) (s : state) (q : FS.path) :
  FS.diverge (comps (installDir P)) q = true ->
  FS.lookup q (fs (snd (run E P s))) = FS.lookup q (fs s).
Proof. intros Hq. exact (outside_run E P q Hq s). Qed.

Lemma install_stays_inside_witness :
  FS.lookup [".pywriter"; "other_tool"]
    (fs (snd (main host_linux (initial home_shared))))
  = Some (FS.Dir [("a.py", FS.File "a" regular)]).
Proof.
  exact (install_stays_inside host_linux (main_pywriterPath host_linux)
           (initial home_shared) [".pywriter"; "other_tool"] eq_refl).
Defined.

Lemma contains_differ (x name : string) :
  contains "config" name = true -> contains "config" x = false ->
  String.eqb x name = false.
Proof.
  intros Hn Hx. apply String.eqb_neq. intros ->. congruence.
Qed.

(** The purge does not touch an entry whose name contains "config". *)
Lemma delete_old_version_skips (P : loc) (name : string) :
  contains "config" name = true ->
  preserves (same_at (comps (installDir P) ++ [name])) (delete_old_version P).
Proof.
  intros Hn. unfold delete_old_version.
  apply preserves_bind; [apply same_at_trans| |intros _].
  { apply (same_rmtree _ (child_sep (installDir P) "locale")).
    apply diverge_siblings. now apply contains_differ. }
  apply preserves_bind; [apply same_at_trans|apply same_scandir|intros files].
  apply preserves_for_each; [apply same_at_refl|apply same_at_trans|].
  intros n. destruct (String.eqb n name) eqn:Hnn.
  - apply String.eqb_eq in Hnn; subst n. unfold purge_entry. rewrite Hn.
    apply preserves_ret, same_at_refl.
  - now apply purge_entry_same.
Qed.

(** X5 (the "config" test is a substring test).  A direct entry of the
    installation directory whose name contains "config", other than the
    configuration directory itself, is never touched by the run: a stale
    file such as [old_config.bak] is neither removed nor changed, whether
    [install] returns or raises. *)
Theorem config_named_entries_untouched (E : env) (P : loc) (s : state)
    (name : string) :
  contains "config" name = true ->
  name <> "config" ->
  FS.lookup (comps (installDir P) ++ [name]) (fs (snd (run E P s)))
  = FS.lookup (comps (installDir P) ++ [name]) (fs s).
Proof.
  intros Hn Hne.
  pose proof (prefix_refl (comps (installDir P) ++ [name])) as Hq.
  assert (Ea : String.eqb APP name = false) by now apply contains_differ.
  assert (El : String.eqb "locale" name = false) by now apply contains_differ.
  assert (Er : String.eqb START_UP_SCRIPT name = false) by now apply contains_differ.
  assert (Ec : String.eqb "config" name = false)
    by (apply String.eqb_neq; congruence).
  revert s. change (preserves (same_at (comps (installDir P) ++ [name])) (run E P)).
  unfold run.
  apply preserves_try; [apply same_at_trans| |intros e; apply same_output].
  unfold install.
  apply preserves_bind; [apply same_at_trans| |intros _].
  { apply same_makedirs. cbn [installDir child comps]. rewrite <- app_assoc.
    apply prefix_longer. }
  apply preserves_bind; [apply same_at_trans|apply same_isfile|intros b].
  apply preserves_bind; [apply same_at_trans| |intros _].
  { apply same_makedirs. now apply sibling_not_prefix. }
  unfold install_steps.
  apply preserves_bind;
    [apply same_at_trans | now apply delete_old_version_skips | intros _].
  apply preserves_bind;
    [apply same_at_trans | now apply (same_install_new_version E P name) | intros _].
  apply preserves_bind;
    [apply same_at_trans | now apply (same_install_localization E P name) | intros _].
  apply preserves_bind;
    [apply same_at_trans | now apply (same_make_executable E P name) | intros _].
  apply preserves_bind;
    [apply same_at_trans | now apply (same_install_configuration E P name) | intros _].
  apply preserves_bind; [apply same_at_trans|apply same_output|intros _].
  apply preserves_bind; [apply same_at_trans|apply same_ask_shortcut|intros _].
  now apply (same_create_startup_script E P name).
Qed.

Lemma config_named_entries_untouched_witness :
  FS.lookup (main_installDir ++ ["old_config.bak"])
    (fs (snd (main host_linux (initial home_shared))))
  = Some (FS.File "[OLD]" regular).
Proof.
  apply (config_named_entries_untouched host_linux (main_pywriterPath host_linux)
           (initial home_shared) "old_config.bak"); [reflexivity | discriminate].
Defined.

(** ** What the purge leaves of the installation directory *)

Module AssocFacts.
Import FS.

Lemma assoc_app_notin {A : Type} (x : string) (k l : list (string * A)) :
  ~ In x (map fst k) -> assoc x (k ++ l) = assoc x l.
Proof.
  induction k as [|[y v] k IH]; simpl; [reflexivity|]. intros H.
  destruct (String.eqb x y) eqn:Hxy.
  - apply String.eqb_eq in Hxy. subst y. exfalso. apply H. now left.
  - apply IH. intros Hin. apply H. now right.
Qed.

Lemma drop_notin {A : Type} (x : string) (l : list (string * A)) :
  ~ In x (map fst l) -> drop x l = l.
Proof.
  induction l as [|[y v] l IH]; simpl; [reflexivity|]. intros H.
  destruct (String.eqb x y) eqn:Hxy.
  - apply String.eqb_eq in Hxy. subst y. exfalso. apply H. now left.
  - f_equal. apply IH. intros Hin. apply H. now right.
Qed.

Lemma drop_app {A : Type} (x : string) (k l : list (string * A)) :
  drop x (k ++ l) = drop x k ++ drop x l.
Proof.
  induction k as [|[y v] k IH]; simpl; [reflexivity|].
  destruct (String.eqb x y); [exact IH | simpl; now rewrite IH].
Qed.

Lemma nodup_middle {A : Type} (k l : list (string * A)) x v :
  NoDup (map fst (k ++ (x, v) :: l)) ->
  ~ In x (map fst k) /\ ~ In x (map fst l).
Proof.
  rewrite map_app. simpl. intros H. apply NoDup_remove_2 in H.
  split; intros Hin; apply H, in_or_app; auto.
Qed.

(** Dropping the one entry called [x] from the middle of a directory. *)
Lemma drop_middle {A : Type} (k l : list (string * A)) x v :
  NoDup (map fst (k ++ (x, v) :: l)) -> drop x (k ++ (x, v) :: l) = k ++ l.
Proof.
  intros H. destruct (nodup_middle _ _ _ _ H) as [Hk Hl].
  rewrite drop_app. simpl. rewrite String.eqb_refl.
  now rewrite (drop_notin x k Hk), (drop_notin x l Hl).
Qed.

Lemma assoc_middle {A : Type} (k l : list (string * A)) x v :
  NoDup (map fst (k ++ (x, v) :: l)) -> assoc x (k ++ (x, v) :: l) = Some v.
Proof.
  intros H. destruct (nodup_middle _ _ _ _ H) as [Hk _].
  rewrite (assoc_app_notin x k _ Hk). simpl. now rewrite String.eqb_refl.
Qed.

Lemma nodup_drop_middle {A : Type} (k l : list (string * A)) x v :
  NoDup (map fst (k ++ (x, v) :: l)) -> NoDup (map fst (k ++ l)).
Proof.
  rewrite !map_app. simpl. apply NoDup_remove_1.
Qed.

End AssocFacts.

Section PurgeResult.

Variable P : loc.

Let I : FS.path := comps (installDir P).

(** A turn of the loop on a regular file whose name does not contain
    "config": the file goes and the trace says so. *)
Lemma purge_entry_removes name s es data m :
  FS.lookup I (fs s) = Some (FS.Dir es) ->
  FS.assoc name es = Some (FS.File data m) ->
  not_config name = true ->
  exists s',
    purge_entry P name s = (Ok tt, s') /\
    FS.lookup I (fs s') = Some (FS.Dir (FS.drop name es)) /\
    message s' = message s ++ [Removing name].
Proof.
  intros HI Ha Hn. unfold purge_entry. unfold not_config in Hn. rewrite Hn.
  assert (Hl : FS.lookup (I ++ [name]) (fs s) = Some (FS.File data m))
    by now rewrite FSFacts.lookup_snoc, HI.
  unfold try_except, bind, remove, output. cbn [comps child_sep fs log].
  fold I. rewrite Hl.
  eexists. split; [reflexivity|]. cbn [fs message set_fs log].
  split; [|reflexivity].
  now rewrite (FSFacts.update_snoc I name _ _ es HI).
Qed.

(** Any other turn leaves the tree and the trace as they are. *)
Lemma purge_entry_leaves name s es v :
  FS.lookup I (fs s) = Some (FS.Dir es) ->
  FS.assoc name es = Some v ->
  removed_by_loop (name, v) = false ->
  exists s',
    purge_entry P name s = (Ok tt, s') /\ fs s' = fs s /\ message s' = message s.
Proof.
  intros HI Ha Hr. unfold purge_entry. unfold removed_by_loop, not_config in Hr.
  cbn [fst snd] in Hr.
  destruct (contains "config" name); cbn [negb andb] in *.
  - exists s. now repeat split.
  - assert (Hl : FS.lookup (I ++ [name]) (fs s) = Some v)
      by now rewrite FSFacts.lookup_snoc, HI.
    unfold try_except, bind, remove, output. cbn [comps child_sep fs log].
    fold I. rewrite Hl.
    destruct v as [data m|esd]; [discriminate|].
    eexists. split; [reflexivity|]. now split.
Qed.

(** The loop over the entries still to visit, with the survivors so far
    in front of them. *)
Lemma purge_loop_entries todo : forall kept s,
  FS.lookup I (fs s) = Some (FS.Dir (kept ++ todo)) ->
  NoDup (map fst (kept ++ todo)) ->
  exists s',
    for_each (map fst todo) (purge_entry P) s = (Ok tt, s') /\
    FS.lookup I (fs s')
    = Some (FS.Dir (kept ++ filter (fun e => negb (removed_by_loop e)) todo)) /\
    message s' = message s ++ map Removing (map fst (filter removed_by_loop todo)).
Proof.
  induction todo as [|[n v] todo IH]; intros kept s HI Hnd.
  - exists s. simpl. rewrite !app_nil_r in *. now repeat split.
  - pose proof (AssocFacts.assoc_middle _ _ _ _ Hnd) as Ha.
    cbn [map fst for_each filter].
    destruct (removed_by_loop (n, v)) eqn:Hr; cbn [negb].
    + assert (Hf : exists data m, v = FS.File data m /\ not_config n = true).
      { unfold removed_by_loop in Hr. cbn [fst snd] in Hr.
        apply andb_prop in Hr as [Hn Hv]. destruct v; [eauto | discriminate]. }
      destruct Hf as (data & m & -> & Hn).
      destruct (purge_entry_removes n s _ data m HI Ha Hn) as (s1 & H1 & HI1 & Hm1).
      rewrite (AssocFacts.drop_middle _ _ _ _ Hnd) in HI1.
      destruct (IH kept s1 HI1 (AssocFacts.nodup_drop_middle _ _ _ _ Hnd))
        as (s' & Hs' & HI' & Hm').
      exists s'. rewrite (bind_ok _ _ _ _ _ H1).
      split; [exact Hs'|]. split; [exact HI'|].
      rewrite Hm', Hm1, <- app_assoc. reflexivity.
    + destruct (purge_entry_leaves n s _ v HI Ha Hr) as (s1 & H1 & Hfs1 & Hm1).
      assert (HI1 : FS.lookup I (fs s1) = Some (FS.Dir ((kept ++ [(n, v)]) ++ todo)))
        by now rewrite Hfs1, <- app_assoc.
      assert (Hnd1 : NoDup (map fst ((kept ++ [(n, v)]) ++ todo)))
        by now rewrite <- app_assoc.
      destruct (IH (kept ++ [(n, v)]) s1 HI1 Hnd1) as (s' & Hs' & HI' & Hm').
      exists s'. rewrite (bind_ok _ _ _ _ _ H1).
      split; [exact Hs'|]. split.
      * now rewrite HI', <- app_assoc.
      * now rewrite Hm', Hm1.
Qed.

End PurgeResult.

Lemma assoc_split {A : Type} (x : string) (es : list (string * A)) v :
  FS.assoc x es = Some v -> exists k l, es = k ++ (x, v) :: l.
Proof.
  induction es as [|[y w] es IH]; simpl; [discriminate|].
  destruct (String.eqb x y) eqn:Hxy.
  - apply String.eqb_eq in Hxy. subst y. intros [= ->]. now exists [], es.
  - intros H. destruct (IH H) as (k & l & ->). now exists ((y, w) :: k), l.
Qed.

Lemma in_assoc {A : Type} (x : string) (es : list (string * A)) v :
  NoDup (map fst es) -> In (x, v) es -> FS.assoc x es = Some v.
Proof.
  intros Hnd Hin. apply in_split in Hin as (k & l & ->).
  now apply AssocFacts.assoc_middle.
Qed.

Lemma survives_eq (e : string * FS.node) :
  (forall d, e <> ("locale", FS.Dir d)) ->
  survives_purge e = negb (removed_by_loop e).
Proof.
  destruct e as [n [data m|d]]; unfold survives_purge, removed_by_loop, not_config;
    cbn [fst snd is_regular]; intros H.
  - now rewrite andb_true_r, negb_involutive.
  - rewrite andb_false_r. cbn [negb].
    destruct (String.eqb n "locale") eqn:Hn; [|reflexivity].
    apply String.eqb_eq in Hn. subst n. now destruct (H d).
Qed.

(** X6 (what the purge leaves and what it reports).  In an installation
    directory whose entries have distinct names the purge returns normally;
    afterwards the directory holds, in their old order, exactly the
    entries that are regular files with "config" in their name or
    directories other than [locale]; and the trace has gained one
    "Removing" line for each regular file whose name does not contain
    "config", in listing order -- none for the [locale] directory and none
    for an entry that could not be removed. *)
Theorem purge_result (P : loc) (s : state) (es : list (string * FS.node)) :
  FS.lookup (comps (installDir P)) (fs s) = Some (FS.Dir es) ->
  NoDup (map fst es) ->
  exists s',
    delete_old_version P s = (Ok tt, s') /\
    FS.lookup (comps (installDir P)) (fs s')
    = Some (FS.Dir (filter survives_purge es)) /\
    message s' = message s ++ map Removing (map fst (filter removed_by_loop es)).
Proof.
  intros HI Hnd.
  set (s1 := snd (rmtree_ignore_errors (child_sep (installDir P) "locale") s)).
  assert (Hm1 : message s1 = message s).
  { unfold s1, rmtree_ignore_errors. now destruct (FS.is_dir _ _). }
  destruct (FS.is_dir (comps (installDir P) ++ ["locale"]) (fs s)) eqn:Hd.
  - (* [locale] is a directory: [rmtree] takes it away *)
    assert (Ha : exists d, FS.assoc "locale" es = Some (FS.Dir d)).
    { unfold FS.is_dir in Hd. rewrite FSFacts.lookup_snoc, HI in Hd.
      destruct (FS.assoc "locale" es) as [[|d]|]; try discriminate. eauto. }
    destruct Ha as (d & Ha).
    destruct (assoc_split _ _ _ Ha) as (k & l & ->).
    destruct (AssocFacts.nodup_middle _ _ _ _ Hnd) as [Hk Hl].
    assert (HI1 : FS.lookup (comps (installDir P)) (fs s1)
                  = Some (FS.Dir ([] ++ (k ++ l)))).
    { unfold s1, rmtree_ignore_errors. cbn [comps child_sep]. rewrite Hd.
      cbn [snd fs set_fs].
      rewrite (FSFacts.update_snoc _ "locale" _ _ _ HI). cbn [FS.set_entry].
      now rewrite (AssocFacts.drop_middle _ _ _ _ Hnd). }
    destruct (purge_loop_entries P (k ++ l) [] s1 HI1
                (AssocFacts.nodup_drop_middle _ _ _ _ Hnd))
      as (s' & Hs' & HI' & Hm').
    exists s'. rewrite (delete_old_version_loop P s (k ++ l) HI1).
    split; [exact Hs'|]. split.
    + rewrite HI'. cbn [app]. do 2 f_equal.
      rewrite !filter_app. cbn [filter survives_purge is_regular fst snd].
      rewrite String.eqb_refl. cbn [negb].
      f_equal; apply filter_ext_in; intros [n v] Hin; symmetry;
        apply survives_eq; intros d' [= -> _].
      * apply Hk. apply (in_map fst) in Hin. exact Hin.
      * apply Hl. apply (in_map fst) in Hin. exact Hin.
    + rewrite Hm', Hm1. rewrite !filter_app. reflexivity.
  - (* no [locale] directory: [rmtree] does nothing *)
    assert (Hfs1 : fs s1 = fs s).
    { unfold s1, rmtree_ignore_errors. cbn [comps child_sep]. now rewrite Hd. }
    assert (HI1 : FS.lookup (comps (installDir P)) (fs s1) = Some (FS.Dir ([] ++ es)))
      by now rewrite Hfs1.
    destruct (purge_loop_entries P es [] s1 HI1 Hnd) as (s' & Hs' & HI' & Hm').
    exists s'. rewrite (delete_old_version_loop P s es HI1).
    split; [exact Hs'|]. split.
    + rewrite HI'. cbn [app]. do 2 f_equal.
      apply filter_ext_in. intros [n v] Hin. symmetry.
      apply survives_eq. intros d' [= -> ->].
      unfold FS.is_dir in Hd. rewrite FSFacts.lookup_snoc, HI in Hd.
      now rewrite (in_assoc _ _ _ Hnd Hin) in Hd.
    + now rewrite Hm', Hm1.
Qed.

Lemma purge_result_witness :
  exists s',
    delete_old_version (main_pywriterPath host_linux) (initial home_shared)
    = (Ok tt, s') /\
    FS.lookup main_installDir (fs s')
    = Some (FS.Dir [ ("old_config.bak", FS.File "[OLD]" regular);
                     ("configurator.py", FS.File "stale" regular);
                     ("config", FS.Dir [(INI_FILE, FS.File "[MINE]" regular)]);
                     ("helpers", FS.Dir []) ]) /\
    message s' = [Removing APP; Removing "locale"].
Proof.
  destruct (purge_result (main_pywriterPath host_linux) (initial home_shared)
              [ (APP, FS.File "old program" regular);
                ("old_config.bak", FS.File "[OLD]" regular);
                ("configurator.py", FS.File "stale" regular);
                ("config", FS.Dir [(INI_FILE, FS.File "[MINE]" regular)]);
                ("locale", FS.File "not a directory" regular);
                ("helpers", FS.Dir []) ])
    as (s' & H & HI & Hm).
  - reflexivity.
  - repeat constructor; simpl; intuition discriminate.
  - exists s'. split; [exact H|]. split; [exact HI | exact Hm].
Defined.

(** ** The installed program file (lines 116-129) *)

Section ProgramFile.

Variable E : env.
Variable P : loc.

(** A program copy that succeeds after the purge finds no entry under the
    program's name: a regular file has been removed, and a directory would
    have made the copy raise. *)
Lemma program_absent_after_purge sb s1 s2 :
  delete_old_version P sb = (Ok tt, s1) ->
  install_new_version E P s1 = (Ok tt, s2) ->
  FS.lookup (comps (installDir P) ++ [APP]) (fs s1) = None.
Proof.
  intros H1 H2.
  destruct (FS.lookup (comps (installDir P) ++ [APP]) (fs sb))
    as [[data m|d]|] eqn:Hb.
  - pose proof (delete_removes_file P sb APP data m Hb eq_refl) as Hd.
    now rewrite H1 in Hd.
  - exfalso.
    pose proof (preserves_run _ _ _ _ _
                  (delete_old_version_keeps P APP (Some (FS.Dir d))
                     ltac:(discriminate) ltac:(discriminate)) H1 Hb) as Hd.
    revert H2. unfold install_new_version, bind, copyfile, store.
    cbn [comps child_sep fs log]. rewrite Hd.
    now destruct (FS.lookup [APP] (cwd E)) as [[? ?|?]|].
  - exact (preserves_run _ _ _ _ _
             (delete_old_version_keeps P APP None
                ltac:(discriminate) ltac:(discriminate)) H1 Hb).
Qed.

Lemma install_new_version_fresh s1 s2 :
  install_new_version E P s1 = (Ok tt, s2) ->
  FS.lookup (comps (installDir P) ++ [APP]) (fs s1) = None ->
  exists data m0,
    FS.lookup [APP] (cwd E) = Some (FS.File data m0) /\
    FS.lookup (comps (installDir P) ++ [APP]) (fs s2)
    = Some (FS.File data (new_file_mode E)).
Proof.
  unfold install_new_version, bind, copyfile, store, output.
  cbn [comps child_sep fs log]. intros H Hn. rewrite Hn in H.
  destruct (FS.lookup [APP] (cwd E)) as [[data m0|?]|]; try discriminate.
  unfold FS.parent, FS.is_dir in H. rewrite removelast_last in H.
  destruct (FS.lookup (comps (installDir P)) (fs s1)) as [[|es]|] eqn:HI;
    try discriminate.
  injection H as <-. exists data, m0. split; [reflexivity|]. cbn [fs set_fs].
  now rewrite (FSFacts.lookup_update_snoc _ APP _ _ es HI).
Qed.

End ProgramFile.

(** X7 (the executable bit).  After a run of [install] that returns, the
    installed program file is a newly created file holding the bundle's
    content; neither the mode of the bundle's file nor the mode of a
    program file installed earlier plays a part.  On a host other than
    Windows its mode is the mode of a new file with the owner-execute bit
    added.  On Windows, where [os.chmod] can only change the read-only
    flag, the call does not make the file executable: its mode is that of
    a new file in every bit but the write bits. *)
Theorem executable_bit (E : env) (P : loc) (s s' : state) :
  install E P s = (Ok tt, s') ->
  exists data m0 m,
    FS.lookup [APP] (cwd E) = Some (FS.File data m0) /\
    FS.lookup (comps (installDir P) ++ [APP]) (fs s') = Some (FS.File data m) /\
    (String.eqb (platform_system E) "Windows" = false ->
     m = Z.lor (new_file_mode E) S_IEXEC) /\
    (String.eqb (platform_system E) "Windows" = true ->
     forall i, Z.testbit WRITE_BITS i = false ->
               Z.testbit m i = Z.testbit (new_file_mode E) i).
Proof.
  intros H.
  apply install_ok_inv in H as (sa & sb & Ha & Hb & H).
  apply install_steps_ok_inv in H
    as (s1 & s2 & s3 & s4 & s5 & s6 & s7 & H1 & H2 & H3 & H4 & H5 & H6 & H7 & H8).
  pose proof (program_absent_after_purge E P sb s1 s2 H1 H2) as Hn.
  destruct (install_new_version_fresh E P s1 s2 H2 Hn) as (data & m0 & Hsrc & Hdst).
  exists data, m0,
    (chmod_mode E (new_file_mode E) (Z.lor (new_file_mode E) S_IEXEC)).
  split; [exact Hsrc|]. split; [|split].
  - pose proof (prefix_refl (comps (installDir P) ++ [APP])) as Hq.
    rewrite <- (preserves_run _ _ _ _ _
                  (same_install_localization E P APP _ Hq eq_refl) H3) in Hdst.
    apply (make_executable_content E) in Hdst. rewrite H4 in Hdst. cbn [snd] in Hdst.
    rewrite <- (preserves_run _ _ _ _ _
                  (same_install_configuration E P APP _ Hq eq_refl) H5) in Hdst.
    rewrite <- (output_fs _ _ _ H6) in Hdst.
    rewrite <- (ask_shortcut_fs _ _ _ _ H7) in Hdst.
    rewrite <- (preserves_run _ _ _ _ _
                  (same_create_startup_script E P APP _ Hq eq_refl) H8) in Hdst.
    exact Hdst.
  - intros Hw. unfold chmod_mode. now rewrite Hw.
  - intros Hw i Hi. unfold chmod_mode. rewrite Hw.
    destruct (Z.eqb _ 0).
    + rewrite Z.ldiff_spec, Hi. apply andb_true_r.
    + rewrite Z.lor_spec, Hi. apply orb_false_r.
Qed.

Lemma executable_bit_witness :
  FS.lookup (main_installDir ++ [APP])
    (fs (snd (install host_linux (main_pywriterPath host_linux)
                (initial home_installed))))
  = Some (FS.File "import tkinter" 33252).
Proof.
  destruct (executable_bit host_linux (main_pywriterPath host_linux)
              (initial home_installed)
              (snd (install host_linux (main_pywriterPath host_linux)
                      (initial home_installed))))
    as (data & m0 & m & Hsrc & Hdst & Hposix & _).
  - vm_compute. reflexivity.
  - injection Hsrc as <- _. rewrite (Hposix eq_refl) in Hdst. exact Hdst.
Defined.

(** ** The trace only grows, and by known lines *)

Section Trace.

Variable ok : string -> Prop.

Lemma grows_by_refl s : grows_by ok s s.
Proof. exists []. now rewrite app_nil_r. Qed.

Lemma grows_by_trans s1 s2 s3 :
  grows_by ok s1 s2 -> grows_by ok s2 s3 -> grows_by ok s1 s3.
Proof.
  intros (l1 & H1 & F1) (l2 & H2 & F2). exists (l1 ++ l2).
  split; [now rewrite H2, H1, app_assoc | now apply Forall_app].
Qed.

Lemma grows_by_same s s' : message s' = message s -> grows_by ok s s'.
Proof. intros H. exists []. now rewrite app_nil_r. Qed.

Lemma grows_output t : ok t -> preserves (grows_by ok) (output t).
Proof. intros Ht s. exists [t]. split; [reflexivity | now constructor]. Qed.

Lemma grows_makedirs l : preserves (grows_by ok) (makedirs l).
Proof.
  intros s. apply grows_by_same. unfold makedirs.
  now destruct (FS.mkdirs _ _).
Qed.

Lemma grows_isfile l : preserves (grows_by ok) (isfile l).
Proof. intros s. now apply grows_by_same. Qed.

Lemma grows_rmtree l : preserves (grows_by ok) (rmtree_ignore_errors l).
Proof.
  intros s. apply grows_by_same. unfold rmtree_ignore_errors.
  now destruct (FS.is_dir _ _).
Qed.

Lemma grows_scandir l : preserves (grows_by ok) (scandir l).
Proof. intros s. now apply grows_by_same. Qed.

Lemma grows_scandir_cwd E l : preserves (grows_by ok) (scandir_cwd E l).
Proof. intros s. now apply grows_by_same. Qed.

Lemma grows_remove l : preserves (grows_by ok) (remove l).
Proof.
  intros s. apply grows_by_same. unfold remove.
  now destruct (FS.lookup _ _) as [[? ?|?]|].
Qed.

Lemma grows_stat_mode l : preserves (grows_by ok) (stat_mode l).
Proof.
  intros s. apply grows_by_same. unfold stat_mode.
  now destruct (FS.lookup _ _) as [[? ?|?]|].
Qed.

Lemma grows_chmod E l mode : preserves (grows_by ok) (chmod E l mode).
Proof.
  intros s. apply grows_by_same. unfold chmod.
  now destruct (FS.lookup _ _) as [[? ?|?]|].
Qed.

Lemma store_message E l data s : message (snd (store E l data s)) = message s.
Proof.
  unfold store. destruct (FS.lookup _ _) as [[? ?|?]|]; try reflexivity.
  now destruct (FS.is_dir _ _).
Qed.

Lemma grows_copyfile E src dst : preserves (grows_by ok) (copyfile E src dst).
Proof.
  intros s. apply grows_by_same. unfold copyfile.
  destruct (FS.lookup _ (cwd E)) as [[? ?|?]|]; try reflexivity.
  now rewrite store_message.
Qed.

Lemma grows_copytree E src dst : preserves (grows_by ok) (copytree E src dst).
Proof.
  intros s. apply grows_by_same. unfold copytree.
  destruct (FS.lookup _ (cwd E)) as [[? ?|?]|]; try reflexivity.
  destruct (FS.exists_at _ _); [reflexivity|].
  now destruct (FS.mkdirs _ _).
Qed.

Lemma grows_write_text E l data : preserves (grows_by ok) (write_text E l data).
Proof.
  intros s. apply grows_by_same. unfold write_text. now rewrite store_message.
Qed.

End Trace.

Lemma install_steps_lines (E : env) (P : loc) (b : bool) :
  preserves (grows_by (install_line P (negb b))) (install_steps E P b).
Proof.
  set (ok := install_line P (negb b)).
  assert (Href := grows_by_refl ok). assert (Htr := grows_by_trans ok).
  unfold install_steps.
  apply preserves_bind; [exact Htr| |intros _].
  { unfold delete_old_version.
    apply preserves_bind; [exact Htr|apply grows_rmtree|intros _].
    apply preserves_bind; [exact Htr|apply grows_scandir|intros files].
    apply preserves_for_each; [exact Href|exact Htr|]. intros name.
    unfold purge_entry.
    destruct (negb (contains "config" name)); [|now apply preserves_ret].
    apply preserves_try; [exact Htr| |intros _; now apply preserves_ret].
    apply preserves_bind; [exact Htr|apply grows_remove|intros _].
    apply grows_output. left. now exists name. }
  apply preserves_bind; [exact Htr| |intros _].
  { unfold install_new_version.
    apply preserves_bind; [exact Htr|apply grows_copyfile|intros _].
    apply grows_output. right; left. now exists APP. }
  apply preserves_bind; [exact Htr| |intros _].
  { unfold install_localization.
    apply preserves_bind; [exact Htr|apply grows_copytree|intros _].
    apply grows_output. right; left. now exists "locale". }
  apply preserves_bind; [exact Htr| |intros _].
  { unfold make_executable.
    apply preserves_try; [exact Htr| |intros _; now apply preserves_ret].
    apply preserves_bind; [exact Htr|apply grows_stat_mode|intros st].
    apply grows_chmod. }
  apply preserves_bind; [exact Htr| |intros _].
  { unfold install_configuration.
    apply preserves_try; [exact Htr| |intros _; now apply preserves_ret].
    apply preserves_bind; [exact Htr|apply grows_scandir_cwd|intros files].
    apply preserves_for_each; [exact Href|exact Htr|]. intros name.
    unfold seed_entry.
    apply preserves_bind; [exact Htr|apply grows_isfile|intros present].
    destruct (negb present).
    - apply preserves_bind; [exact Htr|apply grows_copyfile|intros _].
      apply grows_output. right; left. now exists name.
    - apply grows_output. right; right; left. now exists name. }
  apply preserves_bind; [exact Htr| |intros _].
  { apply grows_output. right; right; right; left. reflexivity. }
  apply preserves_bind; [exact Htr| |intros _].
  { unfold ask_shortcut. destruct b; cbn [negb].
    - now apply preserves_ret.
    - apply grows_output. right; right; right; right. now split. }
  apply grows_write_text.
Qed.

Lemma install_line_weaken (P : loc) (b : bool) (l : string) :
  install_line P b l -> install_line P true l.
Proof.
  unfold install_line. intros [H|[H|[H|[H|[_ H]]]]].
  - left. exact H.
  - right; left. exact H.
  - right; right; left. exact H.
  - right; right; right; left. exact H.
  - right; right; right; right. split; [reflexivity | exact H].
Qed.

Lemma install_lines (E : env) (P : loc) :
  preserves (grows_by (install_line P true)) (install E P).
Proof.
  set (ok := install_line P true).
  assert (Href := grows_by_refl ok). assert (Htr := grows_by_trans ok).
  unfold install.
  apply preserves_bind; [exact Htr|apply grows_makedirs|intros _].
  apply preserves_bind; [exact Htr|apply grows_isfile|intros b].
  apply preserves_bind; [exact Htr|apply grows_makedirs|intros _].
  intros s. destruct (install_steps_lines E P b s) as (lines & Hm & Hf).
  exists lines. split; [exact Hm|].
  eapply Forall_impl; [|exact Hf]. apply install_line_weaken.
Qed.

(** X8 (the trace is an append-only log of known lines).  A run never
    drops or changes a line that was on the trace: it only appends.  Each
    line [install] appends is a "Removing", "Copying" or "Keeping" line,
    the success message or the shortcut message; and when [install] raises,
    the call site appends the exception's message after them, as one more
    line. *)
Theorem trace_append_only (E : env) (P : loc) (s : state) :
  exists lines,
    message (snd (install E P s)) = message s ++ lines /\
    Forall (install_line P true) lines /\
    message (snd (run E P s))
    = message s ++ lines ++
      match fst (install E P s) with
      | Ok _ => []
      | Raise e => [str e]
      end.
Proof.
  destruct (install_lines E P s) as (lines & Hm & Hf).
  exists lines. split; [exact Hm|]. split; [exact Hf|].
  unfold run, try_except.
  destruct (install E P s) as [[[]|e] s1]; cbn [fst snd] in *.
  - now rewrite app_nil_r.
  - unfold output. cbn [snd message]. now rewrite Hm, app_assoc.
Qed.

(** ** Running the installer again *)

Lemma install_flag (E : env) (P : loc) (s : state) :
  install E P s
  = install_classified E P (FS.is_file (comps (installDir P) ++ [APP]) (fs s)) s.
Proof.
  unfold install, install_classified, bind, isfile.
  destruct (makedirs P s) as [[[]|e] sa] eqn:Ha; [|reflexivity].
  now rewrite (makedirs_is_file _ _ _ _ _ Ha).
Qed.

Lemma shortcut_line_distinct (P : loc) :
  ~ install_line P false (safe_substitute SHORTCUT_MESSAGE (mapping P)).
Proof.
  intros [[n H]|[[n H]|[[n H]|[H|[H _]]]]];
    try (vm_compute in H; discriminate H).
Qed.

Lemma install_classified_lines (E : env) (P : loc) (b : bool) :
  preserves (grows_by (install_line P (negb b))) (install_classified E P b).
Proof.
  set (ok := install_line P (negb b)).
  assert (Htr := grows_by_trans ok).
  unfold install_classified.
  apply preserves_bind; [exact Htr|apply grows_makedirs|intros _].
  apply preserves_bind; [exact Htr|apply grows_makedirs|intros _].
  apply install_steps_lines.
Qed.

(** X9 (a second run is an update).  Once [install] has returned normally,
    any later run on the file system it left, on whatever platform and
    from whatever bundle, finds the program file, so it is classified as an
    update, and none of the lines it appends is the shortcut message. *)
Theorem rerun_is_update (E E' : env) (P : loc) (s s1 s1' : state) :
  install E P s = (Ok tt, s1) ->
  fs s1' = fs s1 ->
  install E' P s1' = install_classified E' P true s1' /\
  exists lines,
    message (snd (install E' P s1')) = message s1' ++ lines /\
    Forall (install_line P false) lines /\
    ~ In (safe_substitute SHORTCUT_MESSAGE (mapping P)) lines.
Proof.
  intros H Hfs.
  assert (Hfile : FS.is_file (comps (installDir P) ++ [APP]) (fs s1') = true).
  { destruct (install_ok_inv _ _ _ _ H) as (sa & sb & Ha & Hb & H').
    apply install_steps_ok_inv in H'
      as (t1 & t2 & t3 & t4 & t5 & t6 & t7 & H1 & H2 & H3 & H4 & H5 & H6 & H7 & H8).
    pose proof (program_absent_after_purge E P sb t1 t2 H1 H2) as Hn.
    destruct (install_new_version_fresh E P t1 t2 H2 Hn) as (data & m0 & Hsrc & Hdst).
    pose proof (prefix_refl (comps (installDir P) ++ [APP])) as Hq.
    rewrite <- (preserves_run _ _ _ _ _
                  (same_install_localization E P APP _ Hq eq_refl) H3) in Hdst.
    apply (make_executable_content E) in Hdst. rewrite H4 in Hdst. cbn [snd] in Hdst.
    rewrite <- (preserves_run _ _ _ _ _
                  (same_install_configuration E P APP _ Hq eq_refl) H5) in Hdst.
    rewrite <- (output_fs _ _ _ H6) in Hdst.
    rewrite <- (ask_shortcut_fs _ _ _ _ H7) in Hdst.
    rewrite <- (preserves_run _ _ _ _ _
                  (same_create_startup_script E P APP _ Hq eq_refl) H8) in Hdst.
    unfold FS.is_file. now rewrite Hfs, Hdst. }
  assert (Heq : install E' P s1' = install_classified E' P true s1').
  { now rewrite install_flag, Hfile. }
  split; [exact Heq|].
  rewrite Heq.
  destruct (install_classified_lines E' P true s1') as (lines & Hm & Hf).
  exists lines. split; [exact Hm|]. split; [exact Hf|].
  intros Hin. rewrite Forall_forall in Hf.
  exact (shortcut_line_distinct P (Hf _ Hin)).
Qed.

Lemma rerun_is_update_witness :
  let s1 := snd (install host_linux (main_pywriterPath host_linux)
                   (initial home_empty)) in
  install host_windows (main_pywriterPath host_linux) s1
  = install_classified host_windows (main_pywriterPath host_linux) true s1.
Proof.
  intros s1.
  refine (proj1 (rerun_is_update host_linux host_windows
                   (main_pywriterPath host_linux) (initial home_empty)
                   s1 s1 _ eq_refl)).
  vm_compute. reflexivity.
Defined.

(** ** When the installation succeeds *)

Lemma prefix_trans (p q r : FS.path) :
  FS.prefix p q = true -> FS.prefix q r = true -> FS.prefix p r = true.
Proof.
  intros H1 H2. apply FSFacts.prefix_app in H1 as (a & ->).
  apply FSFacts.prefix_app in H2 as (b & ->).
  rewrite <- app_assoc. apply FSFacts.prefix_app_true.
Qed.

Lemma mkdirs_some_no_file (p : FS.path) (n n' : FS.node) (d : FS.path) :
  FS.mkdirs p n = Some n' -> FS.prefix d p = true -> FS.is_file d n = false.
Proof.
  intros Hm Hp. destruct (FS.is_file d n) eqn:Hf; [|reflexivity].
  assert (Hn : FS.mkdirs p n = None) by (apply MkdirsFacts.mkdirs_none; eauto).
  congruence.
Qed.

Lemma makedirs_clear (l : loc) (s : state) :
  (forall d, FS.prefix d (comps l) = true -> FS.is_file d (fs s) = false) ->
  exists s', makedirs l s = (Ok tt, s').
Proof.
  intros H. unfold makedirs.
  destruct (FS.mkdirs (comps l) (fs s)) as [n|] eqn:Hm; [eauto|].
  apply MkdirsFacts.mkdirs_none in Hm as (d & Hp & Hf).
  rewrite (H d Hp) in Hf. discriminate.
Qed.

Section Success.

Variable E : env.
Variable P : loc.

Let I : FS.path := comps (installDir P).

Lemma prefix_P_cnf : FS.prefix (comps P) (comps (cnfDir P)) = true.
Proof.
  cbn [cnfDir installDir child comps]. rewrite <- app_assoc.
  apply FSFacts.prefix_app_true.
Qed.

(** An entry of the installation directory other than [config] is the same
    after the two calls of [makedirs]. *)
Lemma prepared_entry x s sa sb ra rb :
  String.eqb "config" x = false ->
  makedirs P s = (ra, sa) -> makedirs (cnfDir P) sa = (rb, sb) ->
  FS.lookup (I ++ [x]) (fs sb) = FS.lookup (I ++ [x]) (fs s).
Proof.
  intros Hx Ha Hb.
  assert (Hlong : FS.prefix (comps (installDir P) ++ [x]) (comps P) = false).
  { cbn [installDir child comps]. rewrite <- app_assoc. apply prefix_longer. }
  unfold I.
  rewrite (preserves_run _ _ _ _ _
             (same_makedirs (comps (installDir P) ++ [x]) (cnfDir P)
                (sibling_not_prefix _ x "config" Hx)) Hb).
  apply (preserves_run _ _ _ _ _
           (same_makedirs (comps (installDir P) ++ [x]) P Hlong) Ha).
Qed.

(** What the purge leaves under a name without "config": nothing, unless a
    directory other than [locale] was there. *)
Lemma purge_clears x s s1 :
  contains "config" x = false ->
  FS.is_dir I (fs s) = true ->
  delete_old_version P s = (Ok tt, s1) ->
  (FS.is_dir (I ++ [x]) (fs s) = false \/ x = "locale") ->
  FS.lookup (I ++ [x]) (fs s1) = None.
Proof.
  intros Hx HI H1 Hc.
  destruct (purge_in_directory P s HI)
    as (t1 & es1 & t2 & Hr & _ & Hloc & _ & Hd & _).
  rewrite H1 in Hd. injection Hd as <-.
  unfold I in *.
  destruct (FS.lookup (comps (installDir P) ++ [x]) (fs s)) as [[data m|es]|] eqn:Hs.
  - pose proof (delete_removes_file P s x data m Hs Hx) as Hg.
    now rewrite H1 in Hg.
  - destruct Hc as [Hc| ->].
    + unfold FS.is_dir in Hc. now rewrite Hs in Hc.
    + apply Hloc. unfold FS.is_dir. now rewrite Hs.
  - destruct (String.eqb x "locale") eqn:Hl.
    + apply String.eqb_eq in Hl; subst x.
      assert (Ht1 : FS.lookup (comps (installDir P) ++ ["locale"]) (fs t1) = None).
      { revert Hr. unfold rmtree_ignore_errors, FS.is_dir.
        cbn [comps child_sep]. rewrite Hs. now intros [= <-]. }
      assert (Hdir : exists es, FS.lookup (comps (installDir P)) (fs t1) = Some (FS.Dir es)).
      { revert Hr. unfold rmtree_ignore_errors, FS.is_dir.
        cbn [comps child_sep]. rewrite Hs. intros [= <-]. cbn [fs log].
        unfold FS.is_dir in HI.
        destruct (FS.lookup (comps (installDir P)) (fs s)) as [[|es]|];
          try discriminate. eauto. }
      destruct Hdir as (es & Hes).
      pose proof (delete_old_version_loop P s es) as Hloop.
      assert (Hsnd : t1 = snd (rmtree_ignore_errors
                                 (child_sep (installDir P) "locale") s))
        by now rewrite Hr.
      rewrite <- Hsnd in Hloop. specialize (Hloop Hes).
      rewrite H1 in Hloop.
      assert (Hs1 : s1 = snd (for_each (map fst es) (purge_entry P) t1))
        by now rewrite <- Hloop.
      rewrite Hs1.
      apply (purge_loop_keeps P "locale" None (map fst es));
        [discriminate | exact Ht1].
    + apply (preserves_run _ _ _ _ _
               (delete_old_version_keeps P x None ltac:(discriminate)
                  ltac:(intros ->; discriminate)) H1).
      exact Hs.
Qed.

Lemma is_dir_lookup (p : FS.path) (n : FS.node) :
  FS.is_dir p n = true <-> exists es, FS.lookup p n = Some (FS.Dir es).
Proof.
  unfold FS.is_dir. split.
  - destruct (FS.lookup p n) as [[|es]|]; try discriminate. eauto.
  - now intros (es & ->).
Qed.

Lemma parent_is_dir (d : FS.path) (x : string) (n : FS.node) v :
  FS.lookup (d ++ [x]) n = Some v -> FS.is_dir d n = true.
Proof.
  intros H. apply lookup_snoc_dir in H as (es & Hd & _).
  apply is_dir_lookup. eauto.
Qed.

(** After the preparation the configuration directory, and so the
    installation directory, is there. *)
Lemma prepared_dirs sa sb :
  makedirs (cnfDir P) sa = (Ok tt, sb) ->
  exists es, FS.lookup (I ++ ["config"]) (fs sb) = Some (FS.Dir es).
Proof.
  intros Hb. apply makedirs_ok_inv in Hb as (Hm & _).
  rewrite <- (app_nil_r (comps (cnfDir P))) in Hm.
  exact (FSFacts.mkdirs_dir _ _ _ _ Hm).
Qed.

Lemma finish_returns b s3 :
  exists s7, (make_executable E P ;;
              install_configuration E P ;;
              display_success P ;;
              ask_shortcut P b) s3 = (Ok tt, s7).
Proof.
  rewrite (bind_ok _ _ _ _ _ (make_executable_ok E P s3)).
  set (s4 := snd (make_executable E P s3)).
  pose proof (install_configuration_ok E P s4) as H5.
  destruct (install_configuration E P s4) as [r5 s5] eqn:E5.
  cbn [fst] in H5. subst r5.
  rewrite (bind_ok _ _ _ _ _ E5).
  unfold display_success, ask_shortcut, bind, output, pass, ret.
  destruct (negb b); eauto.
Qed.

(** With the bundle complete and no directory in the way, everything up to
    the last statement returns. *)
Lemma before_startup_script_returns s :
  (forall d, FS.prefix d (comps (cnfDir P)) = true -> FS.is_file d (fs s) = false) ->
  FS.is_file [APP] (cwd E) = true ->
  FS.is_dir ["locale"] (cwd E) = true ->
  FS.is_dir (I ++ [APP]) (fs s) = false ->
  exists s7, before_startup_script E P s = (Ok tt, s7).
Proof.
  intros C1 C2 C3 C4.
  destruct (makedirs_clear P s) as (sa & Ha).
  { intros d Hd. apply C1. exact (prefix_trans _ _ _ Hd prefix_P_cnf). }
  destruct (makedirs_clear (cnfDir P) sa) as (sb & Hb).
  { intros d Hd. rewrite (makedirs_is_file _ _ _ _ d Ha). now apply C1. }
  destruct (prepared_dirs sa sb Hb) as (ec & Hcnf).
  pose proof (parent_is_dir _ _ _ _ Hcnf) as HI.
  destruct (purge_in_directory P sb HI)
    as (t1 & es1 & s1 & _ & _ & _ & _ & H1 & _).
  assert (Hcnf1 : FS.lookup (I ++ ["config"]) (fs s1) = Some (FS.Dir ec)).
  { exact (preserves_run _ _ _ _ _
             (delete_old_version_keeps P "config" (Some (FS.Dir ec))
                ltac:(discriminate) ltac:(discriminate)) H1 Hcnf). }
  pose proof (parent_is_dir _ _ _ _ Hcnf1) as HI1.
  assert (Happ : FS.lookup (I ++ [APP]) (fs s1) = None).
  { apply (purge_clears APP sb s1 eq_refl HI H1). left.
    unfold FS.is_dir. rewrite (prepared_entry APP s sa sb _ _ eq_refl Ha Hb).
    exact C4. }
  assert (Hloc : FS.lookup (I ++ ["locale"]) (fs s1) = None).
  { apply (purge_clears "locale" sb s1 eq_refl HI H1). now right. }
  (* the program copy *)
  assert (H2 : exists s2, install_new_version E P s1 = (Ok tt, s2)).
  { unfold install_new_version, bind, copyfile, store, output.
    cbn [comps child_sep fs log]. unfold I in *. rewrite Happ.
    unfold FS.is_file in C2.
    destruct (FS.lookup [APP] (cwd E)) as [[data m0|?]|]; try discriminate.
    unfold FS.parent. rewrite removelast_last. rewrite HI1. eauto. }
  destruct H2 as (s2 & H2).
  destruct (install_new_version_fresh E P s1 s2 H2 Happ) as (data & m0 & _ & Hprog).
  pose proof (parent_is_dir _ _ _ _ Hprog) as HI2.
  assert (Hloc2 : FS.lookup (I ++ ["locale"]) (fs s2) = None).
  { rewrite <- Hloc. symmetry.
    exact (eq_sym (preserves_run _ _ _ _ _
             (same_install_new_version E P "locale" _
                (prefix_refl _) eq_refl) H2)). }
  (* the locale copy *)
  assert (H3 : exists s3, install_localization E P s2 = (Ok tt, s3)).
  { unfold install_localization, bind, copytree, output.
    cbn [comps child_sep fs log]. unfold I in *.
    apply is_dir_lookup in C3 as (es & ->).
    unfold FS.exists_at. rewrite Hloc2.
    unfold FS.parent. rewrite removelast_last.
    apply is_dir_lookup in HI2 as (ei & HI2).
    rewrite (FSFacts.mkdirs_existing _ _ _ HI2). eauto. }
  destruct H3 as (s3 & H3).
  destruct (finish_returns (FS.is_file (comps (child_sep (installDir P) APP)) (fs sa)) s3)
    as (s7 & H7).
  exists s7. unfold before_startup_script.
  rewrite (bind_ok _ _ _ _ _ Ha).
  unfold bind at 1. unfold isfile.
  rewrite (bind_ok _ _ _ _ _ Hb).
  rewrite (bind_ok _ _ _ _ _ H1).
  rewrite (bind_ok _ _ _ _ _ H2).
  rewrite (bind_ok _ _ _ _ _ H3).
  exact H7.
Qed.

End Success.

(** X10 (when the installation succeeds).  [install] returns normally
    exactly when no regular file sits on the way to the configuration
    directory, the bundle holds the program as a regular file and [locale]
    as a directory, and neither the program's name nor [run.pyw] is taken
    by a directory in the installation directory.  Nothing else in the
    target tree or in the bundle can make it raise: stale files, a missing
    or odd sample directory and failing sample copies are all absorbed. *)
Theorem install_returns_iff (E : env) (P : loc) (s : state) :
  (exists s', install E P s = (Ok tt, s')) <->
  ((forall d, FS.prefix d (comps (cnfDir P)) = true -> FS.is_file d (fs s) = false) /\
   FS.is_file [APP] (cwd E) = true /\
   FS.is_dir ["locale"] (cwd E) = true /\
   FS.is_dir (comps (installDir P) ++ [APP]) (fs s) = false /\
   FS.is_dir (comps (installDir P) ++ [START_UP_SCRIPT]) (fs s) = false).
Proof.
  split.
  - intros (s' & H).
    pose proof H as H0.
    apply install_ok_inv in H as (sa & sb & Ha & Hb & H).
    apply install_steps_ok_inv in H
      as (s1 & s2 & s3 & s4 & s5 & s6 & s7 & H1 & H2 & H3 & _).
    split; [|split; [|split; [|split]]].
    + intros d Hd. rewrite <- (makedirs_is_file _ _ _ _ d Ha).
      apply makedirs_ok_inv in Hb as (Hm & _).
      exact (mkdirs_some_no_file _ _ _ _ Hm Hd).
    + destruct (install_new_version_ok E P s1 s2 H2) as (data & m0 & m & Hsrc & _).
      unfold FS.is_file. now rewrite Hsrc.
    + destruct (install_localization_ok E P s2 s3 H3) as (es & Hsrc & _).
      unfold FS.is_dir. now rewrite Hsrc.
    + pose proof (program_absent_after_purge E P sb s1 s2 H1 H2) as Hn.
      unfold FS.is_dir.
      rewrite <- (prepared_entry P APP s sa sb _ _ eq_refl Ha Hb).
      destruct (FS.lookup (comps (installDir P) ++ [APP]) (fs sb))
        as [[data m|es]|] eqn:Hsb; try reflexivity.
      pose proof (preserves_run _ _ _ _ _
                    (delete_old_version_keeps P APP (Some (FS.Dir es))
                       ltac:(discriminate) ltac:(discriminate)) H1 Hsb) as Hd.
      congruence.
    + rewrite install_last_step in H0.
      apply bind_ok_inv in H0 as ([] & t7 & Hbefore & Hlast).
      destruct (before_startup_script_state E P s t7 Hbefore) as (_ & _ & Hkeep).
      unfold FS.is_dir.
      destruct (FS.lookup (comps (installDir P) ++ [START_UP_SCRIPT]) (fs s))
        as [[data m|es]|] eqn:Hs; try reflexivity.
      specialize (Hkeep es eq_refl).
      revert Hlast. unfold create_startup_script, write_text, store.
      cbn [comps child_sep fs log]. now rewrite Hkeep.
  - intros (C1 & C2 & C3 & C4 & C5).
    destruct (before_startup_script_returns E P s C1 C2 C3 C4) as (s7 & H7).
    destruct (before_startup_script_state E P s s7 H7) as ((es & HI) & Hnone & _).
    specialize (Hnone C5).
    rewrite install_last_step, (bind_ok _ _ _ _ _ H7).
    unfold create_startup_script, write_text, store.
    cbn [comps child_sep fs log]. rewrite Hnone.
    unfold FS.parent, FS.is_dir. rewrite removelast_last, HI. eauto.
Qed.

Lemma install_returns_iff_witness :
  exists s', install host_linux (main_pywriterPath host_linux)
               (initial home_shared) = (Ok tt, s').
Proof.
  apply (proj2 (install_returns_iff host_linux (main_pywriterPath host_linux)
                  (initial home_shared))).
  split; [|now vm_compute].
  intros d. apply (mkdirs_some_no_file (comps (cnfDir (main_pywriterPath host_linux)))
                     (fs (initial home_shared))
                     (fs (initial home_shared))).
  vm_compute. reflexivity.
Defined.

(** ** A failed update *)

Lemma no_program_raises (E : env) (P : loc) (s1 : state) :
  FS.is_file [APP] (cwd E) = false ->
  exists e s2, install_new_version E P s1 = (Raise e, s2) /\ fs s2 = fs s1.
Proof.
  intros H. unfold install_new_version, bind, copyfile, FS.is_file in *.
  cbn [comps]. destruct (FS.lookup [APP] (cwd E)) as [[data m|es]|];
    [discriminate | eauto | eauto].
Qed.

(** X11 (a failed update leaves the old version removed).  [install]
    deletes before it copies: when the bundle has no program file and the
    directories can be prepared, the run raises, and every regular file
    that was a direct entry of the installation directory under a name
    without "config" -- the old program and its launcher among them -- is
    gone when the error is reported. *)
Theorem failed_update_uninstalls (E : env) (P : loc) (s : state)
    (x data : string) (m : Z) :
  FS.is_file [APP] (cwd E) = false ->
  (forall d, FS.prefix d (comps (cnfDir P)) = true -> FS.is_file d (fs s) = false) ->
  FS.lookup (comps (installDir P) ++ [x]) (fs s) = Some (FS.File data m) ->
  contains "config" x = false ->
  (exists e, fst (install E P s) = Raise e) /\
  FS.lookup (comps (installDir P) ++ [x]) (fs (snd (run E P s))) = None.
Proof.
  intros Hb C1 Hx Hc.
  destruct (makedirs_clear P s) as (sa & Ha).
  { intros d Hd. apply C1. exact (prefix_trans _ _ _ Hd (prefix_P_cnf P)). }
  destruct (makedirs_clear (cnfDir P) sa) as (sb & Hsb).
  { intros d Hd. rewrite (makedirs_is_file _ _ _ _ d Ha). now apply C1. }
  destruct (prepared_dirs P sa sb Hsb) as (ec & Hcnf).
  pose proof (parent_is_dir _ _ _ _ Hcnf) as HI.
  destruct (purge_in_directory P sb HI)
    as (t1 & es1 & s1 & _ & _ & _ & _ & H1 & _).
  assert (Hxc : String.eqb "config" x = false).
  { rewrite String.eqb_sym. now apply contains_config_name. }
  assert (Hgone : FS.lookup (comps (installDir P) ++ [x]) (fs s1) = None).
  { pose proof (delete_removes_file P sb x data m) as Hd.
    rewrite H1 in Hd. apply Hd; [|exact Hc].
    now rewrite (prepared_entry P x s sa sb _ _ Hxc Ha Hsb). }
  destruct (no_program_raises E P s1 Hb) as (e & s2 & H2 & Hfs).
  assert (Hi : install E P s = (Raise e, s2)).
  { unfold install. rewrite (bind_ok _ _ _ _ _ Ha).
    unfold bind at 1, isfile. rewrite (bind_ok _ _ _ _ _ Hsb).
    unfold install_steps. rewrite (bind_ok _ _ _ _ _ H1).
    now rewrite (bind_raise _ _ _ _ _ H2). }
  split.
  - exists e. now rewrite Hi.
  - unfold run. rewrite (try_raise _ _ _ _ _ Hi). unfold output.
    cbn [snd fs]. now rewrite Hfs.
Qed.

Lemma failed_update_uninstalls_witness :
  FS.lookup (main_installDir ++ [APP])
    (fs (snd (main host_no_program (initial home_installed)))) = None.
Proof.
  refine (proj2 (failed_update_uninstalls host_no_program
                   (main_pywriterPath host_no_program) (initial home_installed)
                   APP "old program" regular eq_refl _ eq_refl eq_refl)).
  intros d. apply (mkdirs_some_no_file
                     (comps (cnfDir (main_pywriterPath host_no_program)))
                     (fs (initial home_installed))
                     (fs (initial home_installed))).
  vm_compute. reflexivity.
Defined.

(** ** The two messages *)

(** X12 (what the messages say).  Whatever the installation path is, the
    success message is the fixed text with the application's name and the
    path of the installed program file put in, and the shortcut message
    ends in the launcher command for that same path.  The path is put in
    as it is: a dollar sign in it is not read as a placeholder. *)
Theorem message_texts (P : loc) :
  safe_substitute SUCCESS_MESSAGE (mapping P)
  = (nl ++ APPNAME ++ " is installed here:" ++ nl
     ++ text (child_sep (installDir P) APP) ++ nl)%string /\
  safe_substitute SHORTCUT_MESSAGE (mapping P)
  = (nl ++ "Now you might want to create a shortcut on your desktop.  " ++ nl
     ++ nl
     ++ "On Windows, open the installation folder, hold down the Alt key on your keyboard, " ++ nl
     ++ "and then drag and drop " ++ quote ++ "run.pyw" ++ quote ++ " to your desktop." ++ nl
     ++ nl
     ++ "On Linux, create a launcher on your desktop. With xfce for instance, the launcher's command may look like this:" ++ nl
     ++ "python3 '" ++ text (child_sep (installDir P) APP) ++ "' %f" ++ nl)%string /\
  text (child_sep (installDir P) APP)
  = ((text P ++ APPNAME) ++ "/" ++ APP)%string.
Proof. repeat split. Qed.
